(** * Pdf_Parser: the agent's generate / write / test / refine loop

    A shallow embedding of [agent.py] (the retry controller, the prompt
    builder, the code extractor, the artifact writer and the validator
    runner) and of [custom_parsers/icici_parser.py] (the generated parser),
    followed by the properties of the specification that are proved about
    them.

    Conventions of the embedding.
    - A Python [str] is a [string]; characters are the code points 0..255.
    - The file system is a pair of a finite map from paths to file contents
      and a finite set of directories.  Paths are read literally, component
      by component.  [os.makedirs] and [open] raise the [OSError] the shape
      of the file system calls for: a regular file where a directory is
      needed, a directory where a file is to be written, a missing parent.
    - Everything outside the agent (the Gemini client, [subprocess.run],
      PyPDF2, [pandas.read_csv], the process environment) is a field of the
      record [World]; pdfplumber and the numbers of pandas are parameters of
      the parser.  The program is verified for every behaviour of these
      collaborators.
    - Effects are threaded by a small state-and-exception monad [M]; the
      state holds the file system and the list of effects performed so far. *)

From Stdlib Require Import ZArith QArith Ascii String List Lia.
From stdpp Require Import base option strings pretty gmap list.

(** ** Python string primitives *)

Module PyStr.

Definition chr (n : nat) : string := String (ascii_of_nat n) EmptyString.

(** The characters a string literal cannot hold directly. *)
Definition nl : string := chr 10.
Definition dquote : string := chr 34.

(** [str.isspace] on one character, for code points below 256: the ASCII
    white space 9..13 and 32, the separators 28..31, NEL and NBSP. *)
Definition isspace (c : ascii) : bool :=
  let n := nat_of_ascii c in
  (((9 <=? n) && (n <=? 13)) || ((28 <=? n) && (n <=? 32))
   || (n =? 133) || (n =? 160))%nat.

Fixpoint lstrip (s : string) : string :=
  match s with
  | EmptyString => EmptyString
  | String c s' => if isspace c then lstrip s' else s
  end.

Definition is_empty (s : string) : bool :=
  match s with EmptyString => true | String _ _ => false end.

Fixpoint rstrip (s : string) : string :=
  match s with
  | EmptyString => EmptyString
  | String c s' =>
      let r := rstrip s' in
      if isspace c && is_empty r then EmptyString else String c r
  end.

(** [s.strip()] *)
Definition strip (s : string) : string := rstrip (lstrip s).

(** [s.startswith(p)], returning what follows the prefix. *)
Fixpoint drop_prefix (p s : string) : option string :=
  match p with
  | EmptyString => Some s
  | String a p' =>
      match s with
      | EmptyString => None
      | String b s' => if Ascii.eqb a b then drop_prefix p' s' else None
      end
  end.

(** [hay.partition(needle)] at the first occurrence: the text before it
    and the text after it, [None] when the needle does not occur. *)
Fixpoint split_first (needle hay : string) : option (string * string) :=
  match drop_prefix needle hay with
  | Some rest => Some (EmptyString, rest)
  | None =>
      match hay with
      | EmptyString => None
      | String c hay' =>
          match split_first needle hay' with
          | Some (before, rest) => Some (String c before, rest)
          | None => None
          end
      end
  end.

(** [needle in hay] *)
Definition contains (needle hay : string) : bool :=
  match split_first needle hay with Some _ => true | None => false end.

(** [s * n] *)
Fixpoint repeat (s : string) (n : nat) : string :=
  match n with O => EmptyString | S n' => s +:+ repeat s n' end.

(** [c.upper()] for one character below 256.  The letters a..z and the
    Latin-1 letters 224..254 (247, the division sign, is no letter) have
    their capital 32 code points below; the sharp s (223) becomes [SS].  The
    capitals of the micro sign (181) and of y with diaeresis (255) are
    U+039C and U+0178, outside the alphabet of the embedding: these two
    characters are left as they are. *)
Definition upper_char (c : ascii) : string :=
  let n := nat_of_ascii c in
  if (((97 <=? n) && (n <=? 122))
      || ((224 <=? n) && (n <=? 254) && negb (n =? 247)))%nat
  then chr (n - 32)
  else if (n =? 223)%nat then "SS"
  else String c EmptyString.

(** [s.upper()] *)
Fixpoint upper (s : string) : string :=
  match s with
  | EmptyString => EmptyString
  | String c s' => upper_char c +:+ upper s'
  end.

(** [c.lower()] for one character below 256: the letters A..Z and the
    Latin-1 capitals 192..222 (215, the multiplication sign, is no letter)
    have their small letter 32 code points above. *)
Definition lower_char (c : ascii) : ascii :=
  let n := nat_of_ascii c in
  if (((65 <=? n) && (n <=? 90))
      || ((192 <=? n) && (n <=? 222) && negb (n =? 215)))%nat
  then ascii_of_nat (n + 32) else c.

(** [s.lower()] *)
Fixpoint lower (s : string) : string :=
  match s with
  | EmptyString => EmptyString
  | String c s' => String (lower_char c) (lower s')
  end.

(** [s[:n]] *)
Fixpoint take (n : nat) (s : string) : string :=
  match n, s with
  | S n', String c s' => String c (take n' s')
  | _, _ => EmptyString
  end.

(** [sep.join(l)] *)
Fixpoint join (sep : string) (l : list string) : string :=
  match l with
  | [] => EmptyString
  | [x] => x
  | x :: l' => x +:+ sep +:+ join sep l'
  end.

(** [str(n)] for a natural number. *)
Definition of_nat (n : nat) : string := pretty n.

End PyStr.

(** ** Configuration and paths ([agent.py], lines 11-27) *)

Definition MAX_ATTEMPTS : nat := 3.
Definition MODEL_NAME : string := "gemini-2.5-flash".
Definition PARSER_DIR : string := "custom_parsers".
Definition TEST_SCRIPT : string := "tests/test_parser_template.py".
Definition DATA_DIR : string := "data/icici".
Definition PDF_PATH : string := DATA_DIR +:+ "/" +:+ "icici_sample.pdf".
Definition CSV_PATH : string := DATA_DIR +:+ "/" +:+ "icici_expected.csv".
Definition PARSER_PATH : string := PARSER_DIR +:+ "/" +:+ "icici_parser.py".

(** ** Code extractor ([extract_python_code]) *)

Definition fence_open : string := "```python" +:+ PyStr.nl.
Definition fence_close : string := "```".

(** [re.search(r"```python\n(.*?)```", response, re.DOTALL)]: the leftmost
    position at which the opening fence is followed, after the shortest
    possible text, by a closing fence; the result is group 1. *)
Fixpoint re_search_python_block (response : string) : option string :=
  match
    match PyStr.drop_prefix fence_open response with
    | Some rest => fst <$> PyStr.split_first fence_close rest
    | None => None
    end
  with
  | Some group1 => Some group1
  | None =>
      match response with
      | EmptyString => None
      | String _ response' => re_search_python_block response'
      end
  end.

Definition extract_python_code (response : string) : string :=
  match re_search_python_block response with
  | Some group1 => PyStr.strip group1
  | None => PyStr.strip response
  end.

(** ** Prompt builder ([generate_prompt]) *)

Definition default_columns_repr : string :=
  "['Date', 'Description', 'Withdrawal', 'Deposit', 'Balance']".

(** [columns_read] is the text of [df_expected.columns.tolist()] as the
    f-string renders it, [None] when [pd.read_csv] raised. *)
Definition base_prompt (target pdf_text : string)
    (columns_read : option string) : string :=
  let columns := default default_columns_repr columns_read in
  "
You are an expert " +:+ PyStr.dquote +:+ "Agent-as-Coder" +:+ PyStr.dquote +:+ " AI. Your goal is to write a Python parser for the bank statement PDF.

CONTEXT:
- **Target Bank:** " +:+ PyStr.upper target +:+ "
- **Target Schema (Columns):** " +:+ columns +:+ ".
- **PDF Raw Text Sample (for context):** --- START SAMPLE ---
" +:+ pdf_text +:+ "
--- END SAMPLE ---

CONSTRAINTS:
1.  **Tool Use:** You MUST use the `pdfplumber` library to handle tables robustly.
2.  **Parser Contract (T3):** The file MUST define a single function: `def parse(pdf_path: str) -> pd.DataFrame:`.
3.  **Data Transformation:** Map the input columns ('Debit Amt' and 'Credit Amt') to the target schema ('Withdrawal' and 'Deposit'). Missing values must be NaN. Dates must be standardized to YYYY-MM-DD format.
".

Definition generate_prompt_text (target pdf_text : string)
    (columns_read : option string) (is_initial : bool)
    (previous_code error_trace : string) : string :=
  let base := base_prompt target pdf_text columns_read in
  if is_initial then
    base +:+ PyStr.nl +:+ "**TASK:** Write the complete initial Python code for the function. Output ONLY the Python code block (using ```python ... ```)."
  else
    base +:+ "

Your previous code attempt failed the automated tests. Analyze the **ERROR TRACE** and **PREVIOUS CODE** to identify and fix the bug.

PREVIOUS CODE (FAILED):
```python
" +:+ previous_code +:+ "
```

ERROR TRACE (OBSERVATION):
```
" +:+ error_trace +:+ "
```

**INSTRUCTIONS:** Write the complete, fixed Python code block containing ONLY the `parse` function and necessary helpers. Do not include commentary.
".

(** ** The world outside the program *)

(** A raised Python exception: its class name and [str(e)]. *)
Record exn := Exn { exn_class : string; exn_text : string }.

(** What [subprocess.run(cmd, capture_output=True, text=True)] gives back. *)
Record CompletedProcess := {
  returncode : Z;
  stdout : string;
  stderr : string
}.

(** [subprocess.run] either returns a [CompletedProcess], whatever the exit
    status of the child, or raises: [OSError] when the interpreter cannot be
    started, [UnicodeDecodeError] when [text=True] cannot decode the bytes
    the child printed. *)
Inductive run_result :=
| Completed (p : CompletedProcess)
| RunRaised (e : exn).

(** [client.models.generate_content] followed by [response.text]: the
    text of the response; [None], for a response without a text part; an
    [APIError]; or any other exception.  The payloads of the last two are
    [str(e)]. *)
Inductive llm_result :=
| Response (text : string)
| NoText
| APIError (e : string)
| ClientFailure (e : string).

(** PyPDF2 on a file: the module is missing, reading raises, or the pages'
    [extract_text()] results in order. *)
Inductive pdf_result :=
| PdfNoModule
| PdfRaised (e : string)
| PdfPages (pages : list (option string)).

Record FS := {
  files : gmap string string;
  dirs : gset string
}.

(** The effects of a run, in the order they happen.  [Generating] is not an
    effect of the program: it records the loop variables each time the loop
    body is entered.  A call of the model is recorded as [LlmCall] with the
    text [get_llm_response] returned, as [LlmNoText] when it returned
    [None]. *)
Inductive event :=
| Print (line : string)
| Generating (attempts : nat) (previous_code error_trace : string)
| LlmCall (prompt reply : string)
| LlmNoText (prompt : string)
| Makedirs (dir : string)
| FileWrite (path content : string)
| Subprocess (cmd : list string) (res : run_result).

(** The collaborators.  Each one may answer differently every time it is
    asked: it is given the effects performed so far and the current file
    system.  The validation subprocess may also change the file system. *)
Record World := {
  getenv : string -> option string;
  sys_executable : string;
  generate_content : list event -> string -> string -> llm_result;
  subprocess_run : list event -> list string -> FS -> run_result * FS;
  pdf_reader : FS -> string -> pdf_result;
  read_csv_columns : FS -> string -> option string
}.

(** ** The effect monad *)

Record State := {
  fs : FS;
  trace : list event
}.

Inductive result (A : Type) :=
| Ret (a : A)
| Exit (code : Z)
| Raise (e : exn).
Arguments Ret {A} a.
Arguments Exit {A} code.
Arguments Raise {A} e.

Definition M (A : Type) : Type := State -> result A * State.

Definition ret {A} (a : A) : M A := fun s => (Ret a, s).

Definition bind {A B} (m : M A) (k : A -> M B) : M B :=
  fun s =>
    match m s with
    | (Ret a, s') => k a s'
    | (Exit c, s') => (Exit c, s')
    | (Raise e, s') => (Raise e, s')
    end.

#[global] Instance M_ret : MRet M := @ret.
#[global] Instance M_bind : MBind M := fun A B k m => bind m k.

(** [sys.exit(code)] *)
Definition sys_exit {A} (code : Z) : M A := fun s => (Exit code, s).

(** [raise e] *)
Definition raise {A} (e : exn) : M A := fun s => (Raise e, s).

(** [try: m  except Exception as e: handler e]; [SystemExit] is not an
    [Exception] and passes through. *)
Definition try_except {A} (m : M A) (handler : exn -> M A) : M A :=
  fun s =>
    match m s with
    | (Raise e, s') => handler e s'
    | r => r
    end.

Definition emit (e : event) : M unit :=
  fun s => (Ret tt, {| fs := fs s; trace := trace s ++ [e] |}).

(** [print(line)] *)
Definition print (line : string) : M unit := emit (Print line).

Definition get_fs : M FS := fun s => (Ret (fs s), s).
Definition get_trace : M (list event) := fun s => (Ret (trace s), s).
Definition put_fs (f : FS) : M unit :=
  fun s => (Ret tt, {| fs := f; trace := trace s |}).

(** [Path.exists()] *)
Definition path_exists (f : FS) (p : string) : bool :=
  bool_decide (is_Some (files f !! p)) || bool_decide (p ∈ dirs f).

(** ** The agent ([agent.py]) *)

Record loop_state := {
  attempts : nat;
  previous_code : string;
  error_trace : string
}.

(** How one pass through the loop body ends. *)
Inductive ctl :=
| Continue (st : loop_state)
| Break
| Return.

(** How the [while] loop was left: by the [return] of line 225, by one of
    the two [break]s, or because its condition became false.  [OutOfFuel]
    is the recursion bound of the embedding; [agent_loop_fuel] shows it is
    never the outcome of [run_agent]. *)
Inductive loop_exit :=
| Returned
| Broke
| CondFalse
| OutOfFuel.

Definition non_ascii (c : ascii) : bool := (128 <=? nat_of_ascii c)%nat.

(** [re.sub(r'[^\x00-\x7F]+', ' ', text)] *)
Fixpoint sub_non_ascii_runs (in_run : bool) (text : string) : string :=
  match text with
  | EmptyString => EmptyString
  | String c text' =>
      if non_ascii c then
        if in_run then sub_non_ascii_runs true text'
        else String " "%char (sub_non_ascii_runs true text')
      else String c (sub_non_ascii_runs false text')
  end.

Definition is_slash (c : ascii) : bool := Ascii.eqb c "/"%char.

(** [path[:path.rfind('/') + 1]] *)
Fixpoint dirname_head (path : string) : string :=
  match path with
  | EmptyString => EmptyString
  | String c path' =>
      let h := dirname_head path' in
      if PyStr.is_empty h then
        if is_slash c then String c EmptyString else EmptyString
      else String c h
  end.

Fixpoint all_slashes (s : string) : bool :=
  match s with
  | EmptyString => true
  | String c s' => is_slash c && all_slashes s'
  end.

Fixpoint rstrip_slashes (s : string) : string :=
  match s with
  | EmptyString => EmptyString
  | String c s' =>
      let r := rstrip_slashes s' in
      if is_slash c && PyStr.is_empty r then EmptyString else String c r
  end.

(** [os.path.dirname] *)
Definition dirname (path : string) : string :=
  let head := dirname_head path in
  if negb (PyStr.is_empty head) && negb (all_slashes head)
  then rstrip_slashes head else head.

(** The directory [d] and the directories above it. *)
Fixpoint path_prefixes (acc d : string) : list string :=
  match d with
  | EmptyString => [acc]
  | String c d' =>
      (if is_slash c && negb (PyStr.is_empty acc) then [acc] else [])
      ++ path_prefixes (acc +:+ String c EmptyString) d'
  end.

(** A regular file: a path that holds a content and is no directory. *)
Definition is_file (f : FS) (p : string) : bool :=
  bool_decide (is_Some (files f !! p)) && negb (bool_decide (p ∈ dirs f)).

Definition os_error (cls errno path : string) : exn :=
  Exn cls (errno +:+ ": '" +:+ path +:+ "'").

(** The first of the directories to make that is a regular file stops
    [os.makedirs]: [mkdir] fails with [EEXIST] on the directory itself, with
    [ENOTDIR] on the directory below a file, and [exist_ok] forgives
    neither. *)
Fixpoint first_file (f : FS) (prefixes : list string) : option exn :=
  match prefixes with
  | [] => None
  | p :: rest =>
      if is_file f p then
        Some (match rest with
              | [] => os_error "FileExistsError" "[Errno 17] File exists" p
              | q :: _ =>
                  os_error "NotADirectoryError" "[Errno 20] Not a directory" q
              end)
      else first_file f rest
  end.

(** The exception [os.makedirs(d, exist_ok=True)] raises, if any. *)
Definition makedirs_error (f : FS) (d : string) : option exn :=
  if PyStr.is_empty d then
    Some (os_error "FileNotFoundError" "[Errno 2] No such file or directory"
            EmptyString)
  else first_file f (path_prefixes EmptyString d).

(** The file system after [os.makedirs(d, exist_ok=True)] returned. *)
Definition made_dirs (f : FS) (d : string) : FS :=
  {| files := files f;
     dirs := dirs f ∪ list_to_set (path_prefixes EmptyString d) |}.

(** The exception [open(path, "w")] raises, if any: the path is a
    directory, or the directory it lies in is missing or is a regular
    file. *)
Definition write_error (f : FS) (path : string) : option exn :=
  let d := dirname path in
  if PyStr.is_empty path then
    Some (os_error "FileNotFoundError" "[Errno 2] No such file or directory"
            path)
  else if bool_decide (path ∈ dirs f) then
    Some (os_error "IsADirectoryError" "[Errno 21] Is a directory" path)
  else if PyStr.is_empty d || all_slashes d || bool_decide (d ∈ dirs f) then
    None
  else if is_file f d then
    Some (os_error "NotADirectoryError" "[Errno 20] Not a directory" path)
  else
    Some (os_error "FileNotFoundError" "[Errno 2] No such file or directory"
            path).

Definition required_imports : list string :=
  ["import pandas as pd"; "import pdfplumber"; "import re"].

(** What ["LLM_API_ERROR" in None] raises. *)
Definition none_not_iterable : exn :=
  Exn "TypeError" "argument of type 'NoneType' is not iterable".

Section Agent.

Context (w : World).

Definition read_pdf_text_for_prompt (pdf_path : string) : M string :=
  f ← get_fs;
  match pdf_reader w f pdf_path with
  | PdfNoModule =>
      raise (Exn "ImportError"
               "PyPDF2 (pypdf) not installed. Cannot read PDF for context.")
  | PdfRaised e =>
      raise (Exn "RuntimeError"
               ("Error reading PDF file " +:+ pdf_path +:+ ": " +:+ e))
  | PdfPages pages =>
      let text :=
        fold_left
          (fun text page_text =>
             match page_text with
             | Some t =>
                 if PyStr.is_empty t then text else text +:+ t +:+ PyStr.nl
             | None => text
             end)
          pages EmptyString in
      let cleaned := sub_non_ascii_runs false text in
      mret (PyStr.take 3000 (PyStr.strip cleaned))
  end.

(** [get_llm_response]; the value returned is [None] when [response.text]
    is. *)
Definition get_llm_response (prompt : string) : M (option string) :=
  tr ← get_trace;
  match generate_content w tr MODEL_NAME prompt with
  | Response text => emit (LlmCall prompt text);; mret (Some text)
  | NoText => emit (LlmNoText prompt);; mret None
  | APIError e =>
      let llm_output := "LLM_API_ERROR: " +:+ e in
      emit (LlmCall prompt llm_output);; mret (Some llm_output)
  | ClientFailure e =>
      let llm_output := "LLM_API_ERROR: Client failure: " +:+ e in
      emit (LlmCall prompt llm_output);; mret (Some llm_output)
  end.

(** [os.makedirs(d, exist_ok=True)] *)
Definition makedirs (d : string) : M unit :=
  f ← get_fs;
  match makedirs_error f d with
  | Some e => raise e
  | None => put_fs (made_dirs f d);; emit (Makedirs d)
  end.

(** [with open(path, "w") as f: f.write(content)] *)
Definition write_file (path content : string) : M unit :=
  f ← get_fs;
  match write_error f path with
  | Some e => raise e
  | None =>
      put_fs {| files := <[path := content]> (files f); dirs := dirs f |};;
      emit (FileWrite path content)
  end.

Definition save_parser (code path : string) : M unit :=
  makedirs (dirname path);;
  let final_code :=
    PyStr.join PyStr.nl required_imports +:+ PyStr.nl +:+ PyStr.nl +:+ code in
  write_file path final_code.

Definition run_test_and_capture_output (target : string)
    : M (string * string) :=
  let cmd := [sys_executable w; TEST_SCRIPT; target] in
  tr ← get_trace;
  f ← get_fs;
  let '(res, f') := subprocess_run w tr cmd f in
  put_fs f';;
  emit (Subprocess cmd res);;
  match res with
  | RunRaised e => raise e
  | Completed result =>
      let output := stdout result +:+ stderr result in
      if (returncode result =? 0)%Z && PyStr.contains "SUCCESS" output
      then mret ("PASS", output)
      else mret ("FAIL", output)
  end.

Definition generate_prompt (target pdf_text csv_path : string)
    (is_initial : bool) (previous_code error_trace : string) : M string :=
  f ← get_fs;
  mret (generate_prompt_text target pdf_text (read_csv_columns w f csv_path)
          is_initial previous_code error_trace).

(** One pass through the body of the [while] loop (lines 192-231).  The
    test [in] of line 202 raises [TypeError] on [None]. *)
Definition loop_body (target pdf_text : string) (st : loop_state) : M ctl :=
  emit (Generating (attempts st) (previous_code st) (error_trace st));;
  print (PyStr.nl +:+ PyStr.repeat "=" 20 +:+ " [Attempt "
         +:+ PyStr.of_nat (attempts st + 1) +:+ "/"
         +:+ PyStr.of_nat MAX_ATTEMPTS +:+ "] " +:+ PyStr.repeat "=" 20);;
  let is_initial := (attempts st =? 0)%nat in
  prompt ← generate_prompt target pdf_text CSV_PATH is_initial
             (previous_code st) (error_trace st);
  print ("   ("
         +:+ (if is_initial then "Planning & Initial Code Generation"
              else "Self-Fix & Code Refinement")
         +:+ "...)");;
  llm_output ← get_llm_response prompt;
  match llm_output with
  | None => raise none_not_iterable
  | Some llm_output =>
      if PyStr.contains "LLM_API_ERROR" llm_output then
        print ("   LLM failed to respond: " +:+ llm_output +:+ ". Aborting.");;
        mret Break
      else
        let generated_code := extract_python_code llm_output in
        if PyStr.is_empty (PyStr.strip generated_code) then
          print "[AGENT] Error: LLM returned empty or unparseable code block. Aborting.";;
          mret Break
        else
          save_parser generated_code PARSER_PATH;;
          print ("   Code written to " +:+ PARSER_PATH);;
          print "   (Running Tests...)";;
          '(result, output) ← run_test_and_capture_output target;
          if String.eqb result "PASS" then
            print (PyStr.nl +:+ PyStr.repeat "#" 60);;
            print ("AGENT SUCCESS: Parser `" +:+ PARSER_PATH
                   +:+ "` passed all tests (T4).");;
            print (PyStr.repeat "#" 60);;
            mret Return
          else
            print "   Test failed. Preparing for refinement (T1).";;
            mret (Continue {| attempts := attempts st + 1;
                              previous_code := generated_code;
                              error_trace := output |})
  end.

(** [while attempts < MAX_ATTEMPTS: ...] *)
Fixpoint agent_loop (fuel : nat) (target pdf_text : string)
    (st : loop_state) : M (loop_exit * loop_state) :=
  match fuel with
  | O => mret (OutOfFuel, st)
  | S fuel' =>
      if (attempts st <? MAX_ATTEMPTS)%nat then
        c ← loop_body target pdf_text st;
        match c with
        | Continue st' => agent_loop fuel' target pdf_text st'
        | Break => mret (Broke, st)
        | Return => mret (Returned, st)
        end
      else mret (CondFalse, st)
  end.

(** [run_agent].  Python returns [None]; the embedding returns the way
    the loop was left and the loop variables at that point. *)
Definition run_agent (target : string) : M (loop_exit * loop_state) :=
  print ("--- Agent Initialized for Target: " +:+ PyStr.upper target
         +:+ " ---");;
  f ← get_fs;
  if negb (path_exists f PDF_PATH && path_exists f CSV_PATH
           && path_exists f TEST_SCRIPT) then
    print ("Error: Missing required files for target '" +:+ target
           +:+ "'. Ensure files exist at:");;
    print ("- " +:+ PDF_PATH);;
    print ("- " +:+ CSV_PATH);;
    print ("- " +:+ TEST_SCRIPT);;
    print "Please create the files and try again.";;
    sys_exit 1
  else
    pdf_text ←
      try_except (read_pdf_text_for_prompt PDF_PATH)
        (fun e =>
           print ("Critical Error: Failed to extract text from PDF: "
                  +:+ exn_text e);;
           sys_exit 1);
    r ← agent_loop (S MAX_ATTEMPTS) target pdf_text
          {| attempts := 0;
             previous_code := EmptyString;
             error_trace := EmptyString |};
    match fst r with
    | Returned => mret r
    | _ =>
        print (PyStr.nl +:+ PyStr.repeat "X" 60);;
        print ("AGENT FAILURE: Failed to generate a correct parser after "
               +:+ PyStr.of_nat MAX_ATTEMPTS +:+ " attempts.");;
        print (PyStr.repeat "X" 60);;
        mret r
    end.

(** The [__main__] block, after [argparse] has produced [--target]. *)
Definition main (args_target : string) : M (loop_exit * loop_state) :=
  match getenv w "GEMINI_API_KEY" with
  | Some (String _ _) => run_agent (PyStr.lower args_target)
  | _ =>
      print "ERROR: GEMINI_API_KEY environment variable not set. Please set it before running.";;
      sys_exit 1
  end.

End Agent.

(** The exit status of the Python process: 0 when the script runs to its
    end, the argument of [sys.exit], 1 for an uncaught exception. *)
Definition exit_status {A} (r : result A) : Z :=
  match r with
  | Ret _ => 0
  | Exit code => code
  | Raise _ => 1
  end.

Definition initial_state (f : FS) : State := {| fs := f; trace := [] |}.

(** * The generated parser ([custom_parsers/icici_parser.py]) *)

Module IciciParser.

(** What [pdfplumber.open(pdf_path)] gives: for each page the tables of
    [page.extract_tables()], each table a list of rows of cells (a cell is a
    string or [None]); or an exception, as for a path that is no file. *)
Inductive open_result :=
| Opened (pages : list (list (list (list (option string)))))
| OpenRaised (e : exn).

Definition pdf_header_columns : list string :=
  ["Date"; "Description"; "Debit Amt"; "Credit Amt"; "Balance"].

Definition target_schema_columns : list string :=
  ["Date"; "Description"; "Withdrawal"; "Deposit"; "Balance"].

(** [\d] on a character below 256. *)
Definition is_digit (c : ascii) : bool :=
  let n := nat_of_ascii c in ((48 <=? n) && (n <=? 57))%nat.

Definition is_hyphen (c : ascii) : bool := Ascii.eqb c "-"%char.

Definition digit_val (c : ascii) : nat := nat_of_ascii c - 48.

(** [re.sub(r'\s+', ' ', cell)] *)
Fixpoint sub_space_runs (in_run : bool) (cell : string) : string :=
  match cell with
  | EmptyString => EmptyString
  | String c cell' =>
      if PyStr.isspace c then
        if in_run then sub_space_runs true cell'
        else String " "%char (sub_space_runs true cell')
      else String c (sub_space_runs false cell')
  end.

(** [re.match(r'^\d{2}-\d{2}-\d{4}$', cell)]; [$] also matches just before
    a newline that ends the string. *)
Definition re_match_date (cell : string) : bool :=
  match cell with
  | String d1 (String d2 (String h1 (String m1 (String m2 (String h2
      (String y1 (String y2 (String y3 (String y4 rest))))))))) =>
      is_digit d1 && is_digit d2 && is_hyphen h1
      && is_digit m1 && is_digit m2 && is_hyphen h2
      && is_digit y1 && is_digit y2 && is_digit y3 && is_digit y4
      && (PyStr.is_empty rest || String.eqb rest PyStr.nl)
  | _ => false
  end.

(** The day, month and year [format='%d-%m-%Y'] reads from a cell that
    matched the pattern above; the whole cell must be consumed. *)
Definition strptime_dmy (cell : string) : option (nat * nat * nat) :=
  match cell with
  | String d1 (String d2 (String h1 (String m1 (String m2 (String h2
      (String y1 (String y2 (String y3 (String y4 EmptyString))))))))) =>
      if is_digit d1 && is_digit d2 && is_hyphen h1
         && is_digit m1 && is_digit m2 && is_hyphen h2
         && is_digit y1 && is_digit y2 && is_digit y3 && is_digit y4
      then Some (10 * digit_val d1 + digit_val d2,
                 10 * digit_val m1 + digit_val m2,
                 1000 * digit_val y1 + 100 * digit_val y2
                 + 10 * digit_val y3 + digit_val y4)
      else None
  | _ => None
  end.

Definition is_leap (y : nat) : bool :=
  ((y mod 4 =? 0) && (negb (y mod 100 =? 0) || (y mod 400 =? 0)))%nat.

Definition days_in_month (y m : nat) : nat :=
  match m with
  | 1 | 3 | 5 | 7 | 8 | 10 | 12 => 31
  | 4 | 6 | 9 | 11 => 30
  | 2 => if is_leap y then 29 else 28
  | _ => 0
  end.

(** Midnight of the day lies in the range of a nanosecond [Timestamp]:
    1677-09-22 to 2262-04-11. *)
Definition in_timestamp_range (y m d : nat) : bool :=
  (((1677 <? y) || ((y =? 1677) && ((9 <? m) || ((m =? 9) && (22 <=? d)))))
   && ((y <? 2262) || ((y =? 2262) && ((m <? 4) || ((m =? 4) && (d <=? 11))))))%nat.

Definition digit_char (n : nat) : ascii := ascii_of_nat (48 + n mod 10).

(** [dt.strftime('%Y-%m-%d')] *)
Definition strftime_ymd (y m d : nat) : string :=
  String (digit_char (y / 1000)) (String (digit_char (y / 100))
    (String (digit_char (y / 10)) (String (digit_char y)
    (String "-"%char
    (String (digit_char (m / 10)) (String (digit_char m)
    (String "-"%char
    (String (digit_char (d / 10)) (String (digit_char d)
       EmptyString))))))))).

Section Parser.

(** The numbers of pandas and its reading of a numeric cell are kept
    abstract: [to_numeric cell] is the number [pd.to_numeric] reads from the
    text, [None] when it reads none. *)
Context {number : Type}.
Context (pdfplumber_open : string -> open_result).
Context (to_numeric : string -> option number).

(** A value of a frame: a text, a number, or missing (NaN, NaT, pd.NA). *)
Inductive value :=
| VStr (s : string)
| VNum (x : number)
| VNaN.

(** A frame, row by row; every row has one value per column. *)
Record DataFrame := {
  columns : list string;
  data : list (list value)
}.

Inductive parse_result :=
| Parsed (df : DataFrame)
| ParseRaised (e : exn).

Fixpoint col_index (name : string) (cols : list string) : option nat :=
  match cols with
  | [] => None
  | c :: cols' =>
      if String.eqb c name then Some 0 else S <$> col_index name cols'
  end.

(** [pd.DataFrame(rows, columns=cols)]; [None] is the [ValueError] for a
    row of another width. *)
Definition new_frame (rows : list (list string)) (cols : list string)
    : option DataFrame :=
  if forallb (fun row => length row =? length cols)%nat rows
  then Some {| columns := cols; data := map (map VStr) rows |}
  else None.

(** [df[col] = f(df[col])] for an elementwise [f]; [None] is [KeyError]. *)
Definition map_column (col : string) (f : value -> value) (df : DataFrame)
    : option DataFrame :=
  i ← col_index col (columns df);
  Some {| columns := columns df; data := map (alter f i) (data df) |}.

Definition isna (v : value) : bool :=
  match v with VNaN => true | _ => false end.

(** [df.dropna(subset=[col], inplace=True)] *)
Definition dropna (col : string) (df : DataFrame) : option DataFrame :=
  i ← col_index col (columns df);
  Some {| columns := columns df;
          data := List.filter
                    (fun row => negb (isna (default VNaN (row !! i))))
                    (data df) |}.

(** [df.rename(columns=mapping, inplace=True)] *)
Definition rename (mapping : list (string * string)) (df : DataFrame)
    : DataFrame :=
  {| columns :=
       map (fun c =>
              match List.find (fun kv => String.eqb (fst kv) c) mapping with
              | Some kv => snd kv
              | None => c
              end) (columns df);
     data := data df |}.

(** [df[names]] *)
Definition select (names : list string) (df : DataFrame)
    : option DataFrame :=
  idxs ← mapM (fun name => col_index name (columns df)) names;
  Some {| columns := names;
          data := map (fun row =>
                         map (fun i => default VNaN (row !! i)) idxs)
                      (data df) |}.

(** [pd.to_datetime(., format='%d-%m-%Y', errors='coerce')
       .dt.strftime('%Y-%m-%d')] on one value. *)
Definition date_to_iso (v : value) : value :=
  match v with
  | VStr cell =>
      match strptime_dmy cell with
      | Some (d, m, y) =>
          if ((1 <=? d) && (d <=? days_in_month y m)
              && in_timestamp_range y m d)%nat
          then VStr (strftime_ymd y m d)
          else VNaN
      | None => VNaN
      end
  | _ => VNaN
  end.

(** [.replace('', pd.NA)] on one value. *)
Definition replace_empty (v : value) : value :=
  match v with
  | VStr EmptyString => VNaN
  | _ => v
  end.

(** [pd.to_numeric(., errors='coerce')] on one value. *)
Definition to_numeric_coerce (v : value) : value :=
  match v with
  | VStr cell =>
      match to_numeric cell with
      | Some x => VNum x
      | None => VNaN
      end
  | _ => v
  end.

(** Lines 35-56 on one row of a table: the row is kept, cleaned, when it
    is not empty, is not the header and looks like a transaction. *)
Definition collect_row (row : list (option string)) : list (list string) :=
  let cleaned_row :=
    map (fun cell => match cell with
                     | Some c => PyStr.strip c
                     | None => EmptyString
                     end) row in
  if negb (existsb (fun cell => negb (PyStr.is_empty cell)) cleaned_row)
  then []
  else
    let normalized_row_for_header_check :=
      map (fun cell => PyStr.strip (sub_space_runs false cell)) cleaned_row in
    if bool_decide (normalized_row_for_header_check = pdf_header_columns)
    then []
    else if (length cleaned_row =? 5)%nat
            && re_match_date (default EmptyString (cleaned_row !! 0))
    then [cleaned_row]
    else [].

Definition parse (pdf_path : string) : parse_result :=
  match pdfplumber_open pdf_path with
  | OpenRaised e => ParseRaised e
  | Opened pages =>
      let all_transactions_data :=
        flat_map (fun tables => flat_map (flat_map collect_row) tables)
          pages in
      match all_transactions_data with
      | [] => Parsed {| columns := target_schema_columns; data := [] |}
      | _ =>
          let frame :=
            df ← new_frame all_transactions_data pdf_header_columns;
            df ← map_column "Date" date_to_iso df;
            df ← foldl
                   (fun acc col =>
                      df ← acc;
                      df ← map_column col replace_empty df;
                      map_column col to_numeric_coerce df)
                   (Some df) ["Debit Amt"; "Credit Amt"; "Balance"];
            df ← dropna "Date" df;
            select target_schema_columns
              (rename [("Debit Amt", "Withdrawal"); ("Credit Amt", "Deposit")]
                 df) in
          match frame with
          | Some df => Parsed df
          | None => ParseRaised (Exn "KeyError" "")
          end
      end
  end.

End Parser.

End IciciParser.

(** * The validation script ([tests/test_parser_template.py]) *)

Module TestTemplate.

(** How the body of the [try] of [run_test] ends (lines 22-89: the import
    of the generated parser, the call of its [parse], the reading and the
    normalisation of the expected CSV, [assert_frame_equal]).
    - [BodyDone]: line 90 is reached.
    - [BodyAssertionError]: an [AssertionError] was raised; the two heads
      are what [df_expected.head().to_string()] and
      [df_actual.head().to_string()] give in the handler, [None] when that
      raises in its turn (the frame is not bound yet); [traceback] is what
      [traceback.print_exc] prints.
    - [BodyException]: another [Exception] was raised.
    - [BodyBaseException]: an exception that is no [Exception] was raised
      ([SystemExit], [KeyboardInterrupt]); the process ends with [code]
      after the interpreter wrote [msg] to stderr. *)
Inductive body_outcome :=
| BodyDone
| BodyAssertionError (expected_head actual_head : option string)
    (traceback : string)
| BodyException
| BodyBaseException (code : Z) (msg : string).

(** One execution of the body: what it printed before it ended, how it
    ended, and the traceback the interpreter writes to stderr when an
    exception leaves the script. *)
Record body_run := {
  body_stdout : string;
  body_stderr : string;
  body_end : body_outcome;
  uncaught_traceback : string
}.

Record script_result := {
  exit_code : Z;
  out : string;
  err : string
}.

(** What [print(line)] writes. *)
Definition printed (line : string) : string := line +:+ PyStr.nl.

(** The paths of lines 14-17. *)
Definition pdf_path (bank_target : string) : string :=
  "data/" +:+ bank_target +:+ "/" +:+ bank_target +:+ "_sample.pdf".
Definition csv_path (bank_target : string) : string :=
  "data/" +:+ bank_target +:+ "/" +:+ bank_target +:+ "_expected.csv".
Definition parser_module_name (bank_target : string) : string :=
  "custom_parsers." +:+ bank_target +:+ "_parser".

(** [run_test].  The name [traceback] is local to the function, because of
    the [import] of line 100, and bound only in the [AssertionError]
    handler: in the second handler line 105 raises [UnboundLocalError],
    which leaves the script. *)
Definition run_test (bank_target : string) (b : body_run) : script_result :=
  let out0 :=
    printed ("--- Running Test for " +:+ PyStr.upper bank_target +:+ " ---")
    +:+ body_stdout b in
  match body_end b with
  | BodyDone =>
      {| exit_code := 0;
         out := out0
                +:+ printed (PyStr.nl +:+ "SUCCESS: Parser output matches expected CSV (T4).");
         err := body_stderr b |}
  | BodyAssertionError expected_head actual_head traceback =>
      let out1 :=
        out0
        +:+ printed (PyStr.nl +:+ "FAIL: Assertion failed: DataFrame content mismatch. (T4)")
        +:+ printed (PyStr.nl +:+ "--- Expected Data Head ---") in
      match expected_head with
      | None =>
          {| exit_code := 1; out := out1;
             err := body_stderr b +:+ uncaught_traceback b |}
      | Some expected =>
          let out2 :=
            out1 +:+ printed expected
            +:+ printed (PyStr.nl +:+ "--- Actual Data Head ---") in
          match actual_head with
          | None =>
              {| exit_code := 1; out := out2;
                 err := body_stderr b +:+ uncaught_traceback b |}
          | Some actual =>
              {| exit_code := 1;
                 out := out2 +:+ printed actual +:+ traceback;
                 err := body_stderr b |}
          end
      end
  | BodyException =>
      {| exit_code := 1;
         out := out0
                +:+ printed (PyStr.nl +:+ "RUNTIME ERROR during test execution:");
         err := body_stderr b +:+ uncaught_traceback b |}
  | BodyBaseException code msg =>
      {| exit_code := code; out := out0; err := body_stderr b +:+ msg |}
  end.

(** The [__main__] block; [argv] is [sys.argv]. *)
Definition script_main (argv : list string) (b : body_run) : script_result :=
  if (length argv <? 2)%nat then
    {| exit_code := 1;
       out := printed "Usage: python test_parser_template.py <bank_target>";
       err := EmptyString |}
  else run_test (nth 1 argv EmptyString) b.

End TestTemplate.

(** * Vocabulary of the properties *)

(** ** Reading a response and a trace *)

(** The response holds a fenced block tagged [python]: an opening fence
    [```python] followed by a newline, some text, and a closing fence. *)
Definition has_python_block (response : string) : Prop :=
  exists before body rest,
    response = before +:+ fence_open +:+ body +:+ fence_close +:+ rest.

Definition is_print (e : event) : bool :=
  match e with Print _ => true | _ => false end.

(** The trace without the console lines. *)
Definition effects (tr : list event) : list event :=
  List.filter (fun e => negb (is_print e)) tr.

(** The loop variables at each entry of the loop body. *)
Definition snapshots (tr : list event) : list loop_state :=
  omap (fun e => match e with
                 | Generating a c t =>
                     Some {| attempts := a; previous_code := c;
                             error_trace := t |}
                 | _ => None
                 end) tr.

(** The prompts sent to the model with the replies, oldest first. *)
Definition llm_calls (tr : list event) : list (string * string) :=
  omap (fun e => match e with
                 | LlmCall prompt reply => Some (prompt, reply)
                 | _ => None
                 end) tr.

(** The prompts of all the calls of the model, answered with a text or
    not, oldest first. *)
Definition llm_requests (tr : list event) : list string :=
  omap (fun e => match e with
                 | LlmCall prompt _ | LlmNoText prompt => Some prompt
                 | _ => None
                 end) tr.

(** The files written with their contents, oldest first. *)
Definition file_writes (tr : list event) : list (string * string) :=
  omap (fun e => match e with
                 | FileWrite path content => Some (path, content)
                 | _ => None
                 end) tr.

(** The validation subprocesses with their outcomes, oldest first. *)
Definition subprocess_runs (tr : list event)
    : list (list string * run_result) :=
  omap (fun e => match e with
                 | Subprocess cmd res => Some (cmd, res)
                 | _ => None
                 end) tr.

(** ** One pass through the loop body *)

(** What [get_llm_response] returns for an answer of the client. *)
Definition llm_text (r : llm_result) : option string :=
  match r with
  | Response text => Some text
  | NoText => None
  | APIError e => Some ("LLM_API_ERROR: " +:+ e)
  | ClientFailure e => Some ("LLM_API_ERROR: Client failure: " +:+ e)
  end.

(** The reply passes both checks of lines 202 and 208. *)
Definition usable (reply : string) : bool :=
  negb (PyStr.contains "LLM_API_ERROR" reply)
  && negb (PyStr.is_empty (PyStr.strip (extract_python_code reply))).

(** The condition of line 112. *)
Definition passes (p : CompletedProcess) : bool :=
  (returncode p =? 0)%Z && PyStr.contains "SUCCESS" (stdout p +:+ stderr p).

Definition preamble : string :=
  "import pandas as pd" +:+ PyStr.nl +:+ "import pdfplumber" +:+ PyStr.nl
  +:+ "import re" +:+ PyStr.nl +:+ PyStr.nl.

(** The exception [save_parser code path] raises, if any: the one of
    [os.makedirs], or else the one of [open]. *)
Definition save_error (f : FS) (path : string) : option exn :=
  match makedirs_error f (dirname path) with
  | Some e => Some e
  | None => write_error (made_dirs f (dirname path)) path
  end.

(** The artifact can be written: [custom_parsers] is no regular file and
    [custom_parsers/icici_parser.py] is no directory. *)
Definition artifact_writable (f : FS) : bool :=
  negb (is_file f PARSER_DIR) && negb (bool_decide (PARSER_PATH ∈ dirs f)).

(** The file system after [save_parser code path] returned. *)
Definition written (code path : string) (f : FS) : FS :=
  {| files := <[path := preamble +:+ code]> (files f);
     dirs := dirs f ∪ list_to_set (path_prefixes "" (dirname path)) |}.

(** How the body ends once the validation subprocess has answered. *)
Definition body_result (st : loop_state) (code : string) (res : run_result)
    : result ctl :=
  match res with
  | RunRaised e => Raise e
  | Completed p =>
      if passes p then Ret Return
      else Ret (Continue {| attempts := attempts st + 1;
                            previous_code := code;
                            error_trace := stdout p +:+ stderr p |})
  end.

(** ** The loop and the whole run *)

(** The history of a run is well chained: the [k]-th entry of the loop body
    has counter [k]; the first entry has an empty feedback context; every
    later entry holds the code extracted from the reply of the entry just
    before it and the output of that entry's validation run; and the prompt
    of every entry is built from the loop variables of that entry. *)
Definition chained (target pdf_text : string) (snaps : list loop_state)
    (calls : list (string * string))
    (runs : list (list string * run_result)) : Prop :=
  (forall k a, snaps !! k = Some a -> attempts a = k) /\
  (forall a, snaps !! 0 = Some a ->
     previous_code a = "" /\ error_trace a = "") /\
  (forall k b, snaps !! (S k) = Some b ->
     exists prompt reply cmd p,
       calls !! k = Some (prompt, reply) /\
       runs !! k = Some (cmd, Completed p) /\
       usable reply = true /\ passes p = false /\
       previous_code b = extract_python_code reply /\
       error_trace b = stdout p +:+ stderr p) /\
  (forall k a prompt reply,
     snaps !! k = Some a -> calls !! k = Some (prompt, reply) ->
     exists cols,
       prompt = generate_prompt_text target pdf_text cols
                  (attempts a =? 0)%nat (previous_code a) (error_trace a)).

(** What holds each time the loop condition is evaluated. *)
Definition loop_inv (target pdf_text : string) (tr : list event)
    (st : loop_state) : Prop :=
  attempts st <= MAX_ATTEMPTS /\
  length (snapshots tr) = attempts st /\
  length (llm_calls tr) = attempts st /\
  length (file_writes tr) = attempts st /\
  length (subprocess_runs tr) = attempts st /\
  chained target pdf_text (snapshots tr ++ [st]) (llm_calls tr)
    (subprocess_runs tr).

(** What a run leaves behind when the loop is left at state [st]. *)
Definition loop_post (target pdf_text : string) (tr : list event)
    (r : result (loop_exit * loop_state))
    : Prop :=
  chained target pdf_text (snapshots tr) (llm_calls tr) (subprocess_runs tr)
  /\ length (snapshots tr) <= MAX_ATTEMPTS
  /\ forall ex stf, r = Ret (ex, stf) ->
       attempts stf <= MAX_ATTEMPTS /\
       length (snapshots tr) <= attempts stf + 1.

(** The three fixture files of line 169 are there. *)
Definition fixtures_present (f : FS) : bool :=
  path_exists f PDF_PATH && path_exists f CSV_PATH
  && path_exists f TEST_SCRIPT.

(** The text [read_pdf_text_for_prompt] returns for the pages PyPDF2 read. *)
Definition pdf_text_of (pages : list (option string)) : string :=
  PyStr.take 3000
    (PyStr.strip
       (sub_non_ascii_runs false
          (fold_left
             (fun text page_text =>
                match page_text with
                | Some t =>
                    if PyStr.is_empty t then text else text +:+ t +:+ PyStr.nl
                | None => text
                end)
             pages EmptyString))).

Definition init_loop_state : loop_state :=
  {| attempts := 0; previous_code := ""; error_trace := "" |}.

(** The model always replies with a text, and the text passes the two
    checks. *)
Definition always_usable (w : World) : Prop :=
  forall tr prompt,
    exists reply,
      llm_text (generate_content w tr MODEL_NAME prompt) = Some reply /\
      usable reply = true.

(** The validation subprocess never makes the artifact unwritable. *)
Definition keeps_writable (w : World) : Prop :=
  forall tr cmd f,
    artifact_writable f = true ->
    artifact_writable (snd (subprocess_run w tr cmd f)) = true.

(** The validation subprocess always completes with a verdict of FAIL. *)
Definition always_fails (w : World) : Prop :=
  forall tr cmd f,
    exists p, fst (subprocess_run w tr cmd f) = Completed p /\
              passes p = false.

Fixpoint last_char (s : string) : option ascii :=
  match s with
  | EmptyString => None
  | String c s' =>
      match last_char s' with
      | Some d => Some d
      | None => Some c
      end
  end.

(** The credential test of line 244: set and not empty. *)
Definition credential_set (w : World) : bool :=
  match getenv w "GEMINI_API_KEY" with
  | Some (String _ _) => true
  | _ => false
  end.

(** The PDF sample can be read (lines 179-183). *)
Definition pdf_readable (w : World) (f : FS) : bool :=
  match pdf_reader w f PDF_PATH with
  | PdfPages _ => true
  | _ => false
  end.

(** ** Concrete worlds *)

(** A file system holding the three fixture files. *)
Definition fs_ok : FS :=
  {| files := {[ PDF_PATH := "%PDF-1.4"; CSV_PATH := "Date,Description";
                 TEST_SCRIPT := "import sys" ]};
     dirs := ∅ |}.

(** The same with a regular file where the parser directory should be. *)
Definition fs_blocked : FS :=
  {| files := <[PARSER_DIR := "not a directory"]> (files fs_ok);
     dirs := ∅ |}.

(** The same with a directory where the artifact should be. *)
Definition fs_dir_at_artifact : FS :=
  {| files := files fs_ok; dirs := {[ PARSER_DIR; PARSER_PATH ]} |}.

(** The same with a stale artifact already in place. *)
Definition fs_stale : FS :=
  {| files := <[PARSER_PATH := "def parse(pdf_path): return None"]> (files fs_ok);
     dirs := {[ PARSER_DIR ]} |}.

Definition fenced_reply : string :=
  "Here is the parser:" +:+ PyStr.nl +:+ "```python" +:+ PyStr.nl
  +:+ "def parse(pdf_path):" +:+ PyStr.nl +:+ "    return None" +:+ PyStr.nl
  +:+ "```" +:+ PyStr.nl.

Definition failed_run : CompletedProcess :=
  {| returncode := 1; stdout := "FAIL: column mismatch"; stderr := "" |}.

Definition passed_run : CompletedProcess :=
  {| returncode := 0;
     stdout := "SUCCESS: Parser output matches expected CSV (T4).";
     stderr := "" |}.

(** The model always gives the same fenced block and the validator always
    fails with the same output. *)
Definition w_stuck : World :=
  {| getenv := fun _ => Some "key";
     sys_executable := "/usr/bin/python3";
     generate_content := fun _ _ _ => Response fenced_reply;
     subprocess_run := fun _ _ f => (Completed failed_run, f);
     pdf_reader := fun _ _ => PdfPages [Some "Date Description Balance"];
     read_csv_columns := fun _ _ => None |}.

(** The validator passes at once. *)
Definition w_pass : World :=
  {| getenv := getenv w_stuck;
     sys_executable := sys_executable w_stuck;
     generate_content := generate_content w_stuck;
     subprocess_run := fun _ _ f => (Completed passed_run, f);
     pdf_reader := pdf_reader w_stuck;
     read_csv_columns := read_csv_columns w_stuck |}.

(** The response of the model has no text. *)
Definition w_no_text : World :=
  {| getenv := getenv w_stuck;
     sys_executable := sys_executable w_stuck;
     generate_content := fun _ _ _ => NoText;
     subprocess_run := subprocess_run w_pass;
     pdf_reader := pdf_reader w_stuck;
     read_csv_columns := read_csv_columns w_stuck |}.

(** The client raises an [APIError]; the validator would fail. *)
Definition w_api_down : World :=
  {| getenv := getenv w_stuck;
     sys_executable := sys_executable w_stuck;
     generate_content := fun _ _ _ => APIError "429 RESOURCE_EXHAUSTED";
     subprocess_run := subprocess_run w_stuck;
     pdf_reader := pdf_reader w_stuck;
     read_csv_columns := read_csv_columns w_stuck |}.

(** The call succeeds and the text it returns mentions the marker. *)
Definition w_marker_in_text : World :=
  {| getenv := getenv w_stuck;
     sys_executable := sys_executable w_stuck;
     generate_content := fun _ _ _ =>
       Response ("```python" +:+ PyStr.nl
                 +:+ "# retry on LLM_API_ERROR" +:+ PyStr.nl +:+ "```");
     subprocess_run := subprocess_run w_pass;
     pdf_reader := pdf_reader w_stuck;
     read_csv_columns := read_csv_columns w_stuck |}.

Definition blank_reply : string := "  " +:+ PyStr.nl +:+ " ".

(** The model answers with white space only. *)
Definition w_blank : World :=
  {| getenv := getenv w_stuck;
     sys_executable := sys_executable w_stuck;
     generate_content := fun _ _ _ => Response blank_reply;
     subprocess_run := subprocess_run w_pass;
     pdf_reader := pdf_reader w_stuck;
     read_csv_columns := read_csv_columns w_stuck |}.

(** The child exits with status 1 after printing text that holds the
    success marker. *)
Definition w_lookalike : World :=
  {| getenv := getenv w_stuck;
     sys_executable := sys_executable w_stuck;
     generate_content := generate_content w_stuck;
     subprocess_run := fun _ _ f =>
       (Completed {| returncode := 1;
                     stdout := "SUCCESS: 3 of 4 checks";
                     stderr := "Traceback (most recent call last):" |}, f);
     pdf_reader := pdf_reader w_stuck;
     read_csv_columns := read_csv_columns w_stuck |}.

(** The child prints bytes that [text=True] cannot decode. *)
Definition w_undecodable : World :=
  {| getenv := getenv w_stuck;
     sys_executable := sys_executable w_stuck;
     generate_content := generate_content w_stuck;
     subprocess_run := fun _ _ f =>
       (RunRaised
          (Exn "UnicodeDecodeError"
             "'utf-8' codec can't decode byte 0xff in position 0: invalid start byte"),
        f);
     pdf_reader := pdf_reader w_stuck;
     read_csv_columns := read_csv_columns w_stuck |}.

(** The first validation run fails, every later one passes. *)
Definition w_second_pass : World :=
  {| getenv := getenv w_stuck;
     sys_executable := sys_executable w_stuck;
     generate_content := generate_content w_stuck;
     subprocess_run := fun tr _ f =>
       (Completed (if bool_decide (subprocess_runs tr = [])
                   then failed_run else passed_run), f);
     pdf_reader := pdf_reader w_stuck;
     read_csv_columns := read_csv_columns w_stuck |}.

(** ** The generated parser *)

Module IciciParserSpec.
Import IciciParser.

(** The text has the form YYYY-MM-DD: four digits, two digits and two
    digits, separated by hyphens. *)
Definition is_iso_date (s : string) : bool :=
  match s with
  | String y1 (String y2 (String y3 (String y4 (String h1 (String m1
      (String m2 (String h2 (String d1 (String d2 EmptyString))))))))) =>
      is_digit y1 && is_digit y2 && is_digit y3 && is_digit y4 && is_hyphen h1
      && is_digit m1 && is_digit m2 && is_hyphen h2
      && is_digit d1 && is_digit d2
  | _ => false
  end.

(** The number a cell of an amount column becomes. *)
Definition amount_of {number : Type} (to_numeric : string -> option number)
    (cell : string) : value (number := number) :=
  to_numeric_coerce to_numeric (replace_empty (VStr cell)).

(** The row of the result a kept row becomes, if its date is a date. *)
Definition result_row {number : Type} (to_numeric : string -> option number)
    (r : list string) : list (list (value (number := number))) :=
  match r with
  | [c0; c1; c2; c3; c4] =>
      match date_to_iso (number := number) (VStr c0) with
      | VStr iso =>
          [[VStr iso; VStr c1; amount_of to_numeric c2;
            amount_of to_numeric c3; amount_of to_numeric c4]]
      | _ => []
      end
  | _ => []
  end.

(** A value of an amount column is missing, or it is the number read from
    the cell. *)
Definition missing_or_read {number : Type}
    (to_numeric : string -> option number) (cell : string)
    (v : value (number := number)) : Prop :=
  v = VNaN \/ exists x, to_numeric cell = Some x /\ v = VNum x.

(** *** A concrete statement *)

(** The digits at the head of [s]: their value after [acc], their count,
    and what follows them. *)
Fixpoint read_digits (acc : Z) (s : string) : Z * nat * string :=
  match s with
  | String c s' =>
      if is_digit c then
        let '(v, n, rest) :=
          read_digits (acc * 10 + Z.of_nat (digit_val c)) s' in
        (v, S n, rest)
      else (acc, 0, s)
  | EmptyString => (acc, 0, EmptyString)
  end.

(** An optional sign. *)
Definition read_sign (s : string) : Z * string :=
  match s with
  | String "-"%char b => ((-1)%Z, b)
  | String "+"%char b => (1%Z, b)
  | _ => (1%Z, s)
  end.

(** An optional exponent [e+12], up to the end of the text. *)
Definition read_exponent (s : string) : option Z :=
  match s with
  | EmptyString => Some 0%Z
  | String c body =>
      if Ascii.eqb c "e"%char || Ascii.eqb c "E"%char then
        let '(sign, digits) := read_sign body in
        let '(v, n, rest) := read_digits 0 digits in
        if PyStr.is_empty rest && (0 <? n)%nat then Some (sign * v)%Z
        else None
      else None
  end.

(** [v] times ten to the power [e]. *)
Definition scale10 (v e : Z) : Q :=
  if (0 <=? e)%Z then Qmake (v * 10 ^ e) 1
  else Qmake v (Z.to_pos (10 ^ (- e))).

(** A reader of numbers in decimal notation, such as [12], [-3.50], [5.],
    [.5] or [1e3], as exact rationals.  It stands for [pd.to_numeric] on
    the cells of the sample statement. *)
Definition read_plain_decimal (cell : string) : option Q :=
  let '(sign, body) := read_sign cell in
  let '(whole, n1, rest) := read_digits 0 body in
  let '(v, n2, rest2) :=
    match rest with
    | String "."%char frac => read_digits whole frac
    | _ => (whole, 0, rest)
    end in
  if (0 <? n1 + n2)%nat then
    e ← read_exponent rest2;
    Some (scale10 (sign * v) (e - Z.of_nat n2))
  else None.

Definition statement_tables : list (list (list (list (option string)))) :=
  [[[[Some "Date"; Some "Description"; Some "Debit Amt"; Some "Credit Amt";
      Some "Balance"];
     [Some "01-08-2024"; Some "ATM WDL"; Some "0.00"; None; Some "100.50"];
     [Some "02-08-2024"; Some "REVERSAL"; Some ""; Some "-250.00";
      Some "350.50"];
     [Some "Page 1 of 1"; None; None; None; None]]]].

(** Only the sample statement can be opened. *)
Definition open_sample (pdf_path : string) : open_result :=
  if String.eqb pdf_path PDF_PATH then Opened statement_tables
  else OpenRaised
         (Exn "FileNotFoundError" "[Errno 2] No such file or directory").

End IciciParserSpec.

(** * Vocabulary of the further properties *)

(** ** The shape of a run *)

(** The command line of the validation subprocess (line 100). *)
Definition validation_cmd (w : World) (target : string) : list string :=
  [sys_executable w; TEST_SCRIPT; target].

(** The effects of a pass through the loop body in which the model
    answers without a text. *)
Definition no_text_block (st : loop_state) (prompt : string) : list event :=
  [Generating (attempts st) (previous_code st) (error_trace st);
   LlmNoText prompt].

(** The effects of a pass through the loop body up to the reply of the
    model: they are all its effects when it stops at one of the two
    [break]s. *)
Definition aborted_block (st : loop_state) (prompt reply : string)
    : list event :=
  [Generating (attempts st) (previous_code st) (error_trace st);
   LlmCall prompt reply].

(** The effects of a pass through the loop body that reaches the
    validation subprocess. *)
Definition tested_block (w : World) (target : string) (st : loop_state)
    (prompt reply : string) (res : run_result) : list event :=
  [Generating (attempts st) (previous_code st) (error_trace st);
   LlmCall prompt reply;
   Makedirs PARSER_DIR;
   FileWrite PARSER_PATH (preamble +:+ extract_python_code reply);
   Subprocess (validation_cmd w target) res].

(** The loop variables after a failed validation run (lines 229-231). *)
Definition next_state (st : loop_state) (reply : string)
    (p : CompletedProcess) : loop_state :=
  {| attempts := attempts st + 1;
     previous_code := extract_python_code reply;
     error_trace := stdout p +:+ stderr p |}.

(** [run_shape w target f st r evs f']: started with file system [f] and
    loop variables [st], the loop performs the effects [evs] (console lines
    apart), ends with [r] and leaves the file system [f'].  A pass through
    the body ends the loop when the model answers without a text, when the
    reply is not usable, when the artifact cannot be written, when the
    validation run passes and when [subprocess.run] raises. *)
Inductive run_shape (w : World) (target : string)
    : FS -> loop_state -> result (loop_exit * loop_state) -> list event
      -> FS -> Prop :=
| shape_exhausted f st :
    MAX_ATTEMPTS <= attempts st ->
    run_shape w target f st (Ret (CondFalse, st)) [] f
| shape_out_of_fuel f st :
    run_shape w target f st (Ret (OutOfFuel, st)) [] f
| shape_abort f st prompt reply :
    attempts st < MAX_ATTEMPTS ->
    usable reply = false ->
    run_shape w target f st (Ret (Broke, st))
      (aborted_block st prompt reply) f
| shape_no_text f st prompt :
    attempts st < MAX_ATTEMPTS ->
    run_shape w target f st (Raise none_not_iterable)
      (no_text_block st prompt) f
| shape_makedirs_raise f st prompt reply e :
    attempts st < MAX_ATTEMPTS ->
    usable reply = true ->
    makedirs_error f PARSER_DIR = Some e ->
    run_shape w target f st (Raise e) (aborted_block st prompt reply) f
| shape_write_raise f st prompt reply e :
    attempts st < MAX_ATTEMPTS ->
    usable reply = true ->
    makedirs_error f PARSER_DIR = None ->
    write_error (made_dirs f PARSER_DIR) PARSER_PATH = Some e ->
    run_shape w target f st (Raise e)
      (aborted_block st prompt reply ++ [Makedirs PARSER_DIR])
      (made_dirs f PARSER_DIR)
| shape_pass f st prompt reply tr p f' :
    attempts st < MAX_ATTEMPTS ->
    usable reply = true ->
    save_error f PARSER_PATH = None ->
    subprocess_run w tr (validation_cmd w target)
      (written (extract_python_code reply) PARSER_PATH f)
    = (Completed p, f') ->
    passes p = true ->
    run_shape w target f st (Ret (Returned, st))
      (tested_block w target st prompt reply (Completed p)) f'
| shape_raise f st prompt reply tr e f' :
    attempts st < MAX_ATTEMPTS ->
    usable reply = true ->
    save_error f PARSER_PATH = None ->
    subprocess_run w tr (validation_cmd w target)
      (written (extract_python_code reply) PARSER_PATH f)
    = (RunRaised e, f') ->
    run_shape w target f st (Raise e)
      (tested_block w target st prompt reply (RunRaised e)) f'
| shape_retry f st prompt reply tr p f' r evs f'' :
    attempts st < MAX_ATTEMPTS ->
    usable reply = true ->
    save_error f PARSER_PATH = None ->
    subprocess_run w tr (validation_cmd w target)
      (written (extract_python_code reply) PARSER_PATH f)
    = (Completed p, f') ->
    passes p = false ->
    run_shape w target f' (next_state st reply p) r evs f'' ->
    run_shape w target f st r
      (tested_block w target st prompt reply (Completed p) ++ evs) f''.

(** The three prerequisites of a run: credential, fixtures, readable PDF. *)
Definition prerequisites (w : World) (f : FS) : bool :=
  credential_set w && fixtures_present f && pdf_readable w f.

(** The validation subprocess leaves the file system as it found it. *)
Definition validator_read_only (w : World) : Prop :=
  forall tr cmd f, snd (subprocess_run w tr cmd f) = f.

(** A validation run that completed with a verdict of FAIL. *)
Definition failed (res : run_result) : Prop :=
  exists p, res = Completed p /\ passes p = false.

(** The artifact [save_parser] writes for a reply of the model. *)
Definition artifact_of (call : string * string) : string * string :=
  (PARSER_PATH, preamble +:+ extract_python_code (snd call)).


(** The model answers with a fenced block, then with white space only;
    the validator fails. *)
Definition w_then_blank : World :=
  {| getenv := getenv w_stuck;
     sys_executable := sys_executable w_stuck;
     generate_content := fun tr _ _ =>
       Response (if bool_decide (llm_calls tr = [])
                 then fenced_reply else blank_reply);
     subprocess_run := subprocess_run w_stuck;
     pdf_reader := pdf_reader w_stuck;
     read_csv_columns := read_csv_columns w_stuck |}.

(** No credential in the environment. *)
Definition w_no_key : World :=
  {| getenv := fun _ => None;
     sys_executable := sys_executable w_stuck;
     generate_content := generate_content w_stuck;
     subprocess_run := subprocess_run w_stuck;
     pdf_reader := pdf_reader w_stuck;
     read_csv_columns := read_csv_columns w_stuck |}.

(** The client fails before any response arrives. *)
Definition w_client_down : World :=
  {| getenv := getenv w_stuck;
     sys_executable := sys_executable w_stuck;
     generate_content := fun _ _ _ => ClientFailure "connection refused";
     subprocess_run := subprocess_run w_stuck;
     pdf_reader := pdf_reader w_stuck;
     read_csv_columns := read_csv_columns w_stuck |}.

(** ** Texts *)

(** Every character of the text satisfies [P]. *)
Fixpoint str_forall (P : ascii -> bool) (s : string) : bool :=
  match s with
  | EmptyString => true
  | String c s' => P c && str_forall P s'
  end.

Definition is_ascii (c : ascii) : bool := negb (non_ascii c).

(** The text starts with a white-space character. *)
Definition starts_with_space (s : string) : bool :=
  match s with
  | EmptyString => false
  | String c _ => PyStr.isspace c
  end.

(** ** The generated parser, further *)

Module IciciParserSpec2.
Import IciciParser IciciParserSpec.

(** Line 35: the cells of a row, trimmed, [None] read as the empty text. *)
Definition clean_cells (row : list (option string)) : list string :=
  map (fun cell => match cell with
                   | Some c => PyStr.strip c
                   | None => EmptyString
                   end) row.

(** The cell DD-MM-YYYY with its fields in the order YYYY-MM-DD. *)
Definition rearrange_dmy (cell : string) : string :=
  match cell with
  | String d1 (String d2 (String _ (String m1 (String m2 (String _
      (String y1 (String y2 (String y3 (String y4 _))))))))) =>
      String y1 (String y2 (String y3 (String y4 (String "-"%char
        (String m1 (String m2 (String "-"%char
           (String d1 (String d2 EmptyString)))))))))
  | _ => EmptyString
  end.

(** The sample statement followed by a second copy of its page. *)
Definition open_sample_twice (pdf_path : string) : open_result :=
  if String.eqb pdf_path PDF_PATH
  then Opened (statement_tables ++ statement_tables)
  else OpenRaised
         (Exn "FileNotFoundError" "[Errno 2] No such file or directory").

End IciciParserSpec2.

(** ** The validation script *)

(** The completed process the agent sees when the script ends. *)
Definition completed (r : TestTemplate.script_result) : CompletedProcess :=
  {| returncode := TestTemplate.exit_code r;
     stdout := TestTemplate.out r;
     stderr := TestTemplate.err r |}.

(** * Properties *)

(** ** Strings *)

Module PyStrFacts.
Import PyStr.

Lemma app_cons (c : ascii) (s t : string) :
  String c s +:+ t = String c (s +:+ t).
Proof. reflexivity. Qed.

Lemma app_nil_l (s : string) : "" +:+ s = s.
Proof. reflexivity. Qed.

Lemma app_nil_r (s : string) : s +:+ "" = s.
Proof.
  induction s as [|c s IH]; [reflexivity | now rewrite app_cons, IH].
Qed.

Lemma app_assoc (a b c : string) : (a +:+ b) +:+ c = a +:+ (b +:+ c).
Proof.
  induction a as [|x a IH]; [reflexivity | now rewrite !app_cons, IH].
Qed.

Lemma drop_prefix_Some (p s rest : string) :
  drop_prefix p s = Some rest <-> s = p +:+ rest.
Proof.
  revert s; induction p as [|a p IH]; intros s; simpl.
  - split; [now intros [= ->] | now intros ->].
  - destruct s as [|b s].
    + split; discriminate.
    + destruct (Ascii.eqb_spec a b) as [->|Hne].
      * rewrite IH, app_cons. split; [now intros -> | now intros [= ->]].
      * rewrite app_cons. split; [discriminate | intros [= Hab _]; congruence].
Qed.

Lemma drop_prefix_app (p rest : string) : drop_prefix p (p +:+ rest) = Some rest.
Proof. now apply drop_prefix_Some. Qed.

Lemma split_first_Some (needle hay before rest : string) :
  split_first needle hay = Some (before, rest) ->
  hay = before +:+ needle +:+ rest.
Proof.
  revert before; induction hay as [|c hay IH]; intros before; simpl.
  - destruct (drop_prefix needle "") as [r|] eqn:E; [|discriminate].
    intros [= <- <-]. now apply drop_prefix_Some in E.
  - destruct (drop_prefix needle (String c hay)) as [r|] eqn:E.
    + intros [= <- <-]. now apply drop_prefix_Some in E.
    + destruct (split_first needle hay) as [[b r]|]; [|discriminate].
      intros [= <- <-]. rewrite app_cons. f_equal. now apply IH.
Qed.

Lemma split_first_app (needle before rest : string) :
  is_Some (split_first needle (before +:+ needle +:+ rest)).
Proof.
  induction before as [|c before IH].
  - rewrite app_nil_l. destruct needle as [|a n].
    + rewrite app_nil_l. destruct rest; simpl; eauto.
    + simpl. rewrite Ascii.eqb_refl, drop_prefix_app. eauto.
  - rewrite app_cons. simpl. destruct (drop_prefix needle _); [eauto|].
    destruct IH as [[b r] ->]. eauto.
Qed.

(** [needle in hay] holds exactly when [hay] can be cut around a copy of
    [needle]. *)
Lemma contains_true (needle hay : string) :
  contains needle hay = true <->
  exists before rest, hay = before +:+ needle +:+ rest.
Proof.
  unfold contains. split.
  - destruct (split_first needle hay) as [[b r]|] eqn:E; [|discriminate].
    intros _. exists b, r. now apply split_first_Some.
  - intros (b & r & ->). now destruct (split_first_app needle b r) as [? ->].
Qed.

Lemma contains_app (needle before rest : string) :
  contains needle (before +:+ needle +:+ rest) = true.
Proof. apply contains_true. eauto. Qed.

Lemma contains_app_r (needle a b : string) :
  contains needle b = true -> contains needle (a +:+ b) = true.
Proof.
  rewrite !contains_true. intros (x & y & ->).
  exists (a +:+ x), y. now rewrite app_assoc.
Qed.

Lemma contains_app_l (needle a b : string) :
  contains needle a = true -> contains needle (a +:+ b) = true.
Proof.
  rewrite !contains_true. intros (x & y & ->).
  exists x, (y +:+ b). now rewrite !app_assoc.
Qed.

End PyStrFacts.

(** ** The code extractor *)

Lemma re_search_python_block_Some (response group1 : string) :
  re_search_python_block response = Some group1 ->
  exists before rest,
    response = before +:+ fence_open +:+ group1 +:+ fence_close +:+ rest.
Proof.
  induction response as [|c response IH].
  - simpl. destruct (PyStr.drop_prefix fence_open "") as [r|] eqn:E;
      [|discriminate].
    apply PyStrFacts.drop_prefix_Some in E. discriminate E.
  - cbn [re_search_python_block].
    destruct (PyStr.drop_prefix fence_open (String c response)) as [r|] eqn:E.
    + destruct (PyStr.split_first fence_close r) as [[b a]|] eqn:F; simpl.
      * intros [= <-]. exists "", a.
        apply PyStrFacts.drop_prefix_Some in E.
        apply PyStrFacts.split_first_Some in F. now rewrite E, F.
      * intros H. destruct (IH H) as (b & a & ->). now exists (String c b), a.
    + intros H. destruct (IH H) as (b & a & ->). now exists (String c b), a.
Qed.

Lemma re_search_python_block_None (response : string) :
  re_search_python_block response = None <-> ~ has_python_block response.
Proof.
  split.
  - intros Hnone (before & body & rest & ->).
    induction before as [|c before IH].
    + rewrite PyStrFacts.app_nil_l in Hnone.
      destruct (fence_open +:+ body +:+ fence_close +:+ rest) as [|x y] eqn:E;
        [discriminate E|].
      cbn [re_search_python_block] in Hnone. rewrite <- E in Hnone.
      rewrite PyStrFacts.drop_prefix_app in Hnone.
      destruct (PyStrFacts.split_first_app fence_close body rest) as [[b a] Hs].
      rewrite Hs in Hnone. discriminate Hnone.
    + rewrite PyStrFacts.app_cons in Hnone.
      cbn [re_search_python_block] in Hnone.
      destruct (match PyStr.drop_prefix fence_open _ with
                | Some r => fst <$> PyStr.split_first fence_close r
                | None => None end); [discriminate|]. auto.
  - intros Hno. destruct (re_search_python_block response) as [g|] eqn:E;
      [|reflexivity].
    exfalso. apply Hno. apply re_search_python_block_Some in E.
    destruct E as (b & a & ->). now exists b, g, a.
Qed.

(** The first fenced block wins, and its interior is trimmed. *)
Example extract_first_block :
  extract_python_code
    ("Sure." +:+ PyStr.nl +:+ "```python" +:+ PyStr.nl +:+ "  x = 1  "
     +:+ PyStr.nl +:+ "```" +:+ PyStr.nl +:+ "```python" +:+ PyStr.nl
     +:+ "y = 2" +:+ PyStr.nl +:+ "```")
  = "x = 1".
Proof. reflexivity. Qed.

(** A fence that is never closed is no block: the whole text comes back. *)
Example extract_unterminated :
  extract_python_code ("```python" +:+ PyStr.nl +:+ "x = 1" +:+ PyStr.nl)
  = "```python" +:+ PyStr.nl +:+ "x = 1".
Proof. reflexivity. Qed.

(** Neither is a fence without the [python] tag. *)
Example extract_untagged :
  extract_python_code ("```" +:+ PyStr.nl +:+ "x = 1" +:+ PyStr.nl +:+ "```")
  = "```" +:+ PyStr.nl +:+ "x = 1" +:+ PyStr.nl +:+ "```".
Proof. reflexivity. Qed.

(** ** Reading a trace *)

Lemma effects_app (a b : list event) : effects (a ++ b) = effects a ++ effects b.
Proof. apply List.filter_app. Qed.

Lemma omap_effects {A} (f : event -> option A) (tr : list event) :
  (forall line, f (Print line) = None) ->
  omap f (effects tr) = omap f tr.
Proof.
  intros Hf. induction tr as [|e tr IH]; [reflexivity|].
  destruct e as [line| | | | | |]; cbn [effects List.filter is_print negb];
    fold (effects tr).
  1: { rewrite IH. change (Print line :: tr) with ([Print line] ++ tr).
       rewrite omap_app. cbn. now rewrite Hf. }
  all: match goal with
       | |- omap _ (?e :: _) = _ =>
           change (e :: effects tr) with ([e] ++ effects tr);
           change (e :: tr) with ([e] ++ tr)
       end; now rewrite !omap_app, IH.
Qed.

Lemma snapshots_effects tr : snapshots (effects tr) = snapshots tr.
Proof. now apply omap_effects. Qed.
Lemma llm_calls_effects tr : llm_calls (effects tr) = llm_calls tr.
Proof. now apply omap_effects. Qed.
Lemma file_writes_effects tr : file_writes (effects tr) = file_writes tr.
Proof. now apply omap_effects. Qed.
Lemma subprocess_runs_effects tr :
  subprocess_runs (effects tr) = subprocess_runs tr.
Proof. now apply omap_effects. Qed.
Lemma llm_requests_effects tr : llm_requests (effects tr) = llm_requests tr.
Proof. now apply omap_effects. Qed.

Lemma snapshots_app a b : snapshots (a ++ b) = snapshots a ++ snapshots b.
Proof. apply omap_app. Qed.
Lemma llm_calls_app a b : llm_calls (a ++ b) = llm_calls a ++ llm_calls b.
Proof. apply omap_app. Qed.
Lemma file_writes_app a b :
  file_writes (a ++ b) = file_writes a ++ file_writes b.
Proof. apply omap_app. Qed.
Lemma subprocess_runs_app a b :
  subprocess_runs (a ++ b) = subprocess_runs a ++ subprocess_runs b.
Proof. apply omap_app. Qed.
Lemma llm_requests_app a b :
  llm_requests (a ++ b) = llm_requests a ++ llm_requests b.
Proof. apply omap_app. Qed.

(** Two traces with the same effects read the same. *)
Lemma same_effects tr tr' :
  effects tr' = effects tr ->
  snapshots tr' = snapshots tr /\ llm_calls tr' = llm_calls tr /\
  file_writes tr' = file_writes tr /\ subprocess_runs tr' = subprocess_runs tr.
Proof.
  intros H.
  rewrite <- (snapshots_effects tr'), <- (llm_calls_effects tr'),
    <- (file_writes_effects tr'), <- (subprocess_runs_effects tr'), H.
  now rewrite snapshots_effects, llm_calls_effects, file_writes_effects,
    subprocess_runs_effects.
Qed.

(** ** One pass through the loop body *)

#[local] Arguments generate_prompt_text : simpl never.
#[local] Arguments extract_python_code : simpl never.
#[local] Arguments PyStr.contains : simpl never.
#[local] Arguments PyStr.strip : simpl never.
#[local] Arguments PyStr.of_nat : simpl never.
#[local] Arguments PyStr.repeat : simpl never.
#[local] Arguments PyStr.upper : simpl never.
#[local] Arguments PyStr.lower : simpl never.
#[local] Arguments path_exists : simpl never.
#[local] Arguments PyStr.take : simpl never.
#[local] Arguments makedirs_error : simpl never.
#[local] Arguments write_error : simpl never.
#[local] Arguments made_dirs : simpl never.

(** Closes an equation between two traces once the lists are flattened. *)
Ltac trace_eq :=
  cbn; rewrite ?effects_app; cbn;
  repeat match goal with H : effects _ = _ |- _ => rewrite H end;
  rewrite ?List.app_nil_r, <- ?List.app_assoc; reflexivity.

Section BodyFacts.

Context (w : World).

Lemma bind_Ret {A B} (m : M A) (k : A -> M B) s a s' :
  m s = (Ret a, s') -> (m ≫= k) s = k a s'.
Proof. unfold mbind, M_bind, bind. now intros ->. Qed.

Lemma bind_Exit {A B} (m : M A) (k : A -> M B) s c s' :
  m s = (Exit c, s') -> (m ≫= k) s = (Exit c, s').
Proof. unfold mbind, M_bind, bind. now intros ->. Qed.

Lemma bind_Raise {A B} (m : M A) (k : A -> M B) s e s' :
  m s = (Raise e, s') -> (m ≫= k) s = (Raise e, s').
Proof. unfold mbind, M_bind, bind. now intros ->. Qed.

Lemma preamble_join (code : string) :
  PyStr.join PyStr.nl required_imports +:+ PyStr.nl +:+ PyStr.nl +:+ code
  = preamble +:+ code.
Proof.
  unfold preamble, required_imports. cbn [PyStr.join].
  now rewrite !PyStrFacts.app_assoc.
Qed.

(** [save_parser] stops at the first of its two steps that raises. *)
Lemma save_parser_spec (code path : string) (s : State) :
  save_parser code path s =
  match makedirs_error (fs s) (dirname path) with
  | Some e => (Raise e, s)
  | None =>
      match write_error (made_dirs (fs s) (dirname path)) path with
      | Some e =>
          (Raise e,
           {| fs := made_dirs (fs s) (dirname path);
              trace := trace s ++ [Makedirs (dirname path)] |})
      | None =>
          (Ret tt,
           {| fs := written code path (fs s);
              trace := trace s ++ [Makedirs (dirname path);
                                   FileWrite path (preamble +:+ code)] |})
      end
  end.
Proof.
  unfold save_parser, makedirs, write_file. rewrite preamble_join.
  unfold put_fs, get_fs, emit, raise, mbind, M_bind, bind. cbn.
  destruct (makedirs_error (fs s) (dirname path)); [reflexivity|]. cbn.
  destruct (write_error _ path); cbn; [reflexivity|].
  unfold written. cbn. now rewrite <- List.app_assoc.
Qed.

Lemma save_parser_run (code path : string) (s : State) :
  save_error (fs s) path = None ->
  save_parser code path s =
  (Ret tt,
   {| fs := written code path (fs s);
      trace := trace s ++ [Makedirs (dirname path);
                           FileWrite path (preamble +:+ code)] |}).
Proof.
  unfold save_error. intros H. rewrite save_parser_spec.
  destruct (makedirs_error (fs s) (dirname path)); [discriminate H|].
  now rewrite H.
Qed.

Lemma makedirs_error_artifact (f : FS) :
  makedirs_error f PARSER_DIR
  = if is_file f PARSER_DIR
    then Some (os_error "FileExistsError" "[Errno 17] File exists" PARSER_DIR)
    else None.
Proof. reflexivity. Qed.

Lemma write_error_artifact (f : FS) :
  write_error (made_dirs f PARSER_DIR) PARSER_PATH
  = if bool_decide (PARSER_PATH ∈ dirs f)
    then Some (os_error "IsADirectoryError" "[Errno 21] Is a directory"
                 PARSER_PATH)
    else None.
Proof.
  unfold write_error.
  change (dirname PARSER_PATH) with PARSER_DIR.
  change (PyStr.is_empty PARSER_PATH) with false.
  change (PyStr.is_empty PARSER_DIR) with false.
  change (all_slashes PARSER_DIR) with false. cbn [orb].
  unfold made_dirs. cbn [dirs].
  change (path_prefixes "" PARSER_DIR) with [PARSER_DIR].
  rewrite (bool_decide_ext (PARSER_PATH ∈ dirs f ∪ list_to_set [PARSER_DIR])
             (PARSER_PATH ∈ dirs f)).
  2:{ rewrite elem_of_union, elem_of_list_to_set, list_elem_of_singleton.
      split; [intros [H|H]; [exact H | discriminate H] | now left]. }
  destruct (bool_decide (PARSER_PATH ∈ dirs f)); [reflexivity|].
  rewrite bool_decide_eq_true_2; [reflexivity|].
  apply elem_of_union_r, elem_of_list_to_set, list_elem_of_singleton.
  reflexivity.
Qed.

(** The artifact can be saved exactly when it is writable. *)
Lemma save_error_artifact (f : FS) :
  save_error f PARSER_PATH = None <-> artifact_writable f = true.
Proof.
  unfold save_error, artifact_writable.
  change (dirname PARSER_PATH) with PARSER_DIR.
  rewrite makedirs_error_artifact, write_error_artifact.
  destruct (is_file f PARSER_DIR); [split; discriminate|].
  destruct (bool_decide (PARSER_PATH ∈ dirs f)); split;
    (discriminate || reflexivity).
Qed.

(** A saved artifact can be saved again. *)
Lemma artifact_writable_written (code : string) (f : FS) :
  artifact_writable f = true ->
  artifact_writable (written code PARSER_PATH f) = true.
Proof.
  unfold artifact_writable, is_file, written. cbn [files dirs].
  change (dirname PARSER_PATH) with PARSER_DIR.
  change (path_prefixes "" PARSER_DIR) with [PARSER_DIR].
  intros [_ H]%andb_prop. apply negb_true_iff, bool_decide_eq_false in H.
  apply andb_true_intro. split.
  - apply negb_true_iff, andb_false_intro2, negb_false_iff, bool_decide_eq_true.
    apply elem_of_union_r, elem_of_list_to_set, list_elem_of_singleton.
    reflexivity.
  - apply negb_true_iff, bool_decide_eq_false.
    rewrite elem_of_union, elem_of_list_to_set, list_elem_of_singleton.
    intros [H'|H']; [now apply H | discriminate H'].
Qed.

Lemma get_llm_response_run (prompt : string) (s : State) :
  get_llm_response w prompt s =
  let llm_output := llm_text (generate_content w (trace s) MODEL_NAME prompt) in
  (Ret llm_output,
   {| fs := fs s;
      trace := trace s ++ [match llm_output with
                           | Some reply => LlmCall prompt reply
                           | None => LlmNoText prompt
                           end] |}).
Proof.
  unfold get_llm_response, get_trace, emit, mbind, M_bind, bind, mret, M_ret,
    ret. cbn.
  destruct (generate_content w (trace s) MODEL_NAME prompt); reflexivity.
Qed.

Lemma run_test_run (target : string) (s : State) :
  let cmd := [sys_executable w; TEST_SCRIPT; target] in
  let (res, f') := subprocess_run w (trace s) cmd (fs s) in
  run_test_and_capture_output w target s =
  (match res with
   | RunRaised e => Raise e
   | Completed p =>
       Ret (if passes p then "PASS" else "FAIL", stdout p +:+ stderr p)
   end,
   {| fs := f'; trace := trace s ++ [Subprocess cmd res] |}).
Proof.
  intros cmd. unfold run_test_and_capture_output.
  unfold get_trace, get_fs, put_fs, emit, raise, mbind, M_bind, bind,
    mret, M_ret, ret. cbn. fold cmd.
  destruct (subprocess_run w (trace s) cmd (fs s)) as [res f'].
  cbn. destruct res as [p|e]; [|reflexivity].
  unfold passes. now destruct (_ && _).
Qed.

Lemma loop_body_spec (target pdf_text : string) (st : loop_state) (s : State) :
  let G := Generating (attempts st) (previous_code st) (error_trace st) in
  let prompt :=
    generate_prompt_text target pdf_text
      (read_csv_columns w (fs s) CSV_PATH) (attempts st =? 0)%nat
      (previous_code st) (error_trace st) in
  exists tr1,
    effects tr1 = effects (trace s) ++ [G] /\
    match llm_text (generate_content w tr1 MODEL_NAME prompt) with
    | None =>
        exists s',
          loop_body w target pdf_text st s = (Raise none_not_iterable, s') /\
          fs s' = fs s /\
          effects (trace s') = effects (trace s) ++ [G; LlmNoText prompt]
    | Some reply =>
        let code := extract_python_code reply in
        if usable reply then
          match makedirs_error (fs s) PARSER_DIR with
          | Some e =>
              exists s',
                loop_body w target pdf_text st s = (Raise e, s') /\
                fs s' = fs s /\
                effects (trace s')
                = effects (trace s) ++ [G; LlmCall prompt reply]
          | None =>
              match write_error (made_dirs (fs s) PARSER_DIR) PARSER_PATH with
              | Some e =>
                  exists s',
                    loop_body w target pdf_text st s = (Raise e, s') /\
                    fs s' = made_dirs (fs s) PARSER_DIR /\
                    effects (trace s')
                    = effects (trace s)
                      ++ [G; LlmCall prompt reply; Makedirs PARSER_DIR]
              | None =>
                  exists tr2,
                    effects tr2 =
                      effects (trace s)
                      ++ [G; LlmCall prompt reply; Makedirs PARSER_DIR;
                          FileWrite PARSER_PATH (preamble +:+ code)] /\
                    let cmd := [sys_executable w; TEST_SCRIPT; target] in
                    let res :=
                      subprocess_run w tr2 cmd
                        (written code PARSER_PATH (fs s)) in
                    exists s',
                      loop_body w target pdf_text st s
                      = (body_result st code (fst res), s') /\
                      fs s' = snd res /\
                      effects (trace s')
                      = effects tr2 ++ [Subprocess cmd (fst res)]
              end
          end
        else
          exists s',
            loop_body w target pdf_text st s = (Ret Break, s') /\
            fs s' = fs s /\
            effects (trace s') = effects (trace s) ++ [G; LlmCall prompt reply]
    end.
Proof.
  intros G prompt.
  unfold loop_body.
  unfold print, generate_prompt, get_fs, get_trace, emit.
  unfold mbind, M_bind, bind, mret, M_ret, ret. cbn.
  fold G. fold prompt.
  rewrite get_llm_response_run. cbn [trace fs].
  match goal with
  | |- context [generate_content w ?tr _ _] => set (tr1 := tr)
  end.
  assert (Htr1 : effects tr1 = effects (trace s) ++ [G]).
  { unfold tr1. trace_eq. }
  exists tr1. split; [exact Htr1|]. cbn zeta.
  destruct (llm_text (generate_content w tr1 MODEL_NAME prompt))
    as [reply|]; cbn.
  2:{ eexists. split; [reflexivity|]. split; [reflexivity|]. trace_eq. }
  unfold usable.
  destruct (PyStr.contains "LLM_API_ERROR" reply) eqn:Herr; cbn.
  { eexists. split; [reflexivity|]. split; [reflexivity|]. trace_eq. }
  destruct (PyStr.is_empty (PyStr.strip (extract_python_code reply)))
    eqn:Hempty; cbn.
  { eexists. split; [reflexivity|]. split; [reflexivity|]. trace_eq. }
  set (code := extract_python_code reply).
  rewrite (save_parser_spec code PARSER_PATH). cbn [fs trace].
  change (dirname PARSER_PATH) with PARSER_DIR.
  destruct (makedirs_error (fs s) PARSER_DIR) as [e|].
  { eexists. split; [reflexivity|]. split; [reflexivity|]. trace_eq. }
  destruct (write_error (made_dirs (fs s) PARSER_DIR) PARSER_PATH) as [e|].
  { eexists. split; [reflexivity|]. split; [reflexivity|]. trace_eq. }
  cbn.
  match goal with
  | |- context [run_test_and_capture_output w target ?s0] => set (s2 := s0)
  end.
  exists (trace s2). split.
  { unfold s2. trace_eq. }
  pose proof (run_test_run target s2) as Hrun. cbn zeta in Hrun.
  change (fs s2) with (written code PARSER_PATH (fs s)) in Hrun.
  destruct (subprocess_run w (trace s2) _ _) as [res f'].
  rewrite Hrun. cbn [fst snd].
  destruct res as [p|e]; cbn [body_result].
  - destruct (passes p); cbn;
      (eexists; split; [reflexivity|]; split; [reflexivity|]; trace_eq).
  - eexists. split; [reflexivity|]. split; [reflexivity|]. trace_eq.
Qed.

End BodyFacts.
(** ** The loop *)

Section ChainFacts.

Context (target pdf_text : string).

Lemma chained_prefix snaps st calls runs :
  chained target pdf_text (snaps ++ [st]) calls runs ->
  chained target pdf_text snaps calls runs.
Proof.
  intros (H1 & H2 & H3 & H4). split; [|split; [|split]].
  - intros k a Hk. apply H1. now apply lookup_app_l_Some.
  - intros a Ha. apply H2. now apply lookup_app_l_Some.
  - intros k b Hk. apply H3. now apply lookup_app_l_Some.
  - intros k a prompt reply Hk. apply H4. now apply lookup_app_l_Some.
Qed.

(** The entry in progress makes its model call, and possibly its
    validation run. *)
Lemma chained_call snaps st calls runs cols reply more :
  length snaps = attempts st ->
  length calls = attempts st ->
  chained target pdf_text (snaps ++ [st]) calls runs ->
  chained target pdf_text (snaps ++ [st])
    (calls ++ [(generate_prompt_text target pdf_text cols
                  (attempts st =? 0)%nat (previous_code st)
                  (error_trace st), reply)])
    (runs ++ more).
Proof.
  intros Hs Hc (H1 & H2 & H3 & H4). split; [|split; [|split]].
  - exact H1.
  - exact H2.
  - intros k b Hk. destruct (H3 k b Hk) as (pr & re & cmd & p & Hl & Hr & Hrest).
    exists pr, re, cmd, p. split; [now apply lookup_app_l_Some|].
    split; [now apply lookup_app_l_Some | exact Hrest].
  - intros k a prompt reply' Hk Hcall.
    apply lookup_snoc_Some in Hcall as [[_ Hcall]|[-> [= <- <-]]].
    + eapply H4; eassumption.
    + rewrite Hc, <- Hs in Hk. rewrite list_lookup_middle in Hk by reflexivity.
      injection Hk as <-. now exists cols.
Qed.

(** A failed validation run opens the next entry. *)
Lemma chained_step snaps st calls runs prompt reply cmd p :
  length snaps = attempts st ->
  length calls = attempts st ->
  length runs = attempts st ->
  usable reply = true -> passes p = false ->
  chained target pdf_text (snaps ++ [st]) (calls ++ [(prompt, reply)])
    (runs ++ [(cmd, Completed p)]) ->
  chained target pdf_text
    ((snaps ++ [st])
     ++ [{| attempts := attempts st + 1;
            previous_code := extract_python_code reply;
            error_trace := stdout p +:+ stderr p |}])
    (calls ++ [(prompt, reply)]) (runs ++ [(cmd, Completed p)]).
Proof.
  intros Hs Hc Hr Hu Hp (H1 & H2 & H3 & H4).
  assert (Hlen : length (snaps ++ [st]) = attempts st + 1)
    by (rewrite length_app; simpl; lia).
  split; [|split; [|split]].
  - intros k a Hk. apply lookup_snoc_Some in Hk as [[_ Hk]|[-> <-]].
    + now apply H1.
    + simpl. lia.
  - intros a Ha. apply H2.
    destruct snaps; simpl in *; assumption.
  - intros k b Hk. apply lookup_snoc_Some in Hk as [[_ Hk]|[Hk <-]].
    + now apply H3.
    + assert (k = attempts st) as -> by lia.
      exists prompt, reply, cmd, p. simpl.
      rewrite <- Hc at 1. rewrite <- Hr at 1.
      rewrite !list_lookup_middle by reflexivity. repeat split; assumption.
  - intros k a pr re Hk Hcall.
    apply lookup_snoc_Some in Hk as [[_ Hk]|[-> <-]].
    + eapply H4; eassumption.
    + apply lookup_lt_Some in Hcall. rewrite !length_app in Hcall.
      simpl in Hcall. lia.
Qed.

End ChainFacts.

Lemma history_app (tr tr' evs : list event) :
  effects tr' = effects tr ++ evs ->
  snapshots tr' = snapshots tr ++ snapshots evs /\
  llm_calls tr' = llm_calls tr ++ llm_calls evs /\
  file_writes tr' = file_writes tr ++ file_writes evs /\
  subprocess_runs tr' = subprocess_runs tr ++ subprocess_runs evs.
Proof.
  intros H.
  rewrite <- (snapshots_effects tr'), <- (llm_calls_effects tr'),
    <- (file_writes_effects tr'), <- (subprocess_runs_effects tr'), H.
  rewrite snapshots_app, llm_calls_app, file_writes_app, subprocess_runs_app.
  now rewrite snapshots_effects, llm_calls_effects, file_writes_effects,
    subprocess_runs_effects.
Qed.

Section LoopFacts.

Context (w : World) (target pdf_text : string).

Lemma save_error_made_dirs (f : FS) :
  makedirs_error f PARSER_DIR = None ->
  save_error (made_dirs f PARSER_DIR) PARSER_PATH
  = write_error (made_dirs f PARSER_DIR) PARSER_PATH.
Proof.
  intros _. unfold save_error. change (dirname PARSER_PATH) with PARSER_DIR.
  assert (Hd : PARSER_DIR ∈ dirs (made_dirs f PARSER_DIR)).
  { unfold made_dirs. cbn [dirs].
    change (path_prefixes "" PARSER_DIR) with [PARSER_DIR].
    apply elem_of_union_r, elem_of_list_to_set, list_elem_of_singleton.
    reflexivity. }
  rewrite makedirs_error_artifact. unfold is_file.
  rewrite (bool_decide_eq_true_2 _ Hd), andb_false_r.
  rewrite !write_error_artifact.
  rewrite (bool_decide_ext (PARSER_PATH ∈ dirs (made_dirs f PARSER_DIR))
             (PARSER_PATH ∈ dirs f)); [reflexivity|].
  unfold made_dirs. cbn [dirs].
  change (path_prefixes "" PARSER_DIR) with [PARSER_DIR].
  rewrite elem_of_union, elem_of_list_to_set, list_elem_of_singleton.
  split; [intros [H|H]; [exact H | discriminate H] | now left].
Qed.

Lemma last_effects_snoc (tr tr' : list event) (evs : list event) (e : event) :
  effects tr' = effects tr ++ evs ++ [e] -> last (effects tr') = Some e.
Proof. intros ->. now rewrite List.app_assoc, last_snoc. Qed.

(** One pass through the body, read through the histories. *)
Lemma loop_body_history (st : loop_state) (s : State) :
  exists tr1 cols,
    llm_calls tr1 = llm_calls (trace s) /\
    subprocess_runs tr1 = subprocess_runs (trace s) /\
    let prompt :=
      generate_prompt_text target pdf_text cols (attempts st =? 0)%nat
        (previous_code st) (error_trace st) in
    exists r s',
      loop_body w target pdf_text st s = (r, s') /\
      snapshots (trace s') = snapshots (trace s) ++ [st] /\
      match llm_text (generate_content w tr1 MODEL_NAME prompt) with
      | None =>
          r = Raise none_not_iterable /\ fs s' = fs s /\
          last (effects (trace s')) = Some (LlmNoText prompt) /\
          llm_calls (trace s') = llm_calls (trace s) /\
          file_writes (trace s') = file_writes (trace s) /\
          subprocess_runs (trace s') = subprocess_runs (trace s)
      | Some reply =>
          let code := extract_python_code reply in
          llm_calls (trace s') = llm_calls (trace s) ++ [(prompt, reply)] /\
          if usable reply then
            match save_error (fs s) PARSER_PATH with
            | Some e =>
                r = Raise e /\
                save_error (fs s') PARSER_PATH = Some e /\
                file_writes (trace s') = file_writes (trace s) /\
                subprocess_runs (trace s') = subprocess_runs (trace s)
            | None =>
                exists tr2,
                  let cmd := [sys_executable w; TEST_SCRIPT; target] in
                  llm_calls tr2 = llm_calls (trace s) ++ [(prompt, reply)] /\
                  subprocess_runs tr2 = subprocess_runs (trace s) /\
                  let res :=
                    subprocess_run w tr2 cmd
                      (written code PARSER_PATH (fs s)) in
                  r = body_result st code (fst res) /\
                  fs s' = snd res /\
                  file_writes (trace s')
                  = file_writes (trace s)
                    ++ [(PARSER_PATH, preamble +:+ code)] /\
                  subprocess_runs (trace s')
                  = subprocess_runs (trace s) ++ [(cmd, fst res)]
            end
          else
            r = Ret Break /\ fs s' = fs s /\
            file_writes (trace s') = file_writes (trace s) /\
            subprocess_runs (trace s') = subprocess_runs (trace s)
      end.
Proof.
  destruct (loop_body_spec w target pdf_text st s) as (tr1 & Htr1 & H).
  cbn zeta in H.
  exists tr1, (read_csv_columns w (fs s) CSV_PATH).
  apply history_app in Htr1 as (_ & Hc1 & _ & Hr1). cbn in Hc1, Hr1.
  rewrite List.app_nil_r in Hc1, Hr1.
  split; [exact Hc1|]. split; [exact Hr1|]. cbn zeta.
  destruct (llm_text _) as [reply|].
  2:{ destruct H as (s' & Hbody & Hfs & Htr').
      pose proof (last_effects_snoc _ _ [_] _ Htr') as Hlast.
      apply history_app in Htr' as (Hs & Hc & Hw & Hr).
      cbn in Hs, Hc, Hw, Hr. rewrite List.app_nil_r in Hc, Hw, Hr.
      destruct st as [a pc et].
      eexists _, s'. repeat split; eassumption. }
  cbn zeta in H.
  assert (Hse : save_error (fs s) PARSER_PATH
                = match makedirs_error (fs s) PARSER_DIR with
                  | Some e => Some e
                  | None => write_error (made_dirs (fs s) PARSER_DIR)
                              PARSER_PATH
                  end) by reflexivity.
  rewrite Hse. clear Hse.
  destruct (usable reply).
  - destruct (makedirs_error (fs s) PARSER_DIR) as [e|] eqn:Hmk.
    { destruct H as (s' & Hbody & Hfs & Htr').
      apply history_app in Htr' as (Hs & Hc & Hw & Hr).
      cbn in Hs, Hc, Hw, Hr. rewrite List.app_nil_r in Hw, Hr.
      destruct st as [a pc et].
      eexists _, s'. split; [exact Hbody|]. split; [exact Hs|].
      split; [exact Hc|]. split; [reflexivity|].
      split; [|split; assumption].
      rewrite Hfs. unfold save_error.
      change (dirname PARSER_PATH) with PARSER_DIR. now rewrite Hmk. }
    destruct (write_error (made_dirs (fs s) PARSER_DIR) PARSER_PATH)
      as [e|] eqn:Hwr.
    { destruct H as (s' & Hbody & Hfs & Htr').
      apply history_app in Htr' as (Hs & Hc & Hw & Hr).
      cbn in Hs, Hc, Hw, Hr. rewrite List.app_nil_r in Hw, Hr.
      destruct st as [a pc et].
      eexists _, s'. split; [exact Hbody|]. split; [exact Hs|].
      split; [exact Hc|]. split; [reflexivity|].
      split; [|split; assumption].
      now rewrite Hfs, save_error_made_dirs. }
    destruct H as (tr2 & Htr2 & s' & Hbody & Hfs & Htr').
    rewrite Htr2 in Htr'. rewrite <- List.app_assoc in Htr'.
    apply history_app in Htr2 as (_ & Hc2 & _ & Hr2).
    apply history_app in Htr' as (Hs & Hc & Hw & Hr).
    cbn in Hc2, Hr2, Hs, Hc, Hw, Hr. rewrite List.app_nil_r in Hr2.
    destruct st as [a pc et].
    eexists _, s'. split; [exact Hbody|]. split; [exact Hs|].
    split; [exact Hc|].
    exists tr2. cbn zeta. repeat split; eassumption.
  - destruct H as (s' & Hbody & Hfs & Htr').
    apply history_app in Htr' as (Hs & Hc & Hw & Hr).
    cbn in Hs, Hc, Hw, Hr. rewrite List.app_nil_r in Hw, Hr.
    destruct st as [a pc et].
    eexists _, s'. repeat split; eassumption.
Qed.

Lemma agent_loop_unfold (fuel : nat) (st : loop_state) (s : State) :
  agent_loop w (S fuel) target pdf_text st s =
  if (attempts st <? MAX_ATTEMPTS)%nat then
    match loop_body w target pdf_text st s with
    | (Ret (Continue st'), s') => agent_loop w fuel target pdf_text st' s'
    | (Ret Break, s') => (Ret (Broke, st), s')
    | (Ret Return, s') => (Ret (Returned, st), s')
    | (Exit c, s') => (Exit c, s')
    | (Raise e, s') => (Raise e, s')
    end
  else (Ret (CondFalse, st), s).
Proof.
  cbn [agent_loop]. destruct (attempts st <? MAX_ATTEMPTS)%nat;
    [|reflexivity].
  unfold mbind, M_bind, bind.
  destruct (loop_body w target pdf_text st s) as [[[st'| |]|c|e] s'];
    reflexivity.
Qed.

End LoopFacts.

#[local] Arguments agent_loop : simpl never.

Section LoopInvariant.

Context (w : World) (target pdf_text : string).

(** The recursion bound of [run_agent] is never reached. *)
Lemma agent_loop_fuel (fuel : nat) (st : loop_state) (s : State) :
  MAX_ATTEMPTS - attempts st < fuel ->
  forall stf,
    fst (agent_loop w fuel target pdf_text st s) <> Ret (OutOfFuel, stf).
Proof.
  revert st s. induction fuel as [|fuel IH]; intros st s Hf stf; [lia|].
  rewrite agent_loop_unfold.
  destruct (attempts st <? MAX_ATTEMPTS)%nat eqn:Hlt; [|cbn; congruence].
  apply Nat.ltb_lt in Hlt.
  destruct (loop_body_history w target pdf_text st s)
    as (tr1 & cols & _ & _ & H).
  cbn zeta in H. destruct H as (r & s' & Hbody & _ & H).
  rewrite Hbody. destruct (llm_text _) as [reply|];
    [|destruct H as (-> & _); cbn; congruence].
  cbn zeta in H. destruct H as (_ & H). destruct (usable _).
  - destruct (save_error (fs s) PARSER_PATH) as [e|];
      [destruct H as (-> & _); cbn; congruence|].
    destruct H as (tr2 & _ & _ & Hr & _). cbn zeta in Hr. subst r.
    destruct (fst (subprocess_run w tr2 _ _)) as [p|e]; cbn [body_result].
    + destruct (passes p); [cbn; congruence|]. apply IH. cbn [attempts]. lia.
    + cbn. congruence.
  - destruct H as (-> & _). cbn. congruence.
Qed.

Lemma loop_post_exit tr st ex :
  loop_inv target pdf_text tr st ->
loop_post target pdf_text tr (Ret (ex, st)).
Proof.
  intros (Hle & Hs & _ & _ & _ & Hch). split; [|split].
  - eapply chained_prefix, Hch.
  - lia.
  - intros ? ? [= _ <-]. lia.
Qed.

Lemma loop_post_call tr tr' st cols reply more r :
  loop_inv target pdf_text tr st ->
  attempts st < MAX_ATTEMPTS ->
  snapshots tr' = snapshots tr ++ [st] ->
  llm_calls tr'
  = llm_calls tr
    ++ [(generate_prompt_text target pdf_text cols (attempts st =? 0)%nat
           (previous_code st) (error_trace st), reply)] ->
  subprocess_runs tr' = subprocess_runs tr ++ more ->
  (forall ex stf, r = Ret (ex, stf) -> stf = st) ->
  loop_post target pdf_text tr' r.
Proof.
  intros (Hle & Hs & Hc & _ & _ & Hch) Hlt Hs' Hc' Hr' Hst.
  unfold loop_post. rewrite Hs', Hc', Hr', length_app. cbn [length].
  split; [|split].
  - now apply chained_call.
  - lia.
  - intros ex stf Hr. apply Hst in Hr as ->. lia.
Qed.

Lemma loop_post_no_call tr tr' st e :
  loop_inv target pdf_text tr st ->
  attempts st < MAX_ATTEMPTS ->
  snapshots tr' = snapshots tr ++ [st] ->
  llm_calls tr' = llm_calls tr ->
  subprocess_runs tr' = subprocess_runs tr ->
  loop_post target pdf_text tr' (Raise e).
Proof.
  intros (Hle & Hs & Hc & _ & _ & Hch) Hlt Hs' Hc' Hr'.
  unfold loop_post. rewrite Hs', Hc', Hr', length_app. cbn [length].
  split; [exact Hch|]. split; [lia | discriminate].
Qed.

Lemma agent_loop_inv (fuel : nat) (st : loop_state) (s : State) r s' :
  loop_inv target pdf_text (trace s) st ->
  agent_loop w fuel target pdf_text st s = (r, s') ->
  loop_post target pdf_text (trace s') r.
Proof.
  revert st s. induction fuel as [|fuel IH]; intros st s Hinv.
  { intros [= <- <-]. now apply loop_post_exit. }
  rewrite agent_loop_unfold.
  destruct (attempts st <? MAX_ATTEMPTS)%nat eqn:Hlt;
    [|intros [= <- <-]; now apply loop_post_exit].
  apply Nat.ltb_lt in Hlt.
  destruct (loop_body_history w target pdf_text st s)
    as (tr1 & cols & _ & _ & H).
  cbn zeta in H. destruct H as (r0 & s1 & Hbody & Hs & H).
  rewrite Hbody. destruct (llm_text _) as [reply|].
  2:{ destruct H as (-> & _ & _ & Hc & _ & Hr). intros [= <- <-].
      eapply loop_post_no_call; eassumption. }
  cbn zeta in H. destruct H as (Hc & H). destruct (usable _) eqn:Hu.
  - destruct (save_error (fs s) PARSER_PATH) as [e|].
    { destruct H as (-> & _ & _ & Hr). intros [= <- <-].
      eapply loop_post_call; try eassumption.
      + rewrite Hr. symmetry. apply List.app_nil_r.
      + discriminate. }
    destruct H as (tr2 & _ & _ & Hr0 & _ & Hw & Hr).
    cbn zeta in Hr0, Hr. subst r0.
    destruct (fst (subprocess_run w tr2 _ _)) as [p|e]; cbn [body_result].
    + destruct (passes p) eqn:Hp.
      * intros [= <- <-].
        eapply loop_post_call; try eassumption. now intros ? ? [= _ <-].
      * apply IH. destruct Hinv as (Hle & Hls & Hlc & Hlw & Hlr & Hch).
        unfold loop_inv. rewrite Hs, Hc, Hw, Hr, !length_app.
        cbn [length attempts].
        repeat (split; [lia|]).
        apply chained_step; try assumption.
        now apply chained_call.
    + intros [= <- <-].
      eapply loop_post_call; try eassumption. discriminate.
  - destruct H as (-> & _ & _ & Hr). intros [= <- <-].
    eapply loop_post_call; try eassumption.
    + rewrite Hr. symmetry. apply List.app_nil_r.
    + now intros ? ? [= _ <-].
Qed.

End LoopInvariant.

(** ** The whole run *)

Section RunFacts.

Context (w : World).

Lemma run_agent_spec (target : string) (s : State) :
  if fixtures_present (fs s) then
    match pdf_reader w (fs s) PDF_PATH with
    | PdfPages pages =>
        exists s0,
          fs s0 = fs s /\ effects (trace s0) = effects (trace s) /\
          let rs := agent_loop w (S MAX_ATTEMPTS) target (pdf_text_of pages)
                      init_loop_state s0 in
          exists s',
            run_agent w target s = (fst rs, s') /\
            fs s' = fs (snd rs) /\
            effects (trace s') = effects (trace (snd rs))
    | _ =>
        exists s',
          run_agent w target s = (Exit 1, s') /\
          fs s' = fs s /\ effects (trace s') = effects (trace s)
    end
  else
    exists s',
      run_agent w target s = (Exit 1, s') /\
      fs s' = fs s /\ effects (trace s') = effects (trace s).
Proof.
  unfold run_agent, fixtures_present.
  unfold print, get_fs, emit, sys_exit, try_except, read_pdf_text_for_prompt.
  unfold mbind, M_bind, bind, mret, M_ret, ret. cbn.
  destruct (path_exists (fs s) PDF_PATH && path_exists (fs s) CSV_PATH
            && path_exists (fs s) TEST_SCRIPT); cbn.
  - destruct (pdf_reader w (fs s) PDF_PATH) as [|e|pages]; cbn.
    + eexists. split; [reflexivity|]. split; [reflexivity|]. trace_eq.
    + eexists. split; [reflexivity|]. split; [reflexivity|]. trace_eq.
    + fold (pdf_text_of pages). fold init_loop_state.
      match goal with
      | |- context [agent_loop _ _ _ _ _ ?s0] => exists s0
      end.
      split; [reflexivity|]. split; [trace_eq|]. cbn zeta.
      match goal with
      | |- context [agent_loop ?a ?b ?c ?d ?e ?f] =>
          destruct (agent_loop a b c d e f) as [[[ex stf]|c0|e0] s1]
      end.
      * destruct ex; cbn; eexists;
          (split; [reflexivity|]; split; [reflexivity|]; trace_eq).
      * eexists. split; [reflexivity|]. split; reflexivity.
      * eexists. split; [reflexivity|]. split; reflexivity.
  - eexists. split; [reflexivity|]. split; [reflexivity|]. trace_eq.
Qed.

End RunFacts.


(** C4: when the validation subprocess completes, the verdict is ["PASS"]
    exactly when its exit status is zero and the marker ["SUCCESS"] occurs
    in stdout followed by stderr; every other verdict is ["FAIL"]; the
    diagnostic is always that whole captured text. *)
Theorem verdict_pass_iff (w : World) (target : string) (s : State)
    (p : CompletedProcess) (f' : FS) :
  subprocess_run w (trace s) [sys_executable w; TEST_SCRIPT; target] (fs s)
  = (Completed p, f') ->
  exists verdict,
    fst (run_test_and_capture_output w target s)
    = Ret (verdict, stdout p +:+ stderr p) /\
    (verdict = "PASS" <->
     returncode p = 0%Z /\
     PyStr.contains "SUCCESS" (stdout p +:+ stderr p) = true) /\
    (verdict <> "PASS" -> verdict = "FAIL").
Proof.
  intros Hrun. pose proof (run_test_run w target s) as H. cbn zeta in H.
  rewrite Hrun in H. rewrite H. cbn [fst].
  exists (if passes p then "PASS" else "FAIL"). split; [reflexivity|].
  unfold passes. rewrite <- Z.eqb_eq, <- andb_true_iff.
  destruct (_ && _); split.
  - split; [reflexivity | congruence].
  - congruence.
  - split; [discriminate | discriminate].
  - reflexivity.
Qed.

Lemma verdict_pass_iff_witness :
  exists verdict,
    fst (run_test_and_capture_output w_lookalike "icici" (initial_state fs_ok))
    = Ret (verdict,
           "SUCCESS: 3 of 4 checksTraceback (most recent call last):") /\
    (verdict = "PASS" <->
     1%Z = 0%Z /\
     PyStr.contains "SUCCESS"
       "SUCCESS: 3 of 4 checksTraceback (most recent call last):" = true) /\
    (verdict <> "PASS" -> verdict = "FAIL").
Proof.
  apply (verdict_pass_iff w_lookalike "icici" (initial_state fs_ok)
           {| returncode := 1;
              stdout := "SUCCESS: 3 of 4 checks";
              stderr := "Traceback (most recent call last):" |} fs_ok).
  reflexivity.
Defined.

(** C8, as the code has it: when [subprocess.run] returns, whatever the
    exit status and the output, the runner returns a verdict paired with
    the whole captured output, and a non-zero exit status gives ["FAIL"];
    when [subprocess.run] itself raises, the runner has no handler and the
    exception propagates. *)
Theorem run_test_surfaces_exit_status (w : World) (target : string)
    (s : State) :
  match fst (subprocess_run w (trace s)
               [sys_executable w; TEST_SCRIPT; target] (fs s)) with
  | Completed p =>
      exists verdict,
        fst (run_test_and_capture_output w target s)
        = Ret (verdict, stdout p +:+ stderr p) /\
        (returncode p <> 0%Z -> verdict = "FAIL")
  | RunRaised e => fst (run_test_and_capture_output w target s) = Raise e
  end.
Proof.
  pose proof (run_test_run w target s) as H. cbn zeta in H.
  destruct (subprocess_run w (trace s) _ (fs s)) as [[p|e] f']; rewrite H;
    cbn [fst]; [|reflexivity].
  eexists. split; [reflexivity|]. intros Hrc. unfold passes.
  destruct (Z.eqb_spec (returncode p) 0); [contradiction | reflexivity].
Qed.

(** C8, as stated, fails: a child whose output cannot be decoded makes
    [subprocess.run] raise, and the runner raises with it. *)
Lemma run_test_raises :
  fst (run_test_and_capture_output w_undecodable "icici"
         (initial_state fs_ok))
  = Raise (Exn "UnicodeDecodeError"
             "'utf-8' codec can't decode byte 0xff in position 0: invalid start byte").
Proof. reflexivity. Qed.

(** ** The artifact writer *)

Lemma path_prefixes_self (acc d : string) :
  (acc +:+ d) ∈ path_prefixes acc d.
Proof.
  revert acc. induction d as [|c d IH]; intros acc.
  - rewrite PyStrFacts.app_nil_r. cbn. apply list_elem_of_singleton. reflexivity.
  - cbn [path_prefixes]. apply elem_of_app. right.
    replace (acc +:+ String c d) with ((acc +:+ String c "") +:+ d)
      by now rewrite PyStrFacts.app_assoc.
    apply IH.
Qed.

(** C6: when the destination can be written (no directory on the way to
    it is a regular file and the path itself is no directory, so that
    neither [os.makedirs] nor [open] raises), then whatever the generated
    code and whatever was at the path before, [save_parser] leaves at that
    path exactly the fixed preamble (the three import lines and a blank
    line) followed by the generated code: the old content is replaced, no
    other file changes, and the destination directory exists afterwards. *)
Theorem save_parser_overwrites (code path : string) (s : State) :
  save_error (fs s) path = None ->
  exists s',
    save_parser code path s = (Ret tt, s') /\
    files (fs s') !! path = Some (preamble +:+ code) /\
    (forall other,
       other <> path -> files (fs s') !! other = files (fs s) !! other) /\
    dirname path ∈ dirs (fs s') /\
    file_writes (trace s')
    = file_writes (trace s) ++ [(path, preamble +:+ code)].
Proof.
  intros Hd. rewrite (save_parser_run code path s Hd). eexists.
  split; [reflexivity|]. cbn [fs files dirs written trace].
  split; [apply lookup_insert_eq|].
  split; [intros other Hne; now apply lookup_insert_ne|].
  split.
  - apply elem_of_union_r, elem_of_list_to_set.
    apply (path_prefixes_self "" (dirname path)).
  - now rewrite file_writes_app.
Qed.

Lemma save_parser_overwrites_witness :
  files fs_stale !! PARSER_PATH = Some "def parse(pdf_path): return None" /\
  exists s',
    save_parser "x = 1" PARSER_PATH (initial_state fs_stale) = (Ret tt, s') /\
    files (fs s') !! PARSER_PATH = Some (preamble +:+ "x = 1") /\
    (forall other,
       other <> PARSER_PATH ->
       files (fs s') !! other = files fs_stale !! other) /\
    dirname PARSER_PATH ∈ dirs (fs s') /\
    file_writes (trace s') = [] ++ [(PARSER_PATH, preamble +:+ "x = 1")].
Proof.
  split; [reflexivity|].
  apply (save_parser_overwrites "x = 1" PARSER_PATH (initial_state fs_stale)).
  vm_compute. reflexivity.
Defined.

(** Where the parser directory is a regular file, or the artifact path a
    directory, [save_parser] raises and writes nothing. *)
Example save_parser_blocked :
  fst (save_parser "x = 1" PARSER_PATH (initial_state fs_blocked))
  = Raise (Exn "FileExistsError" "[Errno 17] File exists: 'custom_parsers'") /\
  fst (save_parser "x = 1" PARSER_PATH (initial_state fs_dir_at_artifact))
  = Raise (Exn "IsADirectoryError"
             "[Errno 21] Is a directory: 'custom_parsers/icici_parser.py'").
Proof. split; vm_compute; reflexivity. Qed.

(** ** Aborting a run *)

(** A reply that fails one of the two checks ends the run at once. *)
Lemma agent_loop_abort (w : World) (target pdf_text : string) (fuel : nat)
    (st : loop_state) (s : State) :
  attempts st < MAX_ATTEMPTS ->
  exists tr1 prompt,
    llm_calls tr1 = llm_calls (trace s) /\
    forall reply,
      llm_text (generate_content w tr1 MODEL_NAME prompt) = Some reply ->
      usable reply = false ->
      exists s',
        agent_loop w (S fuel) target pdf_text st s = (Ret (Broke, st), s') /\
        llm_calls (trace s') = llm_calls (trace s) ++ [(prompt, reply)] /\
        fs s' = fs s /\
        file_writes (trace s') = file_writes (trace s) /\
        subprocess_runs (trace s') = subprocess_runs (trace s).
Proof.
  intros Hlt. apply Nat.ltb_lt in Hlt.
  destruct (loop_body_history w target pdf_text st s)
    as (tr1 & cols & Hc1 & _ & H).
  cbn zeta in H. destruct H as (r & s' & Hbody & _ & H).
  eexists tr1, _. split; [exact Hc1|]. intros reply Hreply Hu.
  rewrite Hreply in H. cbn zeta in H. destruct H as (Hc & H).
  rewrite Hu in H. destruct H as (-> & Hfs & Hw & Hr).
  exists s'. rewrite agent_loop_unfold, Hlt, Hbody. auto.
Qed.

(** C5: a response without a fenced [python] block is returned whole,
    trimmed; and when the next model reply is a text and the code extracted
    from it is empty after trimming, the loop is left by [break] with the
    loop variables untouched: no file is written and no validation
    subprocess is run. *)
Theorem extractor_fallback_then_abort (w : World) (target pdf_text : string)
    (fuel : nat) (st : loop_state) (s : State) (response : string) :
  ~ has_python_block response ->
  attempts st < MAX_ATTEMPTS ->
  (forall tr prompt,
     llm_calls tr = llm_calls (trace s) ->
     exists reply,
       llm_text (generate_content w tr MODEL_NAME prompt) = Some reply /\
       PyStr.is_empty (PyStr.strip (extract_python_code reply)) = true) ->
  extract_python_code response = PyStr.strip response /\
  exists s',
    agent_loop w (S fuel) target pdf_text st s = (Ret (Broke, st), s') /\
    fs s' = fs s /\
    file_writes (trace s') = file_writes (trace s) /\
    subprocess_runs (trace s') = subprocess_runs (trace s).
Proof.
  intros Hno Hlt Hempty. split.
  - unfold extract_python_code.
    apply re_search_python_block_None in Hno. now rewrite Hno.
  - destruct (agent_loop_abort w target pdf_text fuel st s Hlt)
      as (tr1 & prompt & Hc1 & H).
    destruct (Hempty tr1 prompt Hc1) as (reply & Hreply & He).
    destruct (H reply Hreply) as (s' & Hloop & _ & Hrest).
    + unfold usable. rewrite He. apply andb_false_r.
    + now exists s'.
Qed.

Lemma extractor_fallback_then_abort_witness :
  extract_python_code blank_reply = "" /\
  exists s',
    agent_loop w_blank 4 "icici" "Date Description Balance" init_loop_state
      (initial_state fs_ok)
    = (Ret (Broke, init_loop_state), s') /\
    fs s' = fs_ok /\
    file_writes (trace s') = [] /\
    subprocess_runs (trace s') = [].
Proof.
  apply (extractor_fallback_then_abort w_blank "icici"
           "Date Description Balance" 3 init_loop_state
           (initial_state fs_ok) blank_reply).
  - apply re_search_python_block_None. reflexivity.
  - unfold MAX_ATTEMPTS. simpl. lia.
  - intros tr prompt _. exists blank_reply. split; reflexivity.
Defined.

(** C10: when the next model call succeeds and the text it returns holds
    the substring ["LLM_API_ERROR"] anywhere, the loop is left by [break]
    with the loop variables untouched: that text is recorded as the reply,
    no file is written and no validation subprocess is run. *)
Theorem api_error_marker_aborts (w : World) (target pdf_text : string)
    (fuel : nat) (st : loop_state) (s : State) :
  attempts st < MAX_ATTEMPTS ->
  (forall tr prompt,
     llm_calls tr = llm_calls (trace s) ->
     exists text,
       generate_content w tr MODEL_NAME prompt = Response text /\
       PyStr.contains "LLM_API_ERROR" text = true) ->
  exists s' prompt text,
    agent_loop w (S fuel) target pdf_text st s = (Ret (Broke, st), s') /\
    llm_calls (trace s') = llm_calls (trace s) ++ [(prompt, text)] /\
    PyStr.contains "LLM_API_ERROR" text = true /\
    fs s' = fs s /\
    file_writes (trace s') = file_writes (trace s) /\
    subprocess_runs (trace s') = subprocess_runs (trace s).
Proof.
  intros Hlt Hmark.
  destruct (agent_loop_abort w target pdf_text fuel st s Hlt)
    as (tr1 & prompt & Hc1 & H).
  destruct (Hmark tr1 prompt Hc1) as (text & Hresp & Hin).
  destruct (H text) as (s' & Hloop & Hc & Hrest).
  - now rewrite Hresp.
  - unfold usable. now rewrite Hin.
  - exists s', prompt, text. auto.
Qed.

Lemma api_error_marker_aborts_witness :
  exists s' prompt text,
    agent_loop w_marker_in_text 4 "icici" "Date Description Balance"
      init_loop_state (initial_state fs_ok)
    = (Ret (Broke, init_loop_state), s') /\
    llm_calls (trace s') = [] ++ [(prompt, text)] /\
    PyStr.contains "LLM_API_ERROR" text = true /\
    fs s' = fs_ok /\
    file_writes (trace s') = [] /\
    subprocess_runs (trace s') = [].
Proof.
  apply (api_error_marker_aborts w_marker_in_text "icici"
           "Date Description Balance" 3 init_loop_state (initial_state fs_ok)).
  - unfold MAX_ATTEMPTS. simpl. lia.
  - intros tr prompt _. eexists. split; reflexivity.
Defined.

(** ** Success at the first attempt *)

Lemma loop_inv_init (target pdf_text : string) (tr : list event) :
  effects tr = [] -> loop_inv target pdf_text tr init_loop_state.
Proof.
  intros H. destruct (same_effects [] tr H) as (Hs & Hc & Hw & Hr).
  unfold loop_inv. rewrite Hs, Hc, Hw, Hr. cbn.
  repeat (split; [lia|]). split; [|split; [|split]].
  - intros [|k] a; [now intros [= <-] | discriminate].
  - now intros a [= <-].
  - intros k b. discriminate.
  - intros k a prompt reply _. discriminate.
Qed.

(** C3: when the fixtures are in place, the artifact can be written
    ([custom_parsers] is no regular file and the artifact path no
    directory), the first model reply is a text that passes the two checks
    and the first validation run passes, [run_agent] leaves the loop by the
    [return] of the first pass through its body, with the counter still 0.
    The effects of the run are those of one cycle and no more: one model
    call, the write of the artifact of that reply, one validation run. *)
Theorem first_pass_stops (w : World) (target : string) (f : FS)
    (pages : list (option string)) :
  fixtures_present f = true ->
  pdf_reader w f PDF_PATH = PdfPages pages ->
  artifact_writable f = true ->
  (forall tr prompt,
     llm_calls tr = [] ->
     exists reply,
       llm_text (generate_content w tr MODEL_NAME prompt) = Some reply /\
       usable reply = true) ->
  (forall tr cmd f0,
     subprocess_runs tr = [] ->
     exists p, fst (subprocess_run w tr cmd f0) = Completed p /\
               passes p = true) ->
  exists st s' prompt reply p,
    run_agent w target (initial_state f) = (Ret (Returned, st), s') /\
    attempts st = 0 /\
    passes p = true /\
    effects (trace s')
    = [Generating 0 "" ""; LlmCall prompt reply; Makedirs PARSER_DIR;
       FileWrite PARSER_PATH (preamble +:+ extract_python_code reply);
       Subprocess [sys_executable w; TEST_SCRIPT; target] (Completed p)] /\
    length (snapshots (trace s')) = 1 /\
    length (llm_requests (trace s')) = 1 /\
    length (llm_calls (trace s')) = 1 /\
    length (file_writes (trace s')) = 1 /\
    length (subprocess_runs (trace s')) = 1.
Proof.
  intros Hfix Hpdf Hwr Hllm Hval.
  pose proof (run_agent_spec w target (initial_state f)) as H.
  cbn [fs initial_state trace] in H. rewrite Hfix, Hpdf in H.
  destruct H as (s0 & Hfs0 & Htr0 & H). cbn zeta in H.
  destruct H as (s' & Hrun & _ & Htr'). cbn [effects List.filter] in Htr0.
  rewrite agent_loop_unfold in Hrun, Htr'. cbn [Nat.ltb Nat.leb attempts
    init_loop_state MAX_ATTEMPTS] in Hrun, Htr'.
  destruct (loop_body_spec w target (pdf_text_of pages) init_loop_state s0)
    as (tr1 & Htr1 & Hb).
  cbn zeta in Hb. rewrite Htr0 in Htr1, Hb. cbn [app] in Htr1, Hb.
  assert (Hc1 : llm_calls tr1 = []).
  { now rewrite <- llm_calls_effects, Htr1. }
  match type of Hb with
  | context [generate_content w tr1 MODEL_NAME ?pr] =>
      destruct (Hllm tr1 pr Hc1) as (reply & Hreply & Hu); set (prompt := pr) in *
  end.
  rewrite Hreply, Hu in Hb.
  apply save_error_artifact in Hwr. unfold save_error in Hwr.
  change (dirname PARSER_PATH) with PARSER_DIR in Hwr. rewrite Hfs0 in Hb.
  destruct (makedirs_error f PARSER_DIR); [discriminate Hwr|].
  rewrite Hwr in Hb. destruct Hb as (tr2 & Htr2 & s1 & Hbody & _ & Htr).
  assert (Hr2 : subprocess_runs tr2 = []).
  { now rewrite <- subprocess_runs_effects, Htr2. }
  destruct (Hval tr2 [sys_executable w; TEST_SCRIPT; target]
              (written (extract_python_code reply) PARSER_PATH f) Hr2)
    as (p & Hp & Hpass).
  rewrite Hp in Hbody, Htr. cbn [body_result] in Hbody. rewrite Hpass in Hbody.
  rewrite Htr2 in Htr. cbn [app attempts previous_code error_trace
    init_loop_state] in Htr.
  rewrite Hbody in Hrun, Htr'. cbn [fst snd] in Hrun, Htr'.
  rewrite Htr in Htr'.
  exists init_loop_state, s', prompt, reply, p.
  split; [exact Hrun|]. split; [reflexivity|]. split; [exact Hpass|].
  split; [exact Htr'|].
  rewrite <- snapshots_effects, <- llm_requests_effects, <- llm_calls_effects,
    <- file_writes_effects, <- subprocess_runs_effects, Htr'.
  repeat split.
Qed.

Lemma first_pass_stops_witness :
  exists st s' prompt reply p,
    run_agent w_pass "icici" (initial_state fs_ok)
    = (Ret (Returned, st), s') /\
    attempts st = 0 /\
    passes p = true /\
    effects (trace s')
    = [Generating 0 "" ""; LlmCall prompt reply; Makedirs PARSER_DIR;
       FileWrite PARSER_PATH (preamble +:+ extract_python_code reply);
       Subprocess [sys_executable w_pass; TEST_SCRIPT; "icici"]
         (Completed p)] /\
    length (snapshots (trace s')) = 1 /\
    length (llm_requests (trace s')) = 1 /\
    length (llm_calls (trace s')) = 1 /\
    length (file_writes (trace s')) = 1 /\
    length (subprocess_runs (trace s')) = 1.
Proof.
  apply (first_pass_stops w_pass "icici" fs_ok
           [Some "Date Description Balance"]).
  - reflexivity.
  - reflexivity.
  - reflexivity.
  - intros tr prompt _. exists fenced_reply. split; reflexivity.
  - intros tr cmd f0 _. exists passed_run. split; reflexivity.
Defined.

(** ** Exhausting the budget *)

(** Every pass through the loop body calls the model once. *)
Lemma loop_body_requests (w : World) (target pdf_text : string)
    (st : loop_state) (s : State) :
  length (llm_requests (trace (snd (loop_body w target pdf_text st s))))
  = S (length (llm_requests (trace s))).
Proof.
  assert (Hlen : forall tr' evs,
            effects tr' = effects (trace s) ++ evs ->
            length (llm_requests evs) = 1 ->
            length (llm_requests tr') = S (length (llm_requests (trace s)))).
  { intros tr' evs Htr Hone.
    rewrite <- (llm_requests_effects tr'), Htr, llm_requests_app,
      llm_requests_effects, length_app. lia. }
  destruct (loop_body_spec w target pdf_text st s) as (tr1 & _ & H).
  cbn zeta in H. destruct (llm_text _) as [reply|].
  2:{ destruct H as (s' & -> & _ & Htr). now apply (Hlen _ _ Htr). }
  cbn zeta in H. destruct (usable reply).
  2:{ destruct H as (s' & -> & _ & Htr). now apply (Hlen _ _ Htr). }
  destruct (makedirs_error (fs s) PARSER_DIR).
  { destruct H as (s' & -> & _ & Htr). now apply (Hlen _ _ Htr). }
  destruct (write_error _ _).
  { destruct H as (s' & -> & _ & Htr). now apply (Hlen _ _ Htr). }
  destruct H as (tr2 & Htr2 & s' & -> & _ & Htr).
  rewrite Htr2, <- List.app_assoc in Htr. now apply (Hlen _ _ Htr).
Qed.

Lemma agent_loop_exhausts (w : World) (target pdf_text : string)
    (fuel : nat) (st : loop_state) (s : State) :
  always_usable w -> always_fails w -> keeps_writable w ->
  artifact_writable (fs s) = true ->
  attempts st <= MAX_ATTEMPTS ->
  MAX_ATTEMPTS - attempts st < fuel ->
  exists stf s',
    agent_loop w fuel target pdf_text st s = (Ret (CondFalse, stf), s') /\
    attempts stf = MAX_ATTEMPTS /\
    let n := MAX_ATTEMPTS - attempts st in
    length (snapshots (trace s')) = length (snapshots (trace s)) + n /\
    length (llm_requests (trace s')) = length (llm_requests (trace s)) + n /\
    length (llm_calls (trace s')) = length (llm_calls (trace s)) + n /\
    length (file_writes (trace s')) = length (file_writes (trace s)) + n /\
    length (subprocess_runs (trace s'))
    = length (subprocess_runs (trace s)) + n.
Proof.
  intros Hllm Hval Hkeep. revert st s.
  induction fuel as [|fuel IH]; intros st s Hwr Hle Hfuel; [lia|].
  rewrite agent_loop_unfold.
  destruct (attempts st <? MAX_ATTEMPTS)%nat eqn:Hlt.
  - apply Nat.ltb_lt in Hlt.
    destruct (loop_body_history w target pdf_text st s)
      as (tr1 & cols & _ & _ & Hb).
    cbn zeta in Hb. destruct Hb as (r & s1 & Hbody & Hs & Hb).
    destruct (Hllm tr1 (generate_prompt_text target pdf_text cols
                          (attempts st =? 0)%nat (previous_code st)
                          (error_trace st))) as (reply & Hreply & Hu).
    rewrite Hreply in Hb. cbn zeta in Hb. destruct Hb as (Hc & Hb).
    rewrite Hu, (proj2 (save_error_artifact (fs s)) Hwr) in Hb.
    destruct Hb as (tr2 & _ & _ & Hr & Hfs1 & Hw & Hruns).
    cbn zeta in Hr, Hruns, Hfs1.
    pose proof (Hkeep tr2 [sys_executable w; TEST_SCRIPT; target] _
                  (artifact_writable_written (extract_python_code reply)
                     (fs s) Hwr)) as Hwr1.
    rewrite <- Hfs1 in Hwr1.
    destruct (Hval tr2 [sys_executable w; TEST_SCRIPT; target]
                (written (extract_python_code reply) PARSER_PATH (fs s)))
      as (p & Hp & Hfail).
    rewrite Hp in Hr, Hruns. cbn [body_result] in Hr. rewrite Hfail in Hr.
    subst r. pose proof (loop_body_requests w target pdf_text st s) as Hq.
    rewrite Hbody in Hq |- *. cbn [snd] in Hq.
    match goal with
    | |- context [agent_loop w fuel target pdf_text ?st1 s1] =>
        destruct (IH st1 s1) as (stf & s' & Hloop & Hmax & Hn)
    end.
    + exact Hwr1.
    + cbn [attempts]. lia.
    + cbn [attempts]. lia.
    + exists stf, s'. split; [exact Hloop|]. split; [exact Hmax|].
      cbn zeta in Hn |- *. cbn [attempts] in Hn.
      destruct Hn as (Hn1 & Hn0 & Hn2 & Hn3 & Hn4).
      rewrite Hn1, Hn0, Hn2, Hn3, Hn4, Hq, Hs, Hc, Hw, Hruns, !length_app.
      cbn [length]. repeat split; lia.
  - apply Nat.ltb_ge in Hlt. exists st, s. split; [reflexivity|].
    split; [lia|]. cbn zeta.
    replace (MAX_ATTEMPTS - attempts st) with 0 by lia.
    repeat split; lia.
Qed.

(** The refinement prompt holds the previous code and the diagnostic. *)
Lemma generate_prompt_embeds (target pdf_text : string)
    (cols : option string) (code diag : string) :
  let prompt := generate_prompt_text target pdf_text cols false code diag in
  PyStr.contains code prompt = true /\ PyStr.contains diag prompt = true.
Proof.
  cbn zeta. unfold generate_prompt_text. split.
  - apply PyStrFacts.contains_app_r, PyStrFacts.contains_app.
  - do 3 apply PyStrFacts.contains_app_r. apply PyStrFacts.contains_app.
Qed.

Lemma last_char_app_r (a b : string) (c : ascii) :
  last_char b = Some c -> last_char (a +:+ b) = Some c.
Proof.
  intros H. induction a as [|x a IH]; [exact H|].
  rewrite PyStrFacts.app_cons. cbn [last_char]. now rewrite IH.
Qed.

(** The initial prompt ends with a full stop, a refinement prompt with a
    newline: they are never the same text. *)
Lemma initial_prompt_differs (target pdf_text : string)
    (cols cols' : option string) (code diag : string) :
  generate_prompt_text target pdf_text cols true "" ""
  <> generate_prompt_text target pdf_text cols' false code diag.
Proof.
  intros Heq. apply (f_equal last_char) in Heq. revert Heq.
  unfold generate_prompt_text.
  rewrite (last_char_app_r _ _ "."%char) by reflexivity.
  rewrite (last_char_app_r _ _ "010"%char); [discriminate|].
  do 4 apply last_char_app_r. reflexivity.
Qed.

(** ** Every run *)

Lemma loop_post_same_effects target pdf_text tr tr' r :
  effects tr' = effects tr ->
  loop_post target pdf_text tr r -> loop_post target pdf_text tr' r.
Proof.
  intros H. destruct (same_effects tr tr' H) as (Hs & Hc & _ & Hr).
  unfold loop_post. now rewrite Hs, Hc, Hr.
Qed.

Lemma loop_post_empty target pdf_text tr r :
  effects tr = [] -> (forall x, r <> Ret x) ->
  loop_post target pdf_text tr r.
Proof.
  intros H Hr. destruct (same_effects [] tr H) as (Hs & Hc & _ & Hrs).
  unfold loop_post. rewrite Hs, Hc, Hrs. cbn. split; [|split].
  - split; [|split; [|split]]; intros; discriminate.
  - lia.
  - intros ex stf ->. now destruct (Hr (ex, stf)).
Qed.

(** What [run_agent] leaves behind, started on an empty trace. *)
Lemma run_agent_post (w : World) (target : string) (f : FS) :
  let rs := run_agent w target (initial_state f) in
  exists pdf_text,
    loop_post target pdf_text (trace (snd rs)) (fst rs) /\
    forall stf, fst rs <> Ret (OutOfFuel, stf).
Proof.
  cbn zeta. pose proof (run_agent_spec w target (initial_state f)) as H.
  cbn [fs trace initial_state] in H.
  destruct (fixtures_present f).
  - destruct (pdf_reader w f PDF_PATH) as [|e|pages].
    1,2: destruct H as (s' & -> & _ & Htr); exists ""; cbn [fst snd];
         split; [apply loop_post_empty; [exact Htr | discriminate]
                | discriminate].
    destruct H as (s0 & _ & Htr0 & H). cbn zeta in H.
    destruct H as (s' & Hrun & _ & Htr').
    exists (pdf_text_of pages). rewrite Hrun. cbn [fst snd]. split.
    + apply (loop_post_same_effects _ _ _ _ _ Htr').
      eapply agent_loop_inv; [apply loop_inv_init, Htr0|].
      apply surjective_pairing.
    + apply agent_loop_fuel. cbn [attempts init_loop_state]. lia.
  - destruct H as (s' & -> & _ & Htr). exists "". cbn [fst snd].
    split; [apply loop_post_empty; [exact Htr | discriminate] | discriminate].
Qed.

(** The loop variables at the three entries of a run that never passes. *)
Example stuck_run_snapshots :
  snapshots (trace (snd (run_agent w_stuck "icici" (initial_state fs_ok))))
  = [ {| attempts := 0; previous_code := ""; error_trace := "" |};
      {| attempts := 1;
         previous_code :=
           "def parse(pdf_path):" +:+ PyStr.nl +:+ "    return None";
         error_trace := "FAIL: column mismatch" |};
      {| attempts := 2;
         previous_code :=
           "def parse(pdf_path):" +:+ PyStr.nl +:+ "    return None";
         error_trace := "FAIL: column mismatch" |} ].
Proof. vm_compute. reflexivity. Qed.

(** C7: in every run of [run_agent], the counter seen at the [k]-th entry
    of the loop body is [k], so it never decreases, and it is below
    [MAX_ATTEMPTS]; the counter the loop is left with is at most
    [MAX_ATTEMPTS] and not below any counter seen before; the feedback
    context at the first entry is empty, and at every later entry it is the
    code extracted from the reply of the entry just before and the output
    of that entry's validation run. *)
Theorem counter_bounded_context_fresh (w : World) (target : string) (f : FS) :
  let rs := run_agent w target (initial_state f) in
  let tr := trace (snd rs) in
  (forall i j a b,
     i <= j -> snapshots tr !! i = Some a -> snapshots tr !! j = Some b ->
     attempts a <= attempts b) /\
  (forall a, a ∈ snapshots tr -> attempts a < MAX_ATTEMPTS) /\
  (forall ex stf,
     fst rs = Ret (ex, stf) ->
     ex <> OutOfFuel /\ attempts stf <= MAX_ATTEMPTS /\
     forall a, a ∈ snapshots tr -> attempts a <= attempts stf) /\
  (forall a,
     snapshots tr !! 0 = Some a ->
     attempts a = 0 /\ previous_code a = "" /\ error_trace a = "") /\
  (forall k b,
     snapshots tr !! (S k) = Some b ->
     exists prompt reply cmd p,
       llm_calls tr !! k = Some (prompt, reply) /\
       subprocess_runs tr !! k = Some (cmd, Completed p) /\
       previous_code b = extract_python_code reply /\
       error_trace b = stdout p +:+ stderr p).
Proof.
  cbn zeta.
  destruct (run_agent_post w target f)
    as (pdf_text & ((H1 & H2 & H3 & H4) & Hlen & Hfin) & Hfuel).
  set (rs := run_agent w target (initial_state f)) in *.
  set (tr := trace (snd rs)) in *.
  assert (Hidx : forall a, a ∈ snapshots tr ->
                   attempts a < length (snapshots tr)).
  { intros a Ha. apply list_elem_of_lookup in Ha as [k Hk].
    rewrite (H1 k a Hk). now apply lookup_lt_Some in Hk. }
  split; [|split; [|split; [|split]]].
  - intros i j a b Hij Ha Hb. rewrite (H1 i a Ha), (H1 j b Hb). exact Hij.
  - intros a Ha. specialize (Hidx a Ha). lia.
  - intros ex stf Hr. destruct (Hfin ex stf Hr) as [Hle Hn].
    split; [intros ->; now apply (Hfuel stf)|]. split; [exact Hle|].
    intros a Ha. specialize (Hidx a Ha). lia.
  - intros a Ha. split; [exact (H1 0 a Ha) | exact (H2 a Ha)].
  - intros k b Hb.
    destruct (H3 k b Hb) as (pr & re & cmd & p & Hc & Hr & _ & _ & Hpc & Het).
    now exists pr, re, cmd, p.
Qed.

(** C1, as the code has it: when the fixtures are in place, the artifact
    can be written at the start and after every validation run, every model
    reply is a text that passes the two checks and every validation run
    ends in FAIL, [run_agent] makes exactly [MAX_ATTEMPTS] = 3 model calls,
    file writes and validation runs, and leaves the loop because its
    condition is false, with the counter at [MAX_ATTEMPTS].  Each prompt after the first is the
    refinement prompt built from the code extracted from the reply just
    before it and from the output of the validation run just before it, and
    holds both texts.  The first prompt differs from every later one. *)
Theorem always_fail_exhausts (w : World) (target : string) (f : FS)
    (pages : list (option string)) :
  fixtures_present f = true ->
  pdf_reader w f PDF_PATH = PdfPages pages ->
  artifact_writable f = true ->
  keeps_writable w ->
  always_usable w ->
  always_fails w ->
  exists stf s',
    run_agent w target (initial_state f) = (Ret (CondFalse, stf), s') /\
    attempts stf = MAX_ATTEMPTS /\
    length (llm_requests (trace s')) = MAX_ATTEMPTS /\
    length (llm_calls (trace s')) = MAX_ATTEMPTS /\
    length (file_writes (trace s')) = MAX_ATTEMPTS /\
    length (subprocess_runs (trace s')) = MAX_ATTEMPTS /\
    (forall k prompt reply cmd res next next_reply,
       llm_calls (trace s') !! k = Some (prompt, reply) ->
       subprocess_runs (trace s') !! k = Some (cmd, res) ->
       llm_calls (trace s') !! S k = Some (next, next_reply) ->
       exists p cols,
         res = Completed p /\ passes p = false /\
         next = generate_prompt_text target (pdf_text_of pages) cols false
                  (extract_python_code reply) (stdout p +:+ stderr p) /\
         PyStr.contains (extract_python_code reply) next = true /\
         PyStr.contains (stdout p +:+ stderr p) next = true) /\
    (forall k first first_reply next next_reply,
       llm_calls (trace s') !! 0 = Some (first, first_reply) ->
       llm_calls (trace s') !! S k = Some (next, next_reply) ->
       first <> next).
Proof.
  intros Hfix Hpdf Hwr Hkeep Hllm Hval.
  pose proof (run_agent_spec w target (initial_state f)) as H.
  cbn [fs initial_state trace] in H. rewrite Hfix, Hpdf in H.
  destruct H as (s0 & Hfs0 & Htr0 & H). cbn zeta in H.
  destruct H as (s' & Hrun & _ & Htr'). rewrite <- Hfs0 in Hwr.
  destruct (agent_loop_exhausts w target (pdf_text_of pages) (S MAX_ATTEMPTS)
              init_loop_state s0 Hllm Hval Hkeep Hwr)
    as (stf & s1 & Hloop & Hmax & Hn);
    [cbn [attempts init_loop_state]; lia.. |].
  cbn zeta in Hn. cbn [attempts init_loop_state] in Hn.
  destruct (same_effects [] (trace s0) Htr0) as (Hs0 & Hc0 & Hw0 & Hr0).
  assert (Hq0 : llm_requests (trace s0) = []).
  { now rewrite <- llm_requests_effects, Htr0. }
  rewrite Hs0, Hq0, Hc0, Hw0, Hr0 in Hn. cbn [snapshots llm_calls file_writes
    subprocess_runs omap list_omap length] in Hn.
  destruct Hn as (Hns & Hnq & Hnc & Hnw & Hnr).
  pose proof (agent_loop_inv w target (pdf_text_of pages) _ _ _ _ _
                (loop_inv_init _ _ _ Htr0) Hloop)
    as ((H1 & H2 & H3 & H4) & _ & _).
  rewrite Hloop in Hrun, Htr'. cbn [fst snd] in Hrun, Htr'.
  destruct (same_effects (trace s1) (trace s') Htr') as (Es & Ec & Ew & Er).
  exists stf, s'. split; [exact Hrun|].
  rewrite <- (llm_requests_effects (trace s')), Htr', llm_requests_effects.
  rewrite Ec, Ew, Er.
  clear Hrun Htr' Es Ec Ew Er s'. set (tr := trace s1) in *.
  assert (Hnext : forall k next next_reply,
            llm_calls tr !! S k = Some (next, next_reply) ->
            exists b, snapshots tr !! S k = Some b /\ attempts b = S k /\
              exists cols,
                next = generate_prompt_text target (pdf_text_of pages) cols
                         false (previous_code b) (error_trace b)).
  { intros k next nr Hk.
    destruct (lookup_lt_is_Some_2 (snapshots tr) (S k)) as [b Hb].
    { apply lookup_lt_Some in Hk. lia. }
    exists b. split; [exact Hb|]. pose proof (H1 _ _ Hb) as Ha.
    split; [exact Ha|].
    destruct (H4 _ _ _ _ Hb Hk) as (cols & ->). rewrite Ha. now exists cols. }
  split; [exact Hmax|].
  split; [exact Hnq|]. split; [lia|]. split; [lia|]. split; [lia|]. split.
  - intros k prompt reply cmd res next nr Hk Hrk Hsk.
    destruct (Hnext k next nr Hsk) as (b & Hb & _ & cols & ->).
    destruct (H3 k b Hb) as (pr & re & cmd' & p & Hc & Hr & _ & Hp & -> & ->).
    rewrite Hk in Hc. injection Hc as <- <-.
    rewrite Hrk in Hr. injection Hr as <- ->.
    exists p, cols. split; [reflexivity|]. split; [exact Hp|].
    split; [reflexivity|]. apply generate_prompt_embeds.
  - intros k first fr next nr H0 Hsk.
    destruct (Hnext k next nr Hsk) as (b & _ & _ & cols & ->).
    destruct (lookup_lt_is_Some_2 (snapshots tr) 0) as [a Ha];
      [rewrite Hns; unfold MAX_ATTEMPTS; lia|].
    destruct (H4 _ _ _ _ Ha H0) as (cols0 & ->).
    rewrite (H1 _ _ Ha). destruct (H2 a Ha) as [-> ->].
    apply initial_prompt_differs.
Qed.

Lemma always_fail_exhausts_witness :
  exists stf s',
    run_agent w_stuck "icici" (initial_state fs_ok)
    = (Ret (CondFalse, stf), s') /\
    attempts stf = MAX_ATTEMPTS /\
    length (llm_requests (trace s')) = MAX_ATTEMPTS /\
    length (llm_calls (trace s')) = MAX_ATTEMPTS /\
    length (file_writes (trace s')) = MAX_ATTEMPTS /\
    length (subprocess_runs (trace s')) = MAX_ATTEMPTS /\
    (forall k prompt reply cmd res next next_reply,
       llm_calls (trace s') !! k = Some (prompt, reply) ->
       subprocess_runs (trace s') !! k = Some (cmd, res) ->
       llm_calls (trace s') !! S k = Some (next, next_reply) ->
       exists p cols,
         res = Completed p /\ passes p = false /\
         next = generate_prompt_text "icici"
                  (pdf_text_of [Some "Date Description Balance"]) cols false
                  (extract_python_code reply) (stdout p +:+ stderr p) /\
         PyStr.contains (extract_python_code reply) next = true /\
         PyStr.contains (stdout p +:+ stderr p) next = true) /\
    (forall k first first_reply next next_reply,
       llm_calls (trace s') !! 0 = Some (first, first_reply) ->
       llm_calls (trace s') !! S k = Some (next, next_reply) ->
       first <> next).
Proof.
  apply (always_fail_exhausts w_stuck "icici" fs_ok
           [Some "Date Description Balance"]).
  - reflexivity.
  - reflexivity.
  - reflexivity.
  - intros tr cmd f Hf. exact Hf.
  - intros tr prompt. exists fenced_reply. split; reflexivity.
  - intros tr cmd f. exists failed_run. split; reflexivity.
Defined.

(** C1, as stated, fails on two counts.  With a model that repeats its
    answer and a validator that repeats its output, the second and the
    third prompt of an always-FAIL run are the same text.  And with a
    validator that would always fail but a client that raises an
    [APIError], the run makes one model call and no write or validation
    run at all. *)
Lemma retry_prompts_repeat :
  (exists p,
     fst <$> llm_calls (trace (snd (run_agent w_stuck "icici"
                                      (initial_state fs_ok)))) !! 1
     = Some p /\
     fst <$> llm_calls (trace (snd (run_agent w_stuck "icici"
                                      (initial_state fs_ok)))) !! 2
     = Some p) /\
  (forall tr cmd f,
     fst (subprocess_run w_api_down tr cmd f) = Completed failed_run) /\
  passes failed_run = false /\
  length (llm_calls (trace (snd (run_agent w_api_down "icici"
                                   (initial_state fs_ok))))) = 1 /\
  file_writes (trace (snd (run_agent w_api_down "icici"
                             (initial_state fs_ok)))) = [] /\
  subprocess_runs (trace (snd (run_agent w_api_down "icici"
                                 (initial_state fs_ok)))) = [].
Proof.
  split; [eexists; split; vm_compute; reflexivity|].
  split; [reflexivity|]. repeat split; vm_compute; reflexivity.
Qed.

(** The scenario of the specification: the first attempt fails with the
    diagnostic "column mismatch", the second prompt holds that text and the
    code of the first attempt, the second attempt passes and there is no
    third one. *)
Example second_attempt_passes :
  let rs := run_agent w_second_pass "x" (initial_state fs_ok) in
  fst rs = Ret (Returned,
                {| attempts := 1;
                   previous_code :=
                     "def parse(pdf_path):" +:+ PyStr.nl +:+ "    return None";
                   error_trace := "FAIL: column mismatch" |}) /\
  length (llm_calls (trace (snd rs))) = 2 /\
  length (subprocess_runs (trace (snd rs))) = 2 /\
  (PyStr.contains "column mismatch" ∘ fst) <$> llm_calls (trace (snd rs))
  = [false; true] /\
  (PyStr.contains
     ("def parse(pdf_path):" +:+ PyStr.nl +:+ "    return None") ∘ fst)
    <$> llm_calls (trace (snd rs))
  = [false; true].
Proof. cbn zeta. repeat split; vm_compute; reflexivity. Qed.

(** ** Exit status *)

(** The loop never calls [sys.exit], and three exceptions can leave it:
    the one [subprocess.run] raised in the last validation run, the
    [TypeError] of line 202 on a reply without text, and the [OSError] of
    [save_parser]. *)
Lemma agent_loop_result (w : World) (target pdf_text : string) (fuel : nat)
    (st : loop_state) (s : State) :
  match agent_loop w fuel target pdf_text st s with
  | (Ret _, _) => True
  | (Exit _, _) => False
  | (Raise e, s') =>
      (exists cmd,
         last (subprocess_runs (trace s')) = Some (cmd, RunRaised e)) \/
      (e = none_not_iterable /\
       exists prompt, last (effects (trace s')) = Some (LlmNoText prompt)) \/
      save_error (fs s') PARSER_PATH = Some e
  end.
Proof.
  revert st s. induction fuel as [|fuel IH]; intros st s; [exact I|].
  rewrite agent_loop_unfold.
  destruct (attempts st <? MAX_ATTEMPTS)%nat; [|exact I].
  destruct (loop_body_history w target pdf_text st s)
    as (tr1 & cols & _ & _ & Hb).
  cbn zeta in Hb. destruct Hb as (r & s1 & Hbody & _ & Hb).
  rewrite Hbody. destruct (llm_text _) as [reply|].
  2:{ destruct Hb as (-> & _ & Hlast & _). right. left. eauto. }
  cbn zeta in Hb. destruct Hb as (_ & Hb). destruct (usable _).
  - destruct (save_error (fs s) PARSER_PATH) as [e|].
    { destruct Hb as (-> & Hse & _). right. right. exact Hse. }
    destruct Hb as (tr2 & _ & _ & Hr & _ & _ & Hruns).
    cbn zeta in Hr, Hruns. subst r.
    destruct (fst (subprocess_run w tr2 _ _)) as [p|e]; cbn [body_result].
    + destruct (passes p); [exact I | apply IH].
    + left. eexists. rewrite Hruns. apply last_snoc.
  - destruct Hb as (-> & _). exact I.
Qed.

(** C2, as the code has it: when the credential is set, the fixture files
    exist and the PDF sample can be read, the process runs to its end with
    exit status 0 however the loop was left (by the [return] after a PASS,
    by a [break] after an unusable reply, or with its budget exhausted),
    unless an exception leaves the loop, which ends the process with status
    1: the exception [subprocess.run] raised, the [TypeError] of line 202
    when the model answered without a text, or the [OSError] of
    [save_parser] when the artifact cannot be written.  When one of the
    three prerequisites fails, the process exits with status 1. *)
Theorem exit_status_of_main (w : World) (args_target : string) (f : FS) :
  let rs := main w args_target (initial_state f) in
  if credential_set w && fixtures_present f && pdf_readable w f then
    (exists ex stf,
       fst rs = Ret (ex, stf) /\ ex <> OutOfFuel /\
       exit_status (fst rs) = 0%Z) \/
    (exists e,
       fst rs = Raise e /\
       exit_status (fst rs) = 1%Z /\
       ((exists cmd,
           last (subprocess_runs (trace (snd rs))) = Some (cmd, RunRaised e)) \/
        (e = none_not_iterable /\
         exists prompt,
           last (effects (trace (snd rs))) = Some (LlmNoText prompt)) \/
        save_error (fs (snd rs)) PARSER_PATH = Some e))
  else
    fst rs = Exit 1 /\ exit_status (fst rs) = 1%Z.
Proof.
  cbn zeta. unfold main, credential_set, pdf_readable.
  destruct (getenv w "GEMINI_API_KEY") as [[|c key]|]; cbn [andb];
    [split; reflexivity | | split; reflexivity].
  pose proof (run_agent_spec w (PyStr.lower args_target) (initial_state f))
    as H.
  cbn [fs initial_state] in H.
  destruct (fixtures_present f); cbn [andb].
  - destruct (pdf_reader w f PDF_PATH) as [|e|pages].
    1,2: destruct H as (s' & -> & _); split; reflexivity.
    destruct H as (s0 & _ & _ & H). cbn zeta in H.
    destruct H as (s' & Hrun & Hfs' & Htr'). rewrite Hrun. cbn [fst snd].
    pose proof (agent_loop_result w (PyStr.lower args_target)
                  (pdf_text_of pages) (S MAX_ATTEMPTS) init_loop_state s0)
      as Hres.
    pose proof (agent_loop_fuel w (PyStr.lower args_target)
                  (pdf_text_of pages) (S MAX_ATTEMPTS) init_loop_state s0)
      as Hfuel.
    destruct (agent_loop w (S MAX_ATTEMPTS) _ _ _ s0)
      as [[[ex stf]|c0|e0] s1]; cbn [fst snd] in *.
    + left. exists ex, stf. split; [reflexivity|]. split; [|reflexivity].
      intros ->. apply (Hfuel ltac:(cbn [attempts init_loop_state]; lia) stf).
      reflexivity.
    + contradiction.
    + right. exists e0. split; [reflexivity|]. split; [reflexivity|].
      rewrite Htr', Hfs'.
      destruct (same_effects _ _ Htr') as (_ & _ & _ & ->). exact Hres.
  - destruct H as (s' & -> & _). split; reflexivity.
Qed.

(** C2, as stated, fails: a run that aborts on an API error, a run that
    aborts on an empty reply and a run that exhausts its budget all end
    with exit status 0, not 1. *)
Lemma failure_paths_exit_zero :
  (fst (main w_api_down "icici" (initial_state fs_ok))
   = Ret (Broke, init_loop_state) /\
   exit_status (fst (main w_api_down "icici" (initial_state fs_ok))) = 0%Z) /\
  (fst (main w_blank "icici" (initial_state fs_ok))
   = Ret (Broke, init_loop_state) /\
   exit_status (fst (main w_blank "icici" (initial_state fs_ok))) = 0%Z) /\
  (fst <$> match fst (main w_stuck "icici" (initial_state fs_ok)) with
           | Ret x => Some x
           | _ => None
           end = Some CondFalse /\
   exit_status (fst (main w_stuck "icici" (initial_state fs_ok))) = 0%Z).
Proof. repeat split; vm_compute; reflexivity. Qed.

(** The two exceptions of a run that are not the validator's: a reply
    without text, and a parser directory that is a regular file.  Both end
    the process with status 1 before any validation run. *)
Example uncaught_exceptions_exit_one :
  (fst (main w_no_text "icici" (initial_state fs_ok)) = Raise none_not_iterable
   /\ exit_status (fst (main w_no_text "icici" (initial_state fs_ok))) = 1%Z
   /\ subprocess_runs (trace (snd (main w_no_text "icici"
                                     (initial_state fs_ok)))) = []) /\
  (fst (main w_pass "icici" (initial_state fs_blocked))
   = Raise (Exn "FileExistsError" "[Errno 17] File exists: 'custom_parsers'")
   /\ exit_status (fst (main w_pass "icici" (initial_state fs_blocked))) = 1%Z
   /\ subprocess_runs (trace (snd (main w_pass "icici"
                                     (initial_state fs_blocked)))) = []).
Proof. repeat split; vm_compute; reflexivity. Qed.

(** ** Properties of the generated parser *)

Module IciciParserFacts.
Import IciciParser IciciParserSpec IciciParserSpec2.

Lemma is_digit_digit_char (n : nat) : is_digit (digit_char n) = true.
Proof.
  unfold digit_char. pose proof (Nat.mod_upper_bound n 10) as H.
  destruct (n mod 10) as [|[|[|[|[|[|[|[|[|[|k]]]]]]]]]];
    try reflexivity; lia.
Qed.

Lemma is_iso_date_strftime (y m d : nat) :
  is_iso_date (strftime_ymd y m d) = true.
Proof.
  unfold strftime_ymd, is_iso_date. now rewrite !is_digit_digit_char.
Qed.

(** A row that is kept has five cells. *)
Lemma collect_row_shape (row : list (option string)) (r : list string) :
  r ∈ collect_row row ->
  exists c0 c1 c2 c3 c4, r = [c0; c1; c2; c3; c4].
Proof.
  unfold collect_row.
  set (cleaned_row := map _ row).
  destruct (negb (existsb _ cleaned_row)); [intros H; inversion H|].
  destruct (bool_decide _); [intros H; inversion H|].
  destruct (length cleaned_row =? 5)%nat eqn:Hlen;
    [|intros H; inversion H].
  destruct (re_match_date _); [|intros H; inversion H].
  intros H. apply list_elem_of_singleton in H as ->.
  apply Nat.eqb_eq in Hlen.
  destruct cleaned_row as [|c0 [|c1 [|c2 [|c3 [|c4 [|c5 rest]]]]]];
    try discriminate Hlen.
  now exists c0, c1, c2, c3, c4.
Qed.

Section ParserFacts.

Context {number : Type}.
Context (pdfplumber_open : string -> open_result).
Context (to_numeric : string -> option number).

Lemma date_to_iso_cases (v : value (number := number)) :
  date_to_iso v = VNaN \/
  exists y m d, date_to_iso v = VStr (strftime_ymd y m d).
Proof.
  destruct v as [cell| |]; cbn; auto.
  destruct (strptime_dmy cell) as [[[d m] y]|]; auto.
  destruct (_ && _); eauto.
Qed.

#[local] Arguments date_to_iso : simpl never.
#[local] Arguments to_numeric_coerce : simpl never.
#[local] Arguments replace_empty : simpl never.

Lemma parse_opened (pdf_path : string) pages :
  pdfplumber_open pdf_path = Opened pages ->
  parse pdfplumber_open to_numeric pdf_path
  = Parsed {| columns := target_schema_columns;
              data := flat_map (result_row to_numeric)
                        (flat_map (fun tables =>
                                     flat_map (flat_map collect_row) tables)
                           pages) |}.
Proof.
  intros Hopen. unfold parse. rewrite Hopen.
  set (rows := flat_map _ pages).
  assert (Hshape : Forall (fun r => exists c0 c1 c2 c3 c4,
                              r = [c0; c1; c2; c3; c4]) rows).
  { apply Forall_forall. intros r Hr. unfold rows in Hr.
    apply list_elem_of_In, in_flat_map in Hr as (tables & _ & Hr).
    apply in_flat_map in Hr as (table & _ & Hr).
    apply in_flat_map in Hr as (row & _ & Hr).
    apply list_elem_of_In in Hr. eapply collect_row_shape, Hr. }
  clearbody rows. destruct rows as [|r0 rows0] eqn:E; [reflexivity|].
  rewrite <- E in *. clear E r0 rows0.
  unfold new_frame.
  replace (forallb _ rows) with true.
  2:{ symmetry. apply forallb_forall. intros r Hr.
      apply list_elem_of_In in Hr.
      rewrite Forall_forall in Hshape.
      destruct (Hshape r Hr) as (c0 & c1 & c2 & c3 & c4 & ->). reflexivity. }
  cbn. do 2 f_equal.
  induction Hshape as [|r rows' (c0 & c1 & c2 & c3 & c4 & ->) _ IH];
    [reflexivity|].
  cbn. unfold amount_of.
  destruct (date_to_iso_cases (VStr c0)) as [->|(y & m & d & ->)]; cbn;
    now rewrite IH.
Qed.

End ParserFacts.

Lemma amount_of_cases {number : Type} (to_numeric : string -> option number)
    (cell : string) :
  missing_or_read to_numeric cell (amount_of to_numeric cell).
Proof.
  unfold missing_or_read, amount_of. destruct cell as [|c cell]; cbn; auto.
  destruct (to_numeric (String c cell)) as [x|]; eauto.
Qed.

Lemma is_digit_not_space (c : ascii) :
  is_digit c = true -> PyStr.isspace c = false.
Proof.
  destruct c as [[] [] [] [] [] [] [] []]; try discriminate; reflexivity.
Qed.

Lemma digit_char_digit_val (c : ascii) :
  is_digit c = true -> digit_char (digit_val c) = c /\ digit_val c < 10.
Proof.
  destruct c as [[] [] [] [] [] [] [] []]; try discriminate;
    (split; [reflexivity | unfold digit_val; simpl; lia]).
Qed.

Lemma digit_char_add (q r : nat) : digit_char (10 * q + r) = digit_char r.
Proof.
  unfold digit_char. f_equal. f_equal.
  rewrite Nat.add_comm, Nat.mul_comm. apply Nat.Div0.mod_add.
Qed.

(** A cell that starts with a digit is never the first header cell, even
    after white space is collapsed and trimmed. *)
Lemma normalized_head_digit (d : ascii) (x : string) :
  is_digit d = true ->
  exists y, PyStr.strip (sub_space_runs false (String d x)) = String d y.
Proof.
  intros Hd. pose proof (is_digit_not_space d Hd) as Hs.
  cbn [sub_space_runs]. rewrite Hs. unfold PyStr.strip.
  cbn [PyStr.lstrip]. rewrite Hs. cbn [PyStr.rstrip]. rewrite Hs.
  cbn [andb]. eauto.
Qed.

Lemma re_match_date_head (cell : string) :
  re_match_date cell = true ->
  exists d x, cell = String d x /\ is_digit d = true.
Proof.
  destruct cell as [|d1 [|d2 [|h1 [|m1 [|m2 [|h2 [|y1 [|y2 [|y3 [|y4 rest]]]]]]]]]];
    try discriminate.
  cbv beta iota delta [re_match_date].
  intros H. exists d1. eexists. split; [reflexivity|].
  destruct (is_digit d1); [reflexivity | discriminate H].
Qed.

Lemma row_kept_iff_five_cells_and_date_aux (row : list (option string)) :
  collect_row row
  = if (length row =? 5)%nat
       && re_match_date (default EmptyString (clean_cells row !! 0))
    then [clean_cells row] else [].
Proof.
  unfold collect_row. fold (clean_cells row).
  replace (length (clean_cells row)) with (length row)
    by (unfold clean_cells; now rewrite length_map).
  destruct ((length row =? 5)%nat
            && re_match_date (default EmptyString (clean_cells row !! 0)))
    eqn:Hkeep.
  - apply andb_prop in Hkeep as [_ Hdate].
    destruct (clean_cells row) as [|c0 cells] eqn:Hc; [discriminate Hdate|].
    cbn [lookup list_lookup default from_option] in Hdate.
    destruct (re_match_date_head c0 Hdate) as (d & x & -> & Hd).
    cbn [existsb PyStr.is_empty negb orb].
    destruct (normalized_head_digit d x Hd) as [y Hy].
    cbn [map]. rewrite Hy.
    rewrite bool_decide_eq_false_2; [reflexivity|].
    unfold pdf_header_columns. intros [= -> _]. discriminate Hd.
  - destruct (negb (existsb _ _)); [reflexivity|].
    destruct (bool_decide _); reflexivity.
Qed.

Lemma strptime_dmy_rearrange (cell : string) (d m y : nat) :
  strptime_dmy cell = Some (d, m, y) ->
  strftime_ymd y m d = rearrange_dmy cell.
Proof.
  destruct cell as [|d1 [|d2 [|h1 [|m1 [|m2 [|h2 [|y1 [|y2 [|y3 [|y4 rest]]]]]]]]]];
    try discriminate.
  destruct rest; [|discriminate].
  cbv beta iota delta [strptime_dmy rearrange_dmy].
  destruct (is_digit d1) eqn:Hd1; [|discriminate].
  destruct (is_digit d2) eqn:Hd2; [|discriminate].
  destruct (is_hyphen h1) eqn:Hh1; [|discriminate].
  destruct (is_digit m1) eqn:Hm1; [|discriminate].
  destruct (is_digit m2) eqn:Hm2; [|discriminate].
  destruct (is_hyphen h2) eqn:Hh2; [|discriminate].
  destruct (is_digit y1) eqn:Hy1; [|discriminate].
  destruct (is_digit y2) eqn:Hy2; [|discriminate].
  destruct (is_digit y3) eqn:Hy3; [|discriminate].
  destruct (is_digit y4) eqn:Hy4; [|discriminate].
  cbv beta iota delta [andb]. intros H.
  assert (Hd : d = 10 * digit_val d1 + digit_val d2) by congruence.
  assert (Hm : m = 10 * digit_val m1 + digit_val m2) by congruence.
  assert (Hy : y = 1000 * digit_val y1 + 100 * digit_val y2
                   + 10 * digit_val y3 + digit_val y4) by congruence.
  clear H. subst d m y.
  destruct (digit_char_digit_val d1 Hd1) as [Ed1 Ld1].
  destruct (digit_char_digit_val d2 Hd2) as [Ed2 Ld2].
  destruct (digit_char_digit_val m1 Hm1) as [Em1 Lm1].
  destruct (digit_char_digit_val m2 Hm2) as [Em2 Lm2].
  destruct (digit_char_digit_val y1 Hy1) as [Ey1 Ly1].
  destruct (digit_char_digit_val y2 Hy2) as [Ey2 Ly2].
  destruct (digit_char_digit_val y3 Hy3) as [Ey3 Ly3].
  destruct (digit_char_digit_val y4 Hy4) as [Ey4 Ly4].
  set (a := digit_val y1) in *. set (b := digit_val y2) in *.
  set (c := digit_val y3) in *. set (e := digit_val y4) in *.
  set (p := digit_val d1) in *. set (q := digit_val d2) in *.
  set (u := digit_val m1) in *. set (v := digit_val m2) in *.
  unfold strftime_ymd.
  replace ((1000 * a + 100 * b + 10 * c + e) / 1000) with a
    by (apply (Nat.div_unique _ 1000 a (100 * b + 10 * c + e)); lia).
  replace ((1000 * a + 100 * b + 10 * c + e) / 100) with (10 * a + b)
    by (apply (Nat.div_unique _ 100 (10 * a + b) (10 * c + e)); lia).
  replace ((1000 * a + 100 * b + 10 * c + e) / 10)
    with (10 * (10 * a + b) + c)
    by (apply (Nat.div_unique _ 10 (10 * (10 * a + b) + c) e); lia).
  replace (1000 * a + 100 * b + 10 * c + e)
    with (10 * (10 * (10 * a + b) + c) + e) by lia.
  replace ((10 * u + v) / 10) with u
    by (apply (Nat.div_unique _ 10 u v); lia).
  replace ((10 * p + q) / 10) with p
    by (apply (Nat.div_unique _ 10 p q); lia).
  rewrite !digit_char_add, Ed1, Ed2, Em1, Em2, Ey1, Ey2, Ey3, Ey4.
  apply Ascii.eqb_eq in Hh1, Hh2. now subst h1 h2.
Qed.

Lemma date_to_iso_rearrange {number : Type} (cell iso : string) :
  date_to_iso (number := number) (VStr cell) = VStr iso ->
  iso = rearrange_dmy cell.
Proof.
  unfold date_to_iso.
  destruct (strptime_dmy cell) as [[[d m] y]|] eqn:E; [|discriminate].
  destruct (_ && _); [|discriminate].
  intros [= <-]. now apply strptime_dmy_rearrange.
Qed.

Lemma is_iso_date_rearrange (cell : string) :
  re_match_date cell = true -> is_iso_date (rearrange_dmy cell) = true.
Proof.
  destruct cell as [|d1 [|d2 [|h1 [|m1 [|m2 [|h2 [|y1 [|y2 [|y3 [|y4 rest]]]]]]]]]];
    try discriminate.
  cbv beta iota delta [re_match_date rearrange_dmy is_iso_date].
  destruct (is_digit d1); [|discriminate].
  destruct (is_digit d2); [|discriminate].
  destruct (is_hyphen h1); [|discriminate].
  destruct (is_digit m1); [|discriminate].
  destruct (is_digit m2); [|discriminate].
  destruct (is_hyphen h2); [|discriminate].
  destruct (is_digit y1); [|discriminate].
  destruct (is_digit y2); [|discriminate].
  destruct (is_digit y3); [|discriminate].
  destruct (is_digit y4); [|discriminate].
  reflexivity.
Qed.

(** Where a row of the result comes from. *)
Lemma result_row_origin {number : Type} (to_numeric : string -> option number)
    (pages : list (list (list (list (option string)))))
    (out : list (value (number := number))) :
  out ∈ flat_map (result_row to_numeric)
          (flat_map (fun tables => flat_map (flat_map collect_row) tables)
             pages) ->
  exists tables table row c0 c1 c2 c3 c4,
    tables ∈ pages /\ table ∈ tables /\ row ∈ table /\
    clean_cells row = [c0; c1; c2; c3; c4] /\
    re_match_date c0 = true /\
    out = [VStr (rearrange_dmy c0); VStr c1; amount_of to_numeric c2;
           amount_of to_numeric c3; amount_of to_numeric c4].
Proof.
  intros Hout.
  apply list_elem_of_In, in_flat_map in Hout as (r & Hr & Hout).
  apply in_flat_map in Hr as (tables & Htables & Hr).
  apply in_flat_map in Hr as (table & Htable & Hr).
  apply in_flat_map in Hr as (row & Hrow & Hr).
  rewrite row_kept_iff_five_cells_and_date_aux in Hr.
  destruct (_ && _) eqn:Hkeep; [|contradiction].
  destruct Hr as [<-|[]]. apply andb_prop in Hkeep as [_ Hdate].
  destruct (clean_cells row) as [|c0 [|c1 [|c2 [|c3 [|c4 [|c5 rest]]]]]]
    eqn:Hc; try contradiction.
  cbn [lookup list_lookup default from_option] in Hdate.
  cbn [result_row] in Hout.
  destruct (date_to_iso (VStr c0)) as [iso| |] eqn:Hiso; try contradiction.
  destruct Hout as [<-|[]]. apply date_to_iso_rearrange in Hiso as ->.
  exists tables, table, row, c0, c1, c2, c3, c4.
  do 3 (split; [now apply list_elem_of_In|]).
  split; [exact Hc|]. split; [exact Hdate | reflexivity].
Qed.

(** C9, as the code has it: for a path that pdfplumber cannot open,
    [parse] raises the exception of pdfplumber; for every path that it
    opens, [parse] returns a frame whose columns are exactly Date,
    Description, Withdrawal, Deposit, Balance, and every row of the frame
    comes from a row of a table of the PDF with five cells: its Date is the
    first cell rearranged to the form YYYY-MM-DD, its Description is the
    second cell, and its Withdrawal and its Deposit are each either missing
    or the number read from the Debit Amt cell (the third) and from the
    Credit Amt cell (the fourth) of that row, whatever its sign. *)
Theorem parse_schema {number : Type} (pdfplumber_open : string -> open_result)
    (to_numeric : string -> option number) (pdf_path : string) :
  match pdfplumber_open pdf_path with
  | OpenRaised e => parse pdfplumber_open to_numeric pdf_path = ParseRaised e
  | Opened pages =>
      exists df,
        parse pdfplumber_open to_numeric pdf_path = Parsed df /\
        columns df = target_schema_columns /\
        forall out,
          out ∈ data df ->
          exists tables table row date description debit credit balance,
            tables ∈ pages /\ table ∈ tables /\ row ∈ table /\
            clean_cells row = [date; description; debit; credit; balance] /\
            out = [VStr (rearrange_dmy date); VStr description;
                   amount_of to_numeric debit; amount_of to_numeric credit;
                   amount_of to_numeric balance] /\
            is_iso_date (rearrange_dmy date) = true /\
            missing_or_read to_numeric debit (amount_of to_numeric debit) /\
            missing_or_read to_numeric credit (amount_of to_numeric credit)
  end.
Proof.
  destruct (pdfplumber_open pdf_path) as [pages|e] eqn:Hopen.
  2:{ unfold parse. now rewrite Hopen. }
  rewrite (parse_opened _ _ _ _ Hopen). eexists.
  split; [reflexivity|]. split; [reflexivity|]. cbn [data].
  intros out Hout.
  destruct (result_row_origin to_numeric pages out Hout)
    as (tables & table & row & c0 & c1 & c2 & c3 & c4
        & Ht & Htb & Hrow & Hc & Hdate & ->).
  exists tables, table, row, c0, c1, c2, c3, c4.
  do 4 (split; [assumption|]). split; [reflexivity|].
  split; [now apply is_iso_date_rearrange|]. split; apply amount_of_cases.
Qed.

Lemma parse_schema_witness :
  (exists df,
     parse open_sample read_plain_decimal PDF_PATH = Parsed df /\
     columns df = target_schema_columns /\
     forall out,
       out ∈ data df ->
       exists tables table row date description debit credit balance,
         tables ∈ statement_tables /\ table ∈ tables /\ row ∈ table /\
         clean_cells row = [date; description; debit; credit; balance] /\
         out = [VStr (rearrange_dmy date); VStr description;
                amount_of read_plain_decimal debit;
                amount_of read_plain_decimal credit;
                amount_of read_plain_decimal balance] /\
         is_iso_date (rearrange_dmy date) = true /\
         missing_or_read read_plain_decimal debit
           (amount_of read_plain_decimal debit) /\
         missing_or_read read_plain_decimal credit
           (amount_of read_plain_decimal credit)) /\
  parse open_sample read_plain_decimal "missing.pdf"
  = ParseRaised
      (Exn "FileNotFoundError" "[Errno 2] No such file or directory").
Proof.
  split.
  - exact (parse_schema open_sample read_plain_decimal PDF_PATH).
  - exact (parse_schema open_sample read_plain_decimal "missing.pdf").
Defined.

(** C9, as stated, fails: a debit cell of 0.00 gives a Withdrawal of zero
    and a credit cell of -250.00 gives a negative Deposit, neither missing
    nor positive; and a path that cannot be opened gives no table at all. *)
Lemma parse_keeps_zero_and_negative :
  parse open_sample read_plain_decimal PDF_PATH
  = Parsed
      {| columns := ["Date"; "Description"; "Withdrawal"; "Deposit";
                     "Balance"];
         data := [[VStr "2024-08-01"; VStr "ATM WDL"; VNum (Qmake 0 100);
                   VNaN; VNum (Qmake 10050 100)];
                  [VStr "2024-08-02"; VStr "REVERSAL"; VNaN;
                   VNum (Qmake (-25000) 100); VNum (Qmake 35050 100)]] |} /\
  Qle_bool (Qmake 0 100) 0 = true /\
  Qle_bool (Qmake (-25000) 100) 0 = true /\
  parse open_sample read_plain_decimal "missing.pdf"
  = ParseRaised
      (Exn "FileNotFoundError" "[Errno 2] No such file or directory").
Proof. repeat split; vm_compute; reflexivity. Qed.

End IciciParserFacts.

(** * Further properties of the agent *)

(** ** The shape of a run *)

Section ShapeFacts.

Context (w : World) (target pdf_text : string).

Lemma agent_loop_shape (fuel : nat) (st : loop_state) (s : State) :
  exists evs,
    effects (trace (snd (agent_loop w fuel target pdf_text st s)))
    = effects (trace s) ++ evs /\
    run_shape w target (fs s) st
      (fst (agent_loop w fuel target pdf_text st s)) evs
      (fs (snd (agent_loop w fuel target pdf_text st s))).
Proof.
  revert st s. induction fuel as [|fuel IH]; intros st s.
  { exists []. split; [now rewrite List.app_nil_r | apply shape_out_of_fuel]. }
  rewrite agent_loop_unfold.
  destruct (attempts st <? MAX_ATTEMPTS)%nat eqn:Hlt.
  2:{ apply Nat.ltb_ge in Hlt. exists []. cbn [fst snd].
      split; [now rewrite List.app_nil_r | now apply shape_exhausted]. }
  apply Nat.ltb_lt in Hlt.
  destruct (loop_body_spec w target pdf_text st s) as (tr1 & _ & H).
  cbn zeta in H.
  set (prompt := generate_prompt_text _ _ _ _ _ _) in H.
  destruct (llm_text _) as [reply|].
  2:{ destruct H as (s1 & Hbody & Hfs & Htr). rewrite Hbody.
      eexists. cbn [fst snd]. split; [exact Htr|]. rewrite Hfs.
      now apply shape_no_text. }
  cbn zeta in H.
  destruct (usable reply) eqn:Hu.
  - destruct (makedirs_error (fs s) PARSER_DIR) as [e|] eqn:Hmk.
    { destruct H as (s1 & Hbody & Hfs & Htr). rewrite Hbody.
      eexists. cbn [fst snd]. split; [exact Htr|]. rewrite Hfs.
      now apply shape_makedirs_raise. }
    destruct (write_error (made_dirs (fs s) PARSER_DIR) PARSER_PATH)
      as [e|] eqn:Hwr.
    { destruct H as (s1 & Hbody & Hfs & Htr). rewrite Hbody.
      exists (aborted_block st prompt reply ++ [Makedirs PARSER_DIR]).
      cbn [fst snd]. split; [exact Htr|]. rewrite Hfs.
      now apply shape_write_raise. }
    assert (Hse : save_error (fs s) PARSER_PATH = None).
    { unfold save_error. change (dirname PARSER_PATH) with PARSER_DIR.
      now rewrite Hmk. }
    destruct H as (tr2 & Htr2 & s1 & Hbody & Hfs & Htr).
    rewrite Htr2, <- List.app_assoc in Htr. cbn [app] in Htr.
    rewrite Hbody. fold (validation_cmd w target) in *.
    destruct (subprocess_run w tr2 (validation_cmd w target) _)
      as [res f1] eqn:Hrun.
    cbn [fst snd] in *.
    destruct res as [p|e]; cbn [body_result].
    + destruct (passes p) eqn:Hp.
      * eexists. cbn [fst snd]. split; [exact Htr|]. rewrite Hfs.
        eapply shape_pass; eassumption.
      * destruct (IH (next_state st reply p) s1) as (evs & Hevs & Hshape).
        fold (next_state st reply p).
        exists (tested_block w target st prompt reply (Completed p) ++ evs).
        split.
        { rewrite Hevs, Htr, <- List.app_assoc. reflexivity. }
        rewrite Hfs in Hshape. eapply shape_retry; eassumption.
    + eexists. cbn [fst snd]. split; [exact Htr|]. rewrite Hfs.
      eapply shape_raise; eassumption.
  - destruct H as (s1 & Hbody & Hfs & Htr). rewrite Hbody.
    eexists. cbn [fst snd]. split; [exact Htr|]. rewrite Hfs.
    now apply shape_abort.
Qed.

End ShapeFacts.

(** Either a prerequisite fails and [main] has no effect but console lines,
    or the effects of [main] are those of the loop. *)
Lemma main_shape (w : World) (args_target : string) (f : FS) :
  let rs := main w args_target (initial_state f) in
  if prerequisites w f then
    run_shape w (PyStr.lower args_target) f init_loop_state (fst rs)
      (effects (trace (snd rs))) (fs (snd rs))
  else
    fst rs = Exit 1 /\ effects (trace (snd rs)) = [] /\ fs (snd rs) = f.
Proof.
  cbn zeta. unfold prerequisites, main, credential_set, pdf_readable.
  destruct (getenv w "GEMINI_API_KEY") as [[|c key]|]; cbn [andb];
    [repeat split | | repeat split].
  pose proof (run_agent_spec w (PyStr.lower args_target) (initial_state f))
    as H.
  cbn [fs initial_state trace] in H.
  destruct (fixtures_present f); cbn [andb].
  - destruct (pdf_reader w f PDF_PATH) as [|e|pages].
    1,2: destruct H as (s' & Hrun & Hfs & Htr); rewrite Hrun; cbn [fst snd];
         rewrite Hfs, Htr; repeat split.
    destruct H as (s0 & Hfs0 & Htr0 & H). cbn zeta in H.
    destruct H as (s' & Hrun & Hfs & Htr). rewrite Hrun. cbn [fst snd].
    destruct (agent_loop_shape w (PyStr.lower args_target)
                (pdf_text_of pages) (S MAX_ATTEMPTS) init_loop_state s0)
      as (evs & Hevs & Hshape).
    rewrite Htr, Hevs, Htr0, Hfs. rewrite Hfs0 in Hshape. exact Hshape.
  - destruct H as (s' & Hrun & Hfs & Htr). rewrite Hrun. cbn [fst snd].
    rewrite Hfs, Htr. repeat split.
Qed.

Lemma run_shape_counts (w : World) (target : string) f st r evs f' :
  run_shape w target f st r evs f' ->
  attempts st <= MAX_ATTEMPTS ->
  length (llm_requests evs) + attempts st <= MAX_ATTEMPTS /\
  length (llm_calls evs) <= length (llm_requests evs) /\
  length (file_writes evs) = length (subprocess_runs evs) /\
  length (subprocess_runs evs) <= length (llm_calls evs) /\
  length (llm_requests evs) <= length (subprocess_runs evs) + 1.
Proof.
  induction 1 as [f st Hge|f st|f st prompt reply Hlt Hu
                 |f st prompt Hlt
                 |f st prompt reply e Hlt Hu Hmk
                 |f st prompt reply e Hlt Hu Hmk Hwr
                 |f st prompt reply tr p f' Hlt Hu Hse Hrun Hp
                 |f st prompt reply tr e f' Hlt Hu Hse Hrun
                 |f st prompt reply tr p f' r evs f'' Hlt Hu Hse Hrun Hp Hsh IH];
    intros Hle.
  1-8: cbn [llm_requests llm_calls file_writes subprocess_runs aborted_block
            no_text_block tested_block omap list_omap length app]; lia.
  rewrite llm_requests_app, llm_calls_app, file_writes_app,
    subprocess_runs_app, !length_app.
  cbn [llm_requests llm_calls file_writes subprocess_runs tested_block omap
       list_omap length].
  cbn [next_state attempts] in IH. lia.
Qed.

(** X1: whatever the collaborators do, one execution of the program makes
    at most [MAX_ATTEMPTS] model calls, answered with a text or not; it
    writes the artifact exactly as often as it runs the validator, and that
    is as often as it calls the model, or once less. *)
Theorem run_cost_bounded (w : World) (args_target : string) (f : FS) :
  let tr := trace (snd (main w args_target (initial_state f))) in
  length (llm_requests tr) <= MAX_ATTEMPTS /\
  length (llm_calls tr) <= length (llm_requests tr) /\
  length (file_writes tr) = length (subprocess_runs tr) /\
  length (subprocess_runs tr) <= length (llm_calls tr) /\
  length (llm_requests tr) <= length (subprocess_runs tr) + 1.
Proof.
  cbn zeta. pose proof (main_shape w args_target f) as H. cbn zeta in H.
  rewrite <- llm_requests_effects, <- llm_calls_effects,
    <- file_writes_effects, <- subprocess_runs_effects.
  destruct (prerequisites w f).
  - apply run_shape_counts in H; [|cbn [attempts init_loop_state]; lia].
    cbn [attempts init_loop_state] in H. lia.
  - destruct H as (_ & -> & _). cbn. lia.
Qed.

Lemma run_shape_writes (w : World) (target : string) f st r evs f' :
  run_shape w target f st r evs f' ->
  file_writes evs
  = List.map artifact_of
      (List.filter (fun call => usable (snd call)) (llm_calls evs)) \/
  exists e prompt reply,
    r = Raise e /\ save_error f' PARSER_PATH = Some e /\
    last (llm_calls evs) = Some (prompt, reply) /\ usable reply = true /\
    file_writes evs ++ [artifact_of (prompt, reply)]
    = List.map artifact_of
        (List.filter (fun call => usable (snd call)) (llm_calls evs)).
Proof.
  induction 1 as [f st Hge|f st|f st prompt reply Hlt Hu
                 |f st prompt Hlt
                 |f st prompt reply e Hlt Hu Hmk
                 |f st prompt reply e Hlt Hu Hmk Hwr
                 |f st prompt reply tr p f' Hlt Hu Hse Hrun Hp
                 |f st prompt reply tr e f' Hlt Hu Hse Hrun
                 |f st prompt reply tr p f' r evs f'' Hlt Hu Hse Hrun Hp Hsh IH];
    try rewrite llm_calls_app, file_writes_app, List.filter_app, List.map_app;
    cbn [llm_calls file_writes aborted_block no_text_block tested_block omap
         list_omap List.filter List.map snd app];
    rewrite ?Hu; try (left; reflexivity).
  - right. exists e, prompt, reply. split; [reflexivity|].
    split; [|repeat split; assumption].
    unfold save_error. change (dirname PARSER_PATH) with PARSER_DIR.
    now rewrite Hmk.
  - right. exists e, prompt, reply. split; [reflexivity|].
    split; [|repeat split; assumption].
    now rewrite save_error_made_dirs.
  - destruct IH as [IH|(e & pr & re & -> & Hse' & Hlast & Hu' & IH)].
    + left. cbn [List.map app]. now rewrite <- IH.
    + right. exists e, pr, re. split; [reflexivity|]. split; [exact Hse'|].
      split; [now rewrite last_cons, Hlast|]. split; [exact Hu'|].
      cbn [List.map app]. now rewrite <- IH.
Qed.

(** X2: the files a run writes are the artifacts of the model replies that
    passed the two checks, in order: each one at
    [custom_parsers/icici_parser.py], whatever the target, holding the
    preamble followed by the code extracted from that reply.  The one
    exception is a run that [save_parser] ends with an [OSError]: the last
    usable reply of such a run has no written artifact. *)
Theorem writes_are_usable_replies (w : World) (args_target : string)
    (f : FS) :
  let rs := main w args_target (initial_state f) in
  let tr := trace (snd rs) in
  let usable_calls :=
    List.filter (fun call => usable (snd call)) (llm_calls tr) in
  file_writes tr = List.map artifact_of usable_calls \/
  exists e prompt reply,
    fst rs = Raise e /\ save_error (fs (snd rs)) PARSER_PATH = Some e /\
    last (llm_calls tr) = Some (prompt, reply) /\ usable reply = true /\
    file_writes tr ++ [artifact_of (prompt, reply)]
    = List.map artifact_of usable_calls.
Proof.
  cbn zeta. pose proof (main_shape w args_target f) as H. cbn zeta in H.
  rewrite <- llm_calls_effects, <- file_writes_effects.
  destruct (prerequisites w f).
  - eapply run_shape_writes, H.
  - destruct H as (_ & -> & _). left. reflexivity.
Qed.







Lemma run_shape_verdicts (w : World) (target : string) f st r evs f' :
  run_shape w target f st r evs f' ->
  (forall k cmd res,
     subprocess_runs evs !! k = Some (cmd, res) ->
     S k < length (subprocess_runs evs) -> failed res) /\
  ((exists stf, r = Ret (Returned, stf)) <->
   (exists cmd p, last (subprocess_runs evs) = Some (cmd, Completed p) /\
                  passes p = true)).
Proof.
  induction 1 as [f st Hge|f st|f st prompt reply Hlt Hu
                 |f st prompt Hlt
                 |f st prompt reply e Hlt Hu Hmk
                 |f st prompt reply e Hlt Hu Hmk Hwr
                 |f st prompt reply tr p f' Hlt Hu Hse Hrun Hp
                 |f st prompt reply tr e f' Hlt Hu Hse Hrun
                 |f st prompt reply tr p f' r evs f'' Hlt Hu Hse Hrun Hp Hsh IH];
    try rewrite subprocess_runs_app;
    cbn [subprocess_runs aborted_block no_text_block tested_block omap
         list_omap length app].
  1-6: split; [intros k ? ? Hk; discriminate Hk|];
       split; [intros [? [=]] | intros (? & ? & [=] & _)].
  - split; [intros k ? ? _ Hk; cbn in Hk; lia|].
    split; [intros _; now exists (validation_cmd w target), p | eauto].
  - split; [intros k ? ? _ Hk; cbn in Hk; lia|].
    split; [intros [? [=]] | intros (? & ? & [=] & _)].
  - destruct IH as [IHall IHlast]. split.
    + intros [|k] cmd res Hk Hlen.
      * injection Hk as <- <-. now exists p.
      * apply (IHall k cmd res Hk). cbn [length] in Hlen. lia.
    + rewrite last_cons, IHlast. split.
      * intros (cmd & q & Hl & Hq). rewrite Hl. eauto.
      * destruct (last (subprocess_runs evs)) as [[cmd' res']|].
        -- intros (cmd & q & [= -> ->] & Hq). eauto.
        -- intros (cmd & q & [= <- <-] & Hq). congruence.
Qed.

(** A loop that makes no validation run stops at once or after one call of
    the model. *)
Lemma run_shape_no_run (w : World) (target : string) f st r evs f' :
  run_shape w target f st r evs f' ->
  subprocess_runs evs = [] ->
  (MAX_ATTEMPTS <= attempts st /\ llm_requests evs = []) \/
  (exists stf, r = Ret (OutOfFuel, stf)) \/
  length (llm_requests evs) = 1.
Proof.
  destruct 1; intros Hnil; auto; try (right; left; eauto; fail);
    try (right; right; reflexivity);
    try rewrite subprocess_runs_app in Hnil; discriminate Hnil.
Qed.

(** After a validation run that fails, the loop goes on if budget is left. *)
Lemma run_shape_progress (w : World) (target : string) f st r evs f' :
  run_shape w target f st r evs f' ->
  attempts st <= MAX_ATTEMPTS ->
  forall cmd res,
    last (subprocess_runs evs) = Some (cmd, res) -> failed res ->
    length (subprocess_runs evs) + attempts st = MAX_ATTEMPTS \/
    (exists stf, r = Ret (OutOfFuel, stf)) \/
    length (llm_requests evs) = S (length (subprocess_runs evs)).
Proof.
  induction 1 as [f st Hge|f st|f st prompt reply Hlt Hu
                 |f st prompt Hlt
                 |f st prompt reply e Hlt Hu Hmk
                 |f st prompt reply e Hlt Hu Hmk Hwr
                 |f st prompt reply tr p f' Hlt Hu Hse Hrun Hp
                 |f st prompt reply tr e f' Hlt Hu Hse Hrun
                 |f st prompt reply tr p f' r evs f'' Hlt Hu Hse Hrun Hp Hsh IH];
    intros Hle cmd res Hlast Hfail;
    try rewrite subprocess_runs_app in *; try rewrite llm_requests_app;
    cbn [subprocess_runs llm_requests aborted_block no_text_block
         tested_block omap list_omap length app last] in *;
    try discriminate Hlast.
  - injection Hlast as <- <-. destruct Hfail as (q & [= <-] & Hq). congruence.
  - injection Hlast as <- <-. destruct Hfail as (q & [=] & _).
  - cbn [next_state attempts] in IH.
    destruct (subprocess_runs evs) as [|run runs] eqn:Hruns.
    + destruct (run_shape_no_run _ _ _ _ _ _ _ Hsh Hruns)
        as [[Hge Hreq]|[Hout|Hreq]].
      * left. cbn [next_state attempts length] in *. lia.
      * right. now left.
      * right. right. cbn [length]. now rewrite Hreq.
    + rewrite last_cons in Hlast.
      destruct (last (run :: runs)) as [[cmd' res']|] eqn:Hl.
      2:{ apply last_None in Hl. discriminate Hl. }
      injection Hlast as -> ->.
      destruct (IH ltac:(lia) cmd res eq_refl Hfail) as [H|[H|H]].
      * left. cbn [length] in *. lia.
      * right. now left.
      * right. right. cbn [length] in *. lia.
Qed.

Lemma main_not_out_of_fuel (w : World) (args_target : string) (f : FS) stf :
  fst (main w args_target (initial_state f)) <> Ret (OutOfFuel, stf).
Proof.
  unfold main.
  destruct (getenv w "GEMINI_API_KEY") as [[|c key]|]; try discriminate.
  destruct (run_agent_post w (PyStr.lower args_target) f) as (? & _ & H).
  apply H.
Qed.

(** X4: every validation run before the last one completed with a verdict
    of FAIL; a run is left by the [return] of the success branch exactly
    when its last validation run completed with exit status 0 and the
    success marker; and when the last validation run ended in FAIL, either
    it was run number [MAX_ATTEMPTS] or the model was called once more
    after it.  So a run never goes on after a PASS, and never stops on a
    FAIL while budget is left. *)
Theorem success_iff_last_run_passes (w : World) (args_target : string)
    (f : FS) :
  let rs := main w args_target (initial_state f) in
  let runs := subprocess_runs (trace (snd rs)) in
  (forall k cmd res,
     runs !! k = Some (cmd, res) -> S k < length runs -> failed res) /\
  ((exists stf, fst rs = Ret (Returned, stf)) <->
   (exists cmd p, last runs = Some (cmd, Completed p) /\ passes p = true)) /\
  (forall cmd res,
     last runs = Some (cmd, res) -> failed res ->
     length runs = MAX_ATTEMPTS \/
     length (llm_requests (trace (snd rs))) = S (length runs)).
Proof.
  cbn zeta. pose proof (main_shape w args_target f) as H. cbn zeta in H.
  pose proof (main_not_out_of_fuel w args_target f) as Hfuel.
  rewrite <- subprocess_runs_effects, <- llm_requests_effects.
  destruct (prerequisites w f).
  - destruct (run_shape_verdicts _ _ _ _ _ _ _ H) as [H1 H2].
    split; [exact H1|]. split; [exact H2|].
    intros cmd res Hlast Hfail.
    destruct (run_shape_progress _ _ _ _ _ _ _ H
                ltac:(cbn [attempts init_loop_state]; lia) cmd res Hlast Hfail)
      as [Hn|[[stf Hout]|Hn]].
    + left. cbn [attempts init_loop_state] in Hn. lia.
    + now destruct (Hfuel stf).
    + now right.
  - destruct H as (-> & -> & _). cbn.
    split; [intros k ? ? Hk; discriminate Hk|].
    split; [split; [intros [? [=]] | intros (? & ? & [=] & _)]|].
    intros ? ? [=].
Qed.

(** The first validation run fails and the model then answers nothing
    usable: the run stops after one validation run and two model calls. *)
Example stops_after_fail_on_abort :
  let tr := trace (snd (main w_then_blank "icici" (initial_state fs_ok))) in
  length (subprocess_runs tr) = 1 /\ length (llm_requests tr) = 2.
Proof. cbn zeta. split; vm_compute; reflexivity. Qed.

(** X5: when the credential is missing or empty, a fixture file does not
    exist, or the PDF sample cannot be read, the program exits with status
    1 before the loop: it calls no model, writes no file, starts no
    subprocess and leaves the file system as it was. *)
Theorem missing_prerequisite_has_no_effect (w : World)
    (args_target : string) (f : FS) :
  prerequisites w f = false ->
  let rs := main w args_target (initial_state f) in
  fst rs = Exit 1 /\
  effects (trace (snd rs)) = [] /\
  fs (snd rs) = f.
Proof.
  intros Hpre. pose proof (main_shape w args_target f) as H.
  cbn zeta in H |- *. now rewrite Hpre in H.
Qed.

Lemma missing_prerequisite_has_no_effect_witness :
  fst (main w_no_key "icici" (initial_state fs_ok)) = Exit 1 /\
  effects (trace (snd (main w_no_key "icici" (initial_state fs_ok)))) = [] /\
  fs (snd (main w_no_key "icici" (initial_state fs_ok))) = fs_ok.
Proof.
  apply (missing_prerequisite_has_no_effect w_no_key "icici" fs_ok).
  reflexivity.
Defined.

Lemma contains_marker_prefix (rest : string) :
  PyStr.contains "LLM_API_ERROR" ("LLM_API_ERROR" +:+ rest) = true.
Proof. apply (PyStrFacts.contains_app "LLM_API_ERROR" "" rest). Qed.

(** X6: when the next call of the client raises, be it an [APIError] or
    any other exception, [get_llm_response] turns it into a reply that
    starts with ["LLM_API_ERROR: "], and the loop is left by [break] with
    its variables untouched: nothing is written and no validation
    subprocess is run, whatever budget is left. *)
Theorem client_exception_aborts (w : World) (target pdf_text : string)
    (fuel : nat) (st : loop_state) (s : State) :
  attempts st < MAX_ATTEMPTS ->
  (forall tr prompt,
     llm_calls tr = llm_calls (trace s) ->
     exists e,
       generate_content w tr MODEL_NAME prompt = APIError e \/
       generate_content w tr MODEL_NAME prompt = ClientFailure e) ->
  exists s' prompt detail,
    agent_loop w (S fuel) target pdf_text st s = (Ret (Broke, st), s') /\
    llm_calls (trace s')
    = llm_calls (trace s) ++ [(prompt, "LLM_API_ERROR: " +:+ detail)] /\
    fs s' = fs s /\
    file_writes (trace s') = file_writes (trace s) /\
    subprocess_runs (trace s') = subprocess_runs (trace s).
Proof.
  intros Hlt Hexn.
  destruct (agent_loop_abort w target pdf_text fuel st s Hlt)
    as (tr1 & prompt & Hc1 & H).
  destruct (Hexn tr1 prompt Hc1) as (e & [He|He]).
  - destruct (H ("LLM_API_ERROR: " +:+ e)) as (s' & Hloop & Hc & Hrest).
    { now rewrite He. }
    { assert (Hm : PyStr.contains "LLM_API_ERROR" ("LLM_API_ERROR: " +:+ e)
                   = true) by exact (contains_marker_prefix (": " +:+ e)).
      unfold usable. now rewrite Hm. }
    exists s', prompt, e. auto.
  - destruct (H ("LLM_API_ERROR: Client failure: " +:+ e))
      as (s' & Hloop & Hc & Hrest).
    { now rewrite He. }
    { assert (Hm : PyStr.contains "LLM_API_ERROR"
                     ("LLM_API_ERROR: Client failure: " +:+ e) = true)
        by exact (contains_marker_prefix (": Client failure: " +:+ e)).
      unfold usable. now rewrite Hm. }
    exists s', prompt, ("Client failure: " +:+ e). auto.
Qed.

Lemma client_exception_aborts_witness :
  exists s' prompt detail,
    agent_loop w_client_down 4 "icici" "Date Description Balance"
      init_loop_state (initial_state fs_ok)
    = (Ret (Broke, init_loop_state), s') /\
    llm_calls (trace s') = [] ++ [(prompt, "LLM_API_ERROR: " +:+ detail)] /\
    fs s' = fs_ok /\
    file_writes (trace s') = [] /\
    subprocess_runs (trace s') = [].
Proof.
  apply (client_exception_aborts w_client_down "icici"
           "Date Description Balance" 3 init_loop_state
           (initial_state fs_ok)).
  - unfold MAX_ATTEMPTS. simpl. lia.
  - intros tr prompt _. exists "connection refused". right. reflexivity.
Defined.

Lemma run_shape_files (w : World) (target : string) f st r evs f' :
  validator_read_only w ->
  run_shape w target f st r evs f' ->
  dirs f ⊆ dirs f' /\
  (forall other,
     other <> PARSER_PATH -> files f' !! other = files f !! other) /\
  files f' !! PARSER_PATH
  = match last (file_writes evs) with
    | Some (_, content) => Some content
    | None => files f !! PARSER_PATH
    end.
Proof.
  intros Hro.
  assert (Hw : forall tr cmd code f0 res f1,
            subprocess_run w tr cmd (written code PARSER_PATH f0) = (res, f1) ->
            dirs f0 ⊆ dirs f1 /\
            (forall other, other <> PARSER_PATH ->
                           files f1 !! other = files f0 !! other) /\
            files f1 !! PARSER_PATH = Some (preamble +:+ code)).
  { intros tr cmd code f0 res f1 Hrun.
    pose proof (Hro tr cmd (written code PARSER_PATH f0)) as H.
    rewrite Hrun in H. cbn [snd] in H. subst f1. cbn [written files dirs].
    split; [apply union_subseteq_l|].
    split; [intros other Hne; now apply lookup_insert_ne
           | apply lookup_insert_eq]. }
  induction 1 as [f st Hge|f st|f st prompt reply Hlt Hu
                 |f st prompt Hlt
                 |f st prompt reply e Hlt Hu Hmk
                 |f st prompt reply e Hlt Hu Hmk Hwr
                 |f st prompt reply tr p f' Hlt Hu Hse Hrun Hp
                 |f st prompt reply tr e f' Hlt Hu Hse Hrun
                 |f st prompt reply tr p f' r evs f'' Hlt Hu Hse Hrun Hp Hsh IH];
    try rewrite file_writes_app;
    cbn [file_writes aborted_block no_text_block tested_block omap list_omap
         last app];
    try (split; [reflexivity|]; split; reflexivity);
    try (exact (Hw _ _ _ _ _ _ Hrun)).
  { unfold made_dirs. cbn [files dirs].
    split; [apply union_subseteq_l|]. split; reflexivity. }
  destruct (Hw _ _ _ _ _ _ Hrun) as (Hd & Ho & Hp').
  destruct IH as (IHd & IHo & IHp). split; [etrans; eassumption|]. split.
  - intros other Hne. now rewrite IHo, Ho.
  - rewrite IHp, last_cons.
    destruct (last (file_writes evs)) as [[path content]|];
      [reflexivity | exact Hp'].
Qed.

(** X7: when the validation subprocess leaves the file system alone, a run
    changes no file but [custom_parsers/icici_parser.py]: every other
    file, the three fixtures among them, has the content it had before,
    no directory disappears, and the artifact path holds what the last
    write of the run put there, or its old content when the run wrote
    nothing. *)
Theorem run_touches_only_artifact (w : World) (args_target : string)
    (f : FS) :
  validator_read_only w ->
  let rs := main w args_target (initial_state f) in
  dirs f ⊆ dirs (fs (snd rs)) /\
  (forall other,
     other <> PARSER_PATH ->
     files (fs (snd rs)) !! other = files f !! other) /\
  files (fs (snd rs)) !! PARSER_PATH
  = match last (file_writes (trace (snd rs))) with
    | Some (_, content) => Some content
    | None => files f !! PARSER_PATH
    end.
Proof.
  intros Hro. cbn zeta.
  pose proof (main_shape w args_target f) as H. cbn zeta in H.
  rewrite <- file_writes_effects.
  destruct (prerequisites w f).
  - eapply run_shape_files; eassumption.
  - destruct H as (_ & -> & ->). cbn. split; [reflexivity|].
    split; [intros; reflexivity | reflexivity].
Qed.

Lemma run_touches_only_artifact_witness :
  dirs fs_stale ⊆ dirs (fs (snd (main w_stuck "icici" (initial_state fs_stale)))) /\
  (forall other,
     other <> PARSER_PATH ->
     files (fs (snd (main w_stuck "icici" (initial_state fs_stale)))) !! other
     = files fs_stale !! other) /\
  files (fs (snd (main w_stuck "icici" (initial_state fs_stale))))
    !! PARSER_PATH
  = match last (file_writes
                  (trace (snd (main w_stuck "icici"
                                 (initial_state fs_stale))))) with
    | Some (_, content) => Some content
    | None => files fs_stale !! PARSER_PATH
    end.
Proof.
  apply (run_touches_only_artifact w_stuck "icici" fs_stale).
  intros tr cmd f. reflexivity.
Defined.

(** ** Texts *)

Module PyStripFacts.
Import PyStr.

Lemma lstrip_suffix (s : string) : exists a, s = a +:+ lstrip s.
Proof.
  induction s as [|c s [a IH]]; [now exists ""|]. cbn [lstrip].
  destruct (isspace c); [|now exists ""].
  exists (String c a). now rewrite PyStrFacts.app_cons, <- IH.
Qed.

Lemma rstrip_prefix (s : string) : exists b, s = rstrip s +:+ b.
Proof.
  induction s as [|c s [b IH]]; [now exists ""|]. cbn [rstrip].
  destruct (isspace c && is_empty (rstrip s)) eqn:E.
  - now exists (String c s).
  - exists b. now rewrite PyStrFacts.app_cons, <- IH.
Qed.

Lemma strip_sub (s : string) : exists a b, s = a +:+ strip s +:+ b.
Proof.
  unfold strip. destruct (lstrip_suffix s) as [a Ha].
  destruct (rstrip_prefix (lstrip s)) as [b Hb].
  exists a, b. now rewrite <- Hb.
Qed.

Lemma contains_strip (needle s : string) :
  contains needle (strip s) = true -> contains needle s = true.
Proof.
  destruct (strip_sub s) as (a & b & Hs). rewrite Hs at 2.
  intros H. now apply PyStrFacts.contains_app_r, PyStrFacts.contains_app_l.
Qed.

Lemma starts_with_space_lstrip (s : string) :
  starts_with_space (lstrip s) = false.
Proof.
  induction s as [|c s IH]; [reflexivity|]. cbn [lstrip].
  destruct (isspace c) eqn:E; [exact IH | exact E].
Qed.

Lemma lstrip_fixed (s : string) : starts_with_space s = false -> lstrip s = s.
Proof. destruct s as [|c s]; [reflexivity|]. cbn. now intros ->. Qed.

Lemma starts_with_space_rstrip (s : string) :
  starts_with_space s = false -> starts_with_space (rstrip s) = false.
Proof.
  destruct s as [|c s]; [reflexivity|]. cbn [starts_with_space rstrip].
  intros Hc. rewrite Hc. cbn [andb starts_with_space]. exact Hc.
Qed.

Lemma rstrip_idem (s : string) : rstrip (rstrip s) = rstrip s.
Proof.
  induction s as [|c s IH]; [reflexivity|]. cbn [rstrip].
  destruct (isspace c && is_empty (rstrip s)) eqn:E; [reflexivity|].
  cbn [rstrip]. now rewrite IH, E.
Qed.

Lemma strip_idem (s : string) : strip (strip s) = strip s.
Proof.
  unfold strip. rewrite lstrip_fixed, rstrip_idem; [reflexivity|].
  apply starts_with_space_rstrip, starts_with_space_lstrip.
Qed.

Lemma str_forall_lstrip P (s : string) :
  str_forall P s = true -> str_forall P (lstrip s) = true.
Proof.
  induction s as [|c s IH]; [reflexivity|]. cbn [lstrip].
  destruct (isspace c); [|trivial].
  cbn [str_forall]. intros [_ H]%andb_prop. now apply IH.
Qed.

Lemma str_forall_rstrip P (s : string) :
  str_forall P s = true -> str_forall P (rstrip s) = true.
Proof.
  induction s as [|c s IH]; [reflexivity|]. cbn [rstrip str_forall].
  intros [Hc H]%andb_prop.
  destruct (isspace c && is_empty (rstrip s)); [reflexivity|].
  cbn [str_forall]. now rewrite Hc, IH.
Qed.

Lemma take_cons (n : nat) (c : ascii) (s : string) :
  take (S n) (String c s) = String c (take n s).
Proof. reflexivity. Qed.

Lemma str_forall_take P (n : nat) (s : string) :
  str_forall P s = true -> str_forall P (take n s) = true.
Proof.
  revert s. induction n as [|n IH]; intros [|c s]; try reflexivity.
  rewrite take_cons. cbn [str_forall].
  intros [Hc H]%andb_prop. now rewrite Hc, IH.
Qed.

Lemma length_take (n : nat) (s : string) : String.length (take n s) <= n.
Proof.
  revert s. induction n as [|n IH]; intros [|c s];
    try (change (0 <= 0); lia); try (change (0 <= S n); lia).
  rewrite take_cons. cbn [String.length]. specialize (IH s). lia.
Qed.

Lemma starts_with_space_take (n : nat) (s : string) :
  starts_with_space s = false -> starts_with_space (take n s) = false.
Proof. destruct n, s; trivial. Qed.

Lemma str_forall_sub_non_ascii (in_run : bool) (text : string) :
  str_forall is_ascii (sub_non_ascii_runs in_run text) = true.
Proof.
  revert in_run. induction text as [|c text IH]; intros in_run;
    [reflexivity|].
  cbn [sub_non_ascii_runs]. destruct (non_ascii c) eqn:E.
  - destruct in_run; [apply IH|]. cbn [str_forall]. now rewrite IH.
  - cbn [str_forall]. unfold is_ascii at 1. now rewrite E, IH.
Qed.

End PyStripFacts.

(** X8: when PyPDF2 reads the pages, the sample text handed to the prompt
    builder is at most 3000 characters long, holds ASCII characters only
    and does not start with white space; reading changes nothing.  The
    text is cut after it is trimmed, so it may still end with white
    space. *)
Theorem pdf_sample_bounded_ascii (w : World) (pdf_path : string) (s : State)
    (pages : list (option string)) :
  pdf_reader w (fs s) pdf_path = PdfPages pages ->
  exists text,
    read_pdf_text_for_prompt w pdf_path s = (Ret text, s) /\
    String.length text <= 3000 /\
    str_forall is_ascii text = true /\
    starts_with_space text = false.
Proof.
  intros Hpdf. unfold read_pdf_text_for_prompt, get_fs.
  unfold mbind, M_bind, bind. rewrite Hpdf.
  eexists. split; [reflexivity|]. split; [apply PyStripFacts.length_take|].
  split.
  - apply PyStripFacts.str_forall_take. unfold PyStr.strip.
    apply PyStripFacts.str_forall_rstrip, PyStripFacts.str_forall_lstrip.
    apply PyStripFacts.str_forall_sub_non_ascii.
  - apply PyStripFacts.starts_with_space_take. unfold PyStr.strip.
    apply PyStripFacts.starts_with_space_rstrip.
    apply PyStripFacts.starts_with_space_lstrip.
Qed.

Lemma pdf_sample_bounded_ascii_witness :
  exists text,
    read_pdf_text_for_prompt w_stuck PDF_PATH (initial_state fs_ok)
    = (Ret text, initial_state fs_ok) /\
    String.length text <= 3000 /\
    str_forall is_ascii text = true /\
    starts_with_space text = false.
Proof.
  apply (pdf_sample_bounded_ascii w_stuck PDF_PATH (initial_state fs_ok)
           [Some "Date Description Balance"]).
  reflexivity.
Defined.

(** ** The code extractor, further *)

Lemma drop_prefix_app_l (p x rest z : string) :
  PyStr.drop_prefix p x = Some rest ->
  PyStr.drop_prefix p (x +:+ z) = Some (rest +:+ z).
Proof.
  intros H. apply PyStrFacts.drop_prefix_Some in H as ->.
  rewrite PyStrFacts.app_assoc. apply PyStrFacts.drop_prefix_app.
Qed.

(** What precedes the first occurrence of a needle does not hold it. *)
Lemma split_first_before (needle hay before rest : string) :
  needle <> "" ->
  PyStr.split_first needle hay = Some (before, rest) ->
  PyStr.contains needle before = false.
Proof.
  intros Hne. revert before. induction hay as [|c hay IH]; intros before.
  - cbn [PyStr.split_first].
    destruct (PyStr.drop_prefix needle "") as [r|] eqn:E; [|discriminate].
    apply PyStrFacts.drop_prefix_Some in E.
    destruct needle; [contradiction | discriminate E].
  - cbn [PyStr.split_first].
    destruct (PyStr.drop_prefix needle (String c hay)) as [r|] eqn:E.
    + intros [= <- <-]. unfold PyStr.contains. cbn [PyStr.split_first].
      destruct needle as [|a n]; [contradiction | reflexivity].
    + destruct (PyStr.split_first needle hay) as [[b r]|] eqn:F;
        [|discriminate].
      intros [= <- <-]. specialize (IH b eq_refl).
      unfold PyStr.contains in *. cbn [PyStr.split_first].
      destruct (PyStr.drop_prefix needle (String c b)) as [y|] eqn:G.
      * apply PyStrFacts.split_first_Some in F. rewrite F in E.
        apply (drop_prefix_app_l _ _ _ (needle +:+ r)) in G.
        rewrite <- PyStrFacts.app_cons in E. congruence.
      * destruct (PyStr.split_first needle b) as [[? ?]|];
          [discriminate IH | reflexivity].
Qed.

Lemma contains_false_no_block (s : string) :
  PyStr.contains fence_close s = false -> ~ has_python_block s.
Proof.
  intros H (before & body & rest & ->).
  assert (PyStr.contains fence_close
            (before +:+ fence_open +:+ body +:+ fence_close +:+ rest) = true)
    by (do 2 apply PyStrFacts.contains_app_r; apply PyStrFacts.contains_app).
  congruence.
Qed.

Lemma has_python_block_strip (s : string) :
  has_python_block (PyStr.strip s) -> has_python_block s.
Proof.
  intros (before & body & rest & Hs).
  destruct (PyStripFacts.strip_sub s) as (a & b & Heq). rewrite Hs in Heq.
  exists (a +:+ before), body, (rest +:+ b). rewrite Heq.
  now rewrite !PyStrFacts.app_assoc.
Qed.

Lemma extract_block_fence_free (response group1 : string) :
  re_search_python_block response = Some group1 ->
  PyStr.contains fence_close group1 = false.
Proof.
  induction response as [|c response IH].
  - cbn [re_search_python_block].
    destruct (PyStr.drop_prefix fence_open "") as [r|] eqn:E;
      [|discriminate].
    apply PyStrFacts.drop_prefix_Some in E. discriminate E.
  - cbn [re_search_python_block].
    destruct (PyStr.drop_prefix fence_open (String c response)) as [r|];
      [|exact IH].
    destruct (PyStr.split_first fence_close r) as [[b a]|] eqn:F;
      cbn [fmap option_fmap option_map fst]; [|exact IH].
    intros [= <-]. eapply split_first_before; [discriminate | exact F].
Qed.

Lemma extract_strip_fixed (response : string) :
  PyStr.strip (extract_python_code response) = extract_python_code response.
Proof.
  unfold extract_python_code.
  destruct (re_search_python_block response); apply PyStripFacts.strip_idem.
Qed.

(** X9: the text [extract_python_code] returns is always trimmed, so the
    second [strip] of line 208 changes nothing; and when the response holds
    a fenced [python] block, the text returned holds no fence at all. *)
Theorem extracted_code_trimmed_fence_free (response : string) :
  PyStr.strip (extract_python_code response) = extract_python_code response
  /\ (has_python_block response ->
      PyStr.contains fence_close (extract_python_code response) = false).
Proof.
  split; [apply extract_strip_fixed|].
  unfold extract_python_code.
  - intros Hblock.
    destruct (re_search_python_block response) as [g|] eqn:E.
    + apply extract_block_fence_free in E.
      destruct (PyStr.contains fence_close (PyStr.strip g)) eqn:C;
        [|reflexivity].
      apply PyStripFacts.contains_strip in C. congruence.
    + now apply re_search_python_block_None in E.
Qed.

(** X10: extracting twice is extracting once: the code taken from a
    response is returned unchanged when it is itself given to
    [extract_python_code]. *)
Theorem extract_python_code_idempotent (response : string) :
  extract_python_code (extract_python_code response)
  = extract_python_code response.
Proof.
  assert (Hno : ~ has_python_block (extract_python_code response)).
  { unfold extract_python_code.
    destruct (re_search_python_block response) as [g|] eqn:E.
    - apply contains_false_no_block.
      destruct (PyStr.contains fence_close (PyStr.strip g)) eqn:C;
        [|reflexivity].
      apply PyStripFacts.contains_strip in C.
      apply extract_block_fence_free in E. congruence.
    - intros H. apply has_python_block_strip in H.
      now apply re_search_python_block_None in E. }
  apply re_search_python_block_None in Hno.
  unfold extract_python_code at 1. rewrite Hno.
  apply extract_strip_fixed.
Qed.

(** ** The prompt builder and the artifact writer, further *)

(** X11: [generate_prompt] never raises and changes nothing; the prompt
    it returns, initial or refinement, holds the target in upper case, the
    PDF sample text, and the column list read from the CSV file, or the
    five default column names when the CSV file cannot be read. *)
Theorem prompt_embeds_context (w : World)
    (target pdf_text csv_path : string) (is_initial : bool)
    (previous_code error_trace : string) (s : State) :
  exists prompt,
    generate_prompt w target pdf_text csv_path is_initial previous_code
      error_trace s = (Ret prompt, s) /\
    PyStr.contains (PyStr.upper target) prompt = true /\
    PyStr.contains pdf_text prompt = true /\
    PyStr.contains
      (match read_csv_columns w (fs s) csv_path with
       | Some columns => columns
       | None => "['Date', 'Description', 'Withdrawal', 'Deposit', 'Balance']"
       end) prompt = true.
Proof.
  eexists. split; [reflexivity|].
  set (cols := read_csv_columns w (fs s) csv_path).
  assert (Hbase :
    PyStr.contains (PyStr.upper target) (base_prompt target pdf_text cols)
    = true /\
    PyStr.contains pdf_text (base_prompt target pdf_text cols) = true /\
    PyStr.contains (default default_columns_repr cols)
      (base_prompt target pdf_text cols) = true).
  { unfold base_prompt. split; [|split].
    - do 4 apply PyStrFacts.contains_app_r. apply PyStrFacts.contains_app.
    - do 8 apply PyStrFacts.contains_app_r. apply PyStrFacts.contains_app.
    - do 6 apply PyStrFacts.contains_app_r. apply PyStrFacts.contains_app. }
  destruct Hbase as (H1 & H2 & H3).
  assert (H3' : PyStr.contains
                  match cols with
                  | Some columns => columns
                  | None => "['Date', 'Description', 'Withdrawal', 'Deposit', 'Balance']"
                  end (base_prompt target pdf_text cols) = true)
    by (destruct cols; exact H3).
  unfold generate_prompt_text. fold cols.
  destruct is_initial; repeat split; now apply PyStrFacts.contains_app_l.
Qed.

Lemma first_file_dirs (f : FS) (prefixes : list string) :
  (forall p, p ∈ prefixes -> p ∈ dirs f) -> first_file f prefixes = None.
Proof.
  induction prefixes as [|p rest IH]; intros H; [reflexivity|].
  cbn [first_file]. unfold is_file at 1.
  rewrite (bool_decide_eq_true_2 (p ∈ dirs f)) by (apply H; left).
  rewrite andb_false_r. apply IH. intros q Hq. apply H. now right.
Qed.

(** Once the directories are made, making them again raises nothing. *)
Lemma makedirs_error_made (f f' : FS) (d : string) :
  makedirs_error f d = None ->
  dirs f' = dirs f ∪ list_to_set (path_prefixes "" d) ->
  makedirs_error f' d = None.
Proof.
  unfold makedirs_error. destruct (PyStr.is_empty d); [discriminate|].
  intros _ Hd. apply first_file_dirs. intros p Hp. rewrite Hd.
  now apply elem_of_union_r, elem_of_list_to_set.
Qed.

(** Whether [open] raises depends on the directories only. *)
Lemma write_error_dirs (f1 f2 : FS) (path : string) :
  dirs f1 = dirs f2 ->
  write_error f2 path = None -> write_error f1 path = None.
Proof.
  unfold write_error. intros ->.
  destruct (PyStr.is_empty path); [discriminate|].
  destruct (bool_decide (path ∈ dirs f2)); [discriminate|].
  destruct (PyStr.is_empty (dirname path) || all_slashes (dirname path)
            || bool_decide (dirname path ∈ dirs f2)); [reflexivity|].
  destruct (is_file f2 (dirname path)); discriminate.
Qed.

(** X12: writing the artifact twice leaves the file system as the second
    write alone would: the earlier artifact is gone without a trace. *)
Theorem save_parser_last_write_wins (code1 code2 path : string) (s : State) :
  PyStr.is_empty (dirname path) = false ->
  fs (snd (save_parser code2 path (snd (save_parser code1 path s))))
  = fs (snd (save_parser code2 path s)).
Proof.
  intros _. set (d := dirname path).
  assert (Hidem : forall f : FS,
            dirs f ∪ list_to_set (path_prefixes "" d)
              ∪ list_to_set (path_prefixes "" d)
            = dirs f ∪ list_to_set (path_prefixes "" d)).
  { intros f. now rewrite <- (assoc_L (∪)), (idemp_L (∪)). }
  rewrite (save_parser_spec code1 path s). fold d.
  destruct (makedirs_error (fs s) d) as [e|] eqn:Hmk; [reflexivity|].
  rewrite (save_parser_spec code2 path s). fold d. rewrite Hmk.
  destruct (write_error (made_dirs (fs s) d) path) as [e|] eqn:Hwr;
    cbn [snd]; rewrite save_parser_spec; cbn [fs trace]; fold d.
  - rewrite (makedirs_error_made (fs s) (made_dirs (fs s) d) d Hmk eq_refl).
    assert (Hm : made_dirs (made_dirs (fs s) d) d = made_dirs (fs s) d).
    { unfold made_dirs. cbn [files dirs]. now rewrite Hidem. }
    rewrite Hm, Hwr. reflexivity.
  - rewrite (makedirs_error_made (fs s) (written code1 path (fs s)) d Hmk
               eq_refl).
    rewrite (write_error_dirs (made_dirs (written code1 path (fs s)) d)
               (made_dirs (fs s) d) path).
    + cbn [fs snd]. unfold written. cbn [files dirs]. fold d. f_equal.
      * apply insert_insert_eq.
      * apply Hidem.
    + unfold made_dirs, written. cbn [dirs]. fold d. apply Hidem.
    + exact Hwr.
Qed.

Lemma save_parser_last_write_wins_witness :
  fs (snd (save_parser "y = 2" PARSER_PATH
             (snd (save_parser "x = 1" PARSER_PATH (initial_state fs_ok)))))
  = fs (snd (save_parser "y = 2" PARSER_PATH (initial_state fs_ok))).
Proof.
  apply (save_parser_last_write_wins "x = 1" "y = 2" PARSER_PATH
           (initial_state fs_ok)).
  reflexivity.
Defined.

(** * Further properties of the generated parser *)

Module IciciParserFacts2.
Import IciciParser IciciParserSpec IciciParserSpec2 IciciParserFacts.

(** X13: a table row becomes a transaction exactly when it has five cells
    and its first cell, trimmed, has the form of two digits, two digits and
    four digits separated by hyphens; it is then kept with every cell
    trimmed.  The tests for blank rows and for header rows never change
    which rows are kept. *)
Theorem row_kept_iff_five_cells_and_date (row : list (option string)) :
  collect_row row
  = if (length row =? 5)%nat
       && re_match_date (default EmptyString (clean_cells row !! 0))
    then [clean_cells row] else [].
Proof. apply row_kept_iff_five_cells_and_date_aux. Qed.

(** X14: every row [parse] returns comes from a row of a table of the
    PDF that has five cells and a date-like first cell.  Its Date is that
    cell with the day, month and year reordered to YYYY-MM-DD, digit for
    digit; its Description is the trimmed second cell; its Withdrawal,
    Deposit and Balance are read from the trimmed third, fourth and fifth
    cell. *)
Theorem parsed_row_provenance {number : Type}
    (pdfplumber_open : string -> open_result)
    (to_numeric : string -> option number) (pdf_path : string)
    (pages : list (list (list (list (option string)))))
    (df : DataFrame) (out : list value) :
  pdfplumber_open pdf_path = Opened pages ->
  parse pdfplumber_open to_numeric pdf_path = Parsed df ->
  out ∈ data df ->
  exists tables table row c0 c1 c2 c3 c4,
    tables ∈ pages /\ table ∈ tables /\ row ∈ table /\
    clean_cells row = [c0; c1; c2; c3; c4] /\
    re_match_date c0 = true /\
    out = [VStr (rearrange_dmy c0); VStr c1; amount_of to_numeric c2;
           amount_of to_numeric c3; amount_of to_numeric c4].
Proof.
  intros Hopen Hparse Hout.
  rewrite (parse_opened _ _ _ _ Hopen) in Hparse.
  injection Hparse as <-. cbn [data] in Hout.
  now apply result_row_origin.
Qed.

Lemma parsed_row_provenance_witness :
  exists tables table row c0 c1 c2 c3 c4,
    tables ∈ statement_tables /\ table ∈ tables /\ row ∈ table /\
    clean_cells row = [c0; c1; c2; c3; c4] /\
    re_match_date c0 = true /\
    [VStr "2024-08-01"; VStr "ATM WDL"; VNum (Qmake 0 100); VNaN;
     VNum (Qmake 10050 100)]
    = [VStr (rearrange_dmy c0); VStr c1; amount_of read_plain_decimal c2;
       amount_of read_plain_decimal c3; amount_of read_plain_decimal c4].
Proof.
  apply (parsed_row_provenance open_sample read_plain_decimal PDF_PATH
           statement_tables
           {| columns := target_schema_columns;
              data := [[VStr "2024-08-01"; VStr "ATM WDL";
                        VNum (Qmake 0 100); VNaN; VNum (Qmake 10050 100)];
                       [VStr "2024-08-02"; VStr "REVERSAL"; VNaN;
                        VNum (Qmake (-25000) 100);
                        VNum (Qmake 35050 100)]] |}).
  - reflexivity.
  - vm_compute. reflexivity.
  - cbn [data]. constructor.
Defined.

(** X15: pages are read independently and in order: the rows [parse]
    returns for a document are the rows it returns for its first pages
    followed by the rows it returns for the remaining pages. *)
Theorem parse_pages_concatenate {number : Type}
    (open_a open_b open_ab : string -> open_result)
    (to_numeric : string -> option number) (pdf_path : string)
    (a b : list (list (list (list (option string))))) :
  open_a pdf_path = Opened a ->
  open_b pdf_path = Opened b ->
  open_ab pdf_path = Opened (a ++ b) ->
  exists da db,
    parse open_a to_numeric pdf_path = Parsed da /\
    parse open_b to_numeric pdf_path = Parsed db /\
    parse open_ab to_numeric pdf_path
    = Parsed {| columns := target_schema_columns;
                data := data da ++ data db |}.
Proof.
  intros Ha Hb Hab.
  rewrite (parse_opened _ _ _ _ Ha), (parse_opened _ _ _ _ Hb),
    (parse_opened _ _ _ _ Hab).
  eexists _, _. split; [reflexivity|]. split; [reflexivity|].
  cbn [data]. now rewrite !List.flat_map_app.
Qed.

Lemma parse_pages_concatenate_witness :
  exists da db,
    parse open_sample read_plain_decimal PDF_PATH = Parsed da /\
    parse open_sample read_plain_decimal PDF_PATH = Parsed db /\
    parse open_sample_twice read_plain_decimal PDF_PATH
    = Parsed {| columns := target_schema_columns;
                data := data da ++ data db |}.
Proof.
  apply (parse_pages_concatenate open_sample open_sample open_sample_twice
           read_plain_decimal PDF_PATH statement_tables statement_tables);
    reflexivity.
Defined.

End IciciParserFacts2.

(** * Properties of the validation script *)

Module TestTemplateFacts.
Import TestTemplate.

(** X16: the agent reads a run of the validation script as PASS exactly
    when the script was given a target and either the body of [run_test]
    reached its end, or the body was left by an exception that is no
    [Exception] with status 0 while the captured text holds ["SUCCESS"].
    Every [AssertionError] and every other [Exception] of the generated
    parser or of the comparison gives FAIL, whatever was printed. *)
Theorem script_passes_iff (argv : list string) (b : body_run) :
  passes (completed (script_main argv b)) = true <->
  2 <= length argv /\
  (body_end b = BodyDone \/
   exists msg,
     body_end b = BodyBaseException 0 msg /\
     PyStr.contains "SUCCESS"
       (out (script_main argv b) +:+ err (script_main argv b)) = true).
Proof.
  unfold script_main.
  destruct (length argv <? 2)%nat eqn:Hargv.
  { apply Nat.ltb_lt in Hargv. split; [discriminate | intros [H _]; lia]. }
  apply Nat.ltb_ge in Hargv. unfold run_test, passes, completed.
  destruct (body_end b) as [|eh ah tb| |code msg] eqn:Hend;
    cbn [exit_code out err returncode stdout stderr].
  - split; [intros _; split; [exact Hargv | now left]|]. intros _.
    cbn [Z.eqb andb]. unfold printed.
    rewrite !PyStrFacts.app_assoc.
    do 5 apply PyStrFacts.contains_app_r.
    apply PyStrFacts.contains_true.
    exists PyStr.nl,
      (": Parser output matches expected CSV (T4)." +:+ PyStr.nl
       +:+ body_stderr b).
    reflexivity.
  - split.
    + intros H. exfalso.
      destruct eh as [e|]; [destruct ah as [a|]|];
        cbn [exit_code returncode] in H; discriminate H.
    + intros [_ [H|(msg & H & _)]]; discriminate H.
  - split; [discriminate|]. intros [_ [H|(msg & H & _)]]; discriminate H.
  - split.
    + intros [Hc Hs]%andb_prop. apply Z.eqb_eq in Hc as ->.
      split; [exact Hargv|]. right. exists msg. split; [reflexivity|].
      exact Hs.
    + intros [_ [H|(msg' & [= -> <-] & Hs)]]; [discriminate H|].
      now rewrite Hs.
Qed.

End TestTemplateFacts.
